(** * FAIRMeta: the metadata normalization and validation engine

    A shallow embedding of [metadata_model.py] (class [MetadataRecord]):
    the Field Filler [_fill_fields], the Mapping Resolver [_populate_FDP],
    the cardinality pass [_ensure_lists], the vocabulary pass
    [_string_to_enum] with [_to_enum], [_language_transformation] and
    [_legal_basis_transformation], and the Validator [_drop_none] /
    [validate].

    Python values are modelled with an explicit object store: lists and
    model instances are mutable objects addressed by a location, so that
    sharing between the configuration tree and the record tree, in-place
    list updates and "no mutation" properties are statements about the
    store.  Every operation is a state-and-exception computation whose
    outcome carries the store reached, also when an exception is raised. *)

From Stdlib Require Import ZArith String Ascii List DecimalString Lia Bool.
From stdpp Require Import base list strings.

Open Scope string_scope.

Set Warnings "-register-all".

(** ** Python strings

    A Python string is a sequence of Unicode code points.  A string of
    this development is the UTF-8 text of the Python string: [len] and
    slices count code points, not bytes.  Case conversion and [repr] are
    Unicode's: for text that is all ASCII they are written out here; for
    any other text they are the interpreter's own, which the engine is
    given with the schema (fields [str_lower], [str_upper] and [str_repr]
    of the record [Schema] below). *)

Module PyStr.

Definition lower_char (c : ascii) : ascii :=
  let n := nat_of_ascii c in
  if (65 <=? n)%nat && (n <=? 90)%nat then ascii_of_nat (n + 32) else c.

Definition upper_char (c : ascii) : ascii :=
  let n := nat_of_ascii c in
  if (97 <=? n)%nat && (n <=? 122)%nat then ascii_of_nat (n - 32) else c.

Fixpoint map_chars (f : ascii -> ascii) (s : string) : string :=
  match s with
  | EmptyString => EmptyString
  | String c r => String (f c) (map_chars f r)
  end.

(** every code point of the text is below 128 *)
Fixpoint is_ascii (s : string) : bool :=
  match s with
  | EmptyString => true
  | String c r => (nat_of_ascii c <? 128)%nat && is_ascii r
  end.

(** a byte that continues the code point begun before it *)
Definition is_continuation (c : ascii) : bool :=
  let n := nat_of_ascii c in (128 <=? n)%nat && (n <? 192)%nat.

(** [len(s)]: the number of code points *)
Fixpoint length (s : string) : nat :=
  match s with
  | EmptyString => 0
  | String c r => if is_continuation c then length r else Datatypes.S (length r)
  end.

(** [s.lower()] and [s.upper()]; [table] is the interpreter's conversion,
    used for text that is not all ASCII *)
Definition lower (table : string -> string) (s : string) : string :=
  if is_ascii s then map_chars lower_char s else table s.

Definition upper (table : string -> string) (s : string) : string :=
  if is_ascii s then map_chars upper_char s else table s.

(** [s[:n]]: the first [n] code points *)
Fixpoint take (n : nat) (s : string) : string :=
  match s with
  | EmptyString => EmptyString
  | String c r =>
      if is_continuation c then String c (take n r)
      else
        match n with
        | 0 => EmptyString
        | Datatypes.S n' => String c (take n' r)
        end
  end.

(** [sep.join(l)] *)
Definition join (sep : string) (l : list string) : string := String.concat sep l.

(** [p in s] for strings *)
Fixpoint contains (p s : string) : bool :=
  String.prefix p s ||
  match s with
  | EmptyString => false
  | String _ r => contains p r
  end.

Fixpoint has_char (c : ascii) (s : string) : bool :=
  match s with
  | EmptyString => false
  | String d r => Ascii.eqb c d || has_char c r
  end.

(** the characters of a string, as [for c in s] yields them: one string
    for each code point *)
Fixpoint chars (s : string) : list string :=
  match s with
  | EmptyString => []
  | String c r =>
      match r with
      | String d _ =>
          if is_continuation d then
            match chars r with
            | x :: xs => String c x :: xs
            | [] => [String c EmptyString]
            end
          else String c EmptyString :: chars r
      | EmptyString => [String c EmptyString]
      end
  end.

Definition squote : ascii := ascii_of_nat 39.
Definition dquote : ascii := ascii_of_nat 34.
Definition backslash : ascii := ascii_of_nat 92.

Definition hex_digit (n : nat) : ascii :=
  if (n <? 10)%nat then ascii_of_nat (48 + n) else ascii_of_nat (87 + n).

Definition escape_char (q c : ascii) : string :=
  let n := nat_of_ascii c in
  if Ascii.eqb c q || Ascii.eqb c backslash then String backslash (String c EmptyString)
  else if (n =? 9)%nat then String backslash "t"
  else if (n =? 10)%nat then String backslash "n"
  else if (n =? 13)%nat then String backslash "r"
  else if (n <? 32)%nat || (n =? 127)%nat then
    String backslash (String "x" (String (hex_digit (n / 16)) (String (hex_digit (n mod 16)) EmptyString)))
  else String c EmptyString.

Fixpoint escape (q : ascii) (s : string) : string :=
  match s with
  | EmptyString => EmptyString
  | String c r => escape_char q c ++ escape q r
  end.

(** [repr(s)] of an ASCII string: single quotes, unless the string has a
    single quote and no double quote *)
Definition repr_ascii (s : string) : string :=
  let q := if has_char squote s && negb (has_char dquote s) then dquote else squote in
  String q (escape q s ++ String q EmptyString).

(** [repr(s)]; [table] is the interpreter's, used for text that is not
    all ASCII *)
Definition repr (table : string -> string) (s : string) : string :=
  if is_ascii s then repr_ascii s else table s.

(** [str(n)] of an integer *)
Definition of_Z (z : Z) : string := NilZero.string_of_int (Z.to_int z).

End PyStr.

(** ** Values, objects and the store *)

Definition loc := nat.

(** A Python value.  [VAtom cls s r] is an immutable object of another
    class (an enumeration member such as [AccessRights.public], an
    [AnyHttpUrl], a date) with its [str()] and its [repr()]; [VRef] points
    to a list or to a model instance in the store. *)
Inductive pyval : Type :=
| VNone
| VBool (b : bool)
| VInt (z : Z)
| VStr (s : string)
| VAtom (cls str_ repr_ : string)
| VTuple (xs : list pyval)
| VDict (kvs : list (string * pyval))
| VRef (l : loc).

(** A stored object: a [list], or an instance of a [BaseModel] class with
    the attributes that are set, in the order of its [__dict__]. *)
Inductive hobj : Type :=
| HList (xs : list pyval)
| HModel (cls : string) (attrs : list (string * pyval)).

Inductive event : Type :=
| Warn (msg : string)        (* warnings.warn *)
| Print (msg : string)       (* print *)
| LogInfo (msg : string).    (* logging.info *)

Record state : Type := mkState { heap : list hobj; events : list event }.

Inductive exn : Type :=
| AttributeError (msg : string)
| TypeError (msg : string)
| ValueError (msg : string)
| ValidationError (msg : string).

(** The outcome of a computation: a result, or a raised exception, both
    with the state reached; [OutOfFuel] when the recursion bound given to
    a traversal of the store is used up. *)
Inductive outcome (A : Type) : Type :=
| Ok (a : A) (s : state)
| Raise (e : exn) (s : state)
| OutOfFuel.

Arguments Ok {A} a s.
Arguments Raise {A} e s.
Arguments OutOfFuel {A}.

Definition M (A : Type) : Type := state -> outcome A.

Definition ret {A} (a : A) : M A := fun s => Ok a s.

Definition bind {A B} (m : M A) (k : A -> M B) : M B :=
  fun s =>
    match m s with
    | Ok a s' => k a s'
    | Raise e s' => Raise e s'
    | OutOfFuel => OutOfFuel
    end.

Definition raise {A} (e : exn) : M A := fun s => Raise e s.

Definition out_of_fuel {A} : M A := fun _ => OutOfFuel.

Definition emit (ev : event) : M unit :=
  fun s => Ok tt (mkState (heap s) (events s ++ [ev])).

Declare Scope py_scope.
Delimit Scope py_scope with py.
Notation "'do' x <~ m ; k" := (bind m (fun x => k))
  (at level 10, x name, m at level 100, k at level 200) : py_scope.
Notation "m ;;; k" := (bind m (fun _ => k))
  (at level 100, k at level 200, right associativity) : py_scope.
Open Scope py_scope.

(** [for x in l: body x] *)
Fixpoint for_each {A} (l : list A) (body : A -> M unit) : M unit :=
  match l with
  | [] => ret tt
  | x :: r => body x ;;; for_each r body
  end.

(** ** Dictionaries with string keys, in insertion order *)

Fixpoint dict_get {A} (k : string) (d : list (string * A)) : option A :=
  match d with
  | [] => None
  | (k', v) :: r => if String.eqb k k' then Some v else dict_get k r
  end.

(** [d[k] = v] *)
Fixpoint dict_set {A} (k : string) (v : A) (d : list (string * A)) : list (string * A) :=
  match d with
  | [] => [(k, v)]
  | (k', v') :: r => if String.eqb k k' then (k, v) :: r else (k', v') :: dict_set k v r
  end.

Definition dict_keys {A} (d : list (string * A)) : list string := map fst d.

(** ** Objects in the store *)

Definition deref (s : state) (v : pyval) : option hobj :=
  match v with
  | VRef l => heap s !! l
  | _ => None
  end.

(** [isinstance(v, list)], with the elements *)
Definition as_list (s : state) (v : pyval) : option (list pyval) :=
  match deref s v with
  | Some (HList xs) => Some xs
  | _ => None
  end.

(** [isinstance(v, BaseModel)], with the class and the attributes *)
Definition as_model (s : state) (v : pyval) : option (string * list (string * pyval)) :=
  match deref s v with
  | Some (HModel cls attrs) => Some (cls, attrs)
  | _ => None
  end.

Definition is_list (s : state) (v : pyval) : bool :=
  match as_list s v with Some _ => true | None => false end.

Definition is_model (s : state) (v : pyval) : bool :=
  match as_model s v with Some _ => true | None => false end.

(** [isinstance(v, C)] for a class [C] that is not [list] *)
Definition isinstance (s : state) (v : pyval) (c : string) : bool :=
  match v with
  | VAtom c' _ _ => String.eqb c' c
  | VRef _ =>
      match as_model s v with
      | Some (c', _) => String.eqb c' c
      | None => false
      end
  | _ => false
  end.

Definition type_name (s : state) (v : pyval) : string :=
  match v with
  | VNone => "NoneType"
  | VBool _ => "bool"
  | VInt _ => "int"
  | VStr _ => "str"
  | VAtom c _ _ => c
  | VTuple _ => "tuple"
  | VDict _ => "dict"
  | VRef l =>
      match heap s !! l with
      | Some (HList _) => "list"
      | Some (HModel c _) => c
      | None => "object"
      end
  end.

(** [bool(v)] *)
Definition truthy (s : state) (v : pyval) : bool :=
  match v with
  | VNone => false
  | VBool b => b
  | VInt z => negb (z =? 0)%Z
  | VStr t => negb (String.eqb t "")
  | VAtom _ _ _ => true
  | VTuple xs => negb (Nat.eqb (length xs) 0)
  | VDict kvs => negb (Nat.eqb (length kvs) 0)
  | VRef _ =>
      match as_list s v with
      | Some xs => negb (Nat.eqb (length xs) 0)
      | None => true
      end
  end.

Definition is_none (v : pyval) : bool :=
  match v with VNone => true | _ => false end.

(** a new object, at the first free location *)
Definition alloc (o : hobj) : M pyval :=
  fun s => Ok (VRef (length (heap s))) (mkState (heap s ++ [o]) (events s)).

Definition store (l : loc) (o : hobj) : M unit :=
  fun s => Ok tt (mkState (<[l := o]> (heap s)) (events s)).

Definition no_attribute (s : state) (v : pyval) (name : string) : exn :=
  AttributeError ("'" ++ type_name s v ++ "' object has no attribute '" ++ name ++ "'").

(** ** The schema

    The classes of [schema_definitions_hri] and the lookup tables of
    [mappings] are not part of the sources at hand, strict validation is
    pydantic's, and the Unicode tables are the interpreter's: they are
    what the engine is given.  A field descriptor
    carries what the code reads from [model_fields]: the name, the text of
    the annotation ([str(field.annotation)]), [is_required()] and the
    default that [model_construct] installs. *)

Record FieldInfo : Type := mkField {
  fname : string;
  annotation : string;
  required : bool;
  default : pyval
}.

Record Schema : Type := mkSchema {
  model_fields : string -> list FieldInfo;
  access_rights : list (string * pyval);
  themes : list (string * pyval);
  licenses : list (string * pyval);
  statuses : list (string * pyval);
  frequencies : list (string * pyval);
  (** [cls.model_validate(snapshot, strict=True)]: [Some msg] is a
      ValidationError; it reads its argument and changes nothing *)
  model_validate : string -> state -> pyval -> option string;
  (** [str.lower], [str.upper] and [repr] of the interpreter, for text
      that is not all ASCII *)
  str_lower : string -> string;
  str_upper : string -> string;
  str_repr : string -> string
}.

(** [class MetadataRecord(BaseModel)]: [catalog: Catalog],
    [config: Optional[dict] = None], [api_data: Optional[dict] = None] *)
Definition record_fields : list FieldInfo :=
  [ mkField "catalog" "<class 'schema_definitions_hri.Catalog'>" true VNone;
    mkField "config" "typing.Optional[dict]" false VNone;
    mkField "api_data" "typing.Optional[dict]" false VNone ].

Section Engine.

Context (S : Schema).

(** [obj.model_fields] of an instance of class [cls] *)
Definition fields_of (cls : string) : list FieldInfo :=
  if String.eqb cls "MetadataRecord" then record_fields else model_fields S cls.

Definition declares (cls name : string) : bool :=
  existsb (fun f => String.eqb (fname f) name) (fields_of cls).

(** [getattr(obj, name)]: the attribute of a model instance if it is set *)
Definition getattr (obj : pyval) (name : string) : M pyval :=
  fun s =>
    match as_model s obj with
    | Some (_, attrs) =>
        match dict_get name attrs with
        | Some v => Ok v s
        | None => Raise (no_attribute s obj name) s
        end
    | None => Raise (no_attribute s obj name) s
    end.

Definition no_field (cls name : string) : exn :=
  let q := String PyStr.dquote EmptyString in
  ValueError (q ++ cls ++ q ++ " object has no field " ++ q ++ name ++ q).

(** [setattr(obj, name, v)]: assignment is not validated; a name that the
    class does not declare is refused *)
Definition setattr (obj : pyval) (name : string) (v : pyval) : M unit :=
  fun s =>
    match obj, as_model s obj with
    | VRef l, Some (cls, attrs) =>
        if declares cls name
        then store l (HModel cls (dict_set name v attrs)) s
        else Raise (no_field cls name) s
    | _, _ => Raise (no_attribute s obj name) s
    end.

(** [cls.model_construct(given)]: no validation; the fields given are
    set, the others get their default unless they are required *)
Fixpoint construct_attrs (fields : list FieldInfo) (given : list (string * pyval))
  : list (string * pyval) :=
  match fields with
  | [] => []
  | f :: r =>
      match dict_get (fname f) given with
      | Some v => (fname f, v) :: construct_attrs r given
      | None =>
          if required f then construct_attrs r given
          else (fname f, default f) :: construct_attrs r given
      end
  end.

Definition model_construct (cls : string) (given : list (string * pyval)) : M pyval :=
  alloc (HModel cls (construct_attrs (fields_of cls) given)).

(** ** Field Filler *)

Definition fill_hint : string :=
  "Likely in one of the fields creator, publisher, or contact_point, something else than a dictionary or list was given".

(** [try: body except AttributeError as e: print(fill_hint); raise e] *)
Definition reporting_attribute_error {A} (body : M A) : M A :=
  fun s =>
    match body s with
    | Raise (AttributeError msg) s' =>
        Raise (AttributeError msg) (mkState (heap s') (events s' ++ [Print fill_hint]))
    | r => r
    end.

(** the class that [_fill_fields] instantiates for a structural key *)
Definition structural_class (key : string) : option string :=
  if String.eqb key "catalog" then Some "Catalog"
  else if String.eqb key "dataset" then Some "Dataset"
  else if String.eqb key "distribution" then Some "Distribution"
  else if String.eqb key "creator" || String.eqb key "publisher" then Some "Agent"
  else if String.eqb key "contact_point" then Some "Kind"
  else None.

Fixpoint _fill_fields (FDP_obj : pyval) (config : pyval) {struct config} : M unit :=
  reporting_attribute_error
    match config with
    | VDict kvs =>
        (fix items (kvs : list (string * pyval)) : M unit :=
           match kvs with
           | [] => ret tt
           | (key, value) :: rest =>
               (fun s =>
                  if is_list s value then setattr FDP_obj key value s
                  else
                    match structural_class key with
                    | Some cls =>
                        (do child <~ model_construct cls [];
                         setattr FDP_obj key child ;;;
                         do got <~ getattr FDP_obj key;
                         _fill_fields got value) s
                    | None =>
                        if String.eqb key "mapping" then Ok tt s
                        else if truthy s value then setattr FDP_obj key value s
                        else Ok tt s
                    end) ;;;
               items rest
           end) kvs
    | _ => fun s => Raise (no_attribute s config "items") s
    end.

(** ** Mapping Resolver *)

(** [for x in v] over a value: the elements of a list or tuple, the
    characters of a string, the keys of a dict, the (name, value) pairs of
    a model instance *)
Definition iterate (v : pyval) : M (list pyval) :=
  fun s =>
    match v with
    | VStr t => Ok (map VStr (PyStr.chars t)) s
    | VTuple xs => Ok xs s
    | VDict kvs => Ok (map VStr (dict_keys kvs)) s
    | VRef l =>
        match heap s !! l with
        | Some (HList xs) => Ok xs s
        | Some (HModel _ attrs) => Ok (map (fun kv => VTuple [VStr (fst kv); snd kv]) attrs) s
        | None => Raise (TypeError ("'" ++ type_name s v ++ "' object is not iterable")) s
        end
    | _ => Raise (TypeError ("'" ++ type_name s v ++ "' object is not iterable")) s
    end.

(** [setattr] with a computed name *)
Definition setattr_named (obj : pyval) (name : pyval) (v : pyval) : M unit :=
  match name with
  | VStr n => setattr obj n v
  | _ => fun s => Raise (TypeError ("attribute name must be string, not '" ++ type_name s name ++ "'")) s
  end.

(** [a + b] where [a] is a list: a new list *)
Definition list_concat (a b : pyval) : M pyval :=
  fun s =>
    match as_list s a, as_list s b with
    | Some xs, Some ys => alloc (HList (xs ++ ys)) s
    | _, _ =>
        Raise (TypeError ("can only concatenate list (not " ++ String PyStr.dquote EmptyString
                          ++ type_name s b ++ String PyStr.dquote EmptyString ++ ") to list")) s
    end.

Definition is_keyword (name : pyval) : bool :=
  match name with
  | VStr n => String.eqb n "keyword"
  | _ => false
  end.

(** the body of [for internal_field in internal_fields], with
    [api_value = api_data[api_field]] *)
Definition populate_write (FDP_obj : pyval) (api_value : pyval) (internal_field : pyval) : M unit :=
  fun s =>
    if truthy s api_value then
      if is_keyword internal_field then
        (do kw <~ getattr FDP_obj "keyword";
         fun s1 =>
           if is_list s1 kw then
             (do kw' <~ getattr FDP_obj "keyword";
              do joined <~ list_concat kw' api_value;
              setattr_named FDP_obj internal_field joined) s1
           else setattr_named FDP_obj internal_field api_value s1) s
      else setattr_named FDP_obj internal_field api_value s
    else Ok tt s.

(** the body of [for api_field, internal_fields in value.items()] *)
Definition populate_entry (FDP_obj : pyval) (api_data : list (string * pyval))
  (entry : string * pyval) : M unit :=
  let (api_field, internal_fields) := entry in
  match dict_get api_field api_data with
  | Some api_value =>
      do names <~ iterate internal_fields;
      for_each names (populate_write FDP_obj api_value)
  | None => ret tt
  end.

(** [case "mapping"] *)
Definition populate_mapping (FDP_obj : pyval) (api_data : list (string * pyval))
  (value : pyval) : M unit :=
  match value with
  | VDict entries => for_each entries (populate_entry FDP_obj api_data)
  | _ => ret tt
  end.

(** the keys under which [_populate_FDP] descends *)
Definition descends (field : string) : bool :=
  String.eqb field "catalog" || String.eqb field "dataset" || String.eqb field "distribution".

Fixpoint _populate_FDP (FDP_obj : pyval) (api_data : list (string * pyval))
  (config : pyval) {struct config} : M unit :=
  match config with
  | VDict kvs =>
      (fix items (kvs : list (string * pyval)) : M unit :=
         match kvs with
         | [] => ret tt
         | (field, value) :: rest =>
             (if descends field then
                do child <~ getattr FDP_obj field;
                _populate_FDP child api_data value
              else if String.eqb field "mapping" then populate_mapping FDP_obj api_data value
              else ret tt) ;;;
             items rest
         end) kvs
  | _ => fun s => Raise (no_attribute s config "items") s
  end.

(** [MetadataRecord.create_FDP_instance(config, api_data)]; [None] for an
    argument that is not given *)
Definition create_FDP_instance (config : pyval) (api_data : option (list (string * pyval)))
  : M pyval :=
  let api_value := match api_data with Some d => VDict d | None => VNone end in
  do FDP_obj <~ model_construct "MetadataRecord" [("config", config); ("api_data", api_value)];
  if is_none config then ret FDP_obj
  else
    _fill_fields FDP_obj config ;;;
    match api_data with
    | Some d => _populate_FDP FDP_obj d config ;;; ret FDP_obj
    | None => ret FDP_obj
    end.

(** ** Text of a value: [repr(v)] and [str(v)]

    The recursion follows references into the store, so it is bounded by
    [fuel]; [None] when the bound is used up. *)

Fixpoint py_repr (fuel : nat) (s : state) (v : pyval) {struct fuel} : option string :=
  match v with
  | VNone => Some "None"
  | VBool b => Some (if b then "True" else "False")
  | VInt z => Some (PyStr.of_Z z)
  | VStr t => Some (PyStr.repr (str_repr S) t)
  | VAtom _ _ r => Some r
  | VTuple xs =>
      match fuel with
      | 0 => None
      | Datatypes.S n =>
          parts ← mapM (py_repr n s) xs;
          Some ("(" ++ PyStr.join ", " parts ++ (if Nat.eqb (length xs) 1 then "," else "") ++ ")")
      end
  | VDict kvs =>
      match fuel with
      | 0 => None
      | Datatypes.S n =>
          parts ← mapM (fun kv => r ← py_repr n s (snd kv); Some (PyStr.repr (str_repr S) (fst kv) ++ ": " ++ r)) kvs;
          Some ("{" ++ PyStr.join ", " parts ++ "}")
      end
  | VRef l =>
      match fuel with
      | 0 => None
      | Datatypes.S n =>
          match heap s !! l with
          | Some (HList xs) =>
              parts ← mapM (py_repr n s) xs;
              Some ("[" ++ PyStr.join ", " parts ++ "]")
          | Some (HModel cls attrs) =>
              parts ← mapM (fun kv => r ← py_repr n s (snd kv); Some (fst kv ++ "=" ++ r)) attrs;
              Some (cls ++ "(" ++ PyStr.join ", " parts ++ ")")
          | None => Some "<object>"
          end
      end
  end.

Definition py_str (fuel : nat) (s : state) (v : pyval) : option string :=
  match v with
  | VStr t => Some t
  | VAtom _ t _ => Some t
  | VRef l =>
      match heap s !! l, fuel with
      | Some (HModel cls attrs), Datatypes.S n =>
          parts ← mapM (fun kv => r ← py_repr n s (snd kv); Some (fst kv ++ "=" ++ r)) attrs;
          Some (PyStr.join " " parts)
      | Some (HModel _ _), 0 => None
      | _, _ => py_repr fuel s v
      end
  | _ => py_repr fuel s v
  end.

(** the text that an f-string puts for [{v}] *)
Definition format_value (fuel : nat) (v : pyval) : M string :=
  fun s =>
    match py_str fuel s v with
    | Some t => Ok t s
    | None => OutOfFuel
    end.

(** ** Vocabulary normalisation of one value *)

(** the second argument of [_to_enum]: a field name or a lookup table *)
Inductive kind : Type :=
| KLanguage
| KLegalBasis
| KTable (table : list (string * pyval)).

(** [len(v)]; of the immutable objects only the URL has a length, that of
    its text *)
Definition py_len (s : state) (v : pyval) : option nat :=
  match v with
  | VStr t => Some (PyStr.length t)
  | VTuple xs => Some (length xs)
  | VDict kvs => Some (length kvs)
  | VRef _ => option_map (@length pyval) (as_list s v)
  | VAtom c t _ => if String.eqb c "AnyHttpUrl" then Some (PyStr.length t) else None
  | _ => None
  end.

Definition language_authority : string :=
  "http://publications.europa.eu/resource/authority/language/".

Definition _language_transformation (value : pyval) : M pyval :=
  fun s =>
    match py_len s value with
    | None => Raise (TypeError ("object of type '" ++ type_name s value ++ "' has no len()")) s
    | Some n =>
        if (3 <=? n)%nat then
          match value with
          | VStr t =>
              Ok (VStr (language_authority ++ PyStr.upper (str_upper S) (PyStr.take 3 t))) s
          | VDict _ => Raise (TypeError "unhashable type: 'slice'") s
          | VAtom c _ _ => Raise (TypeError ("'" ++ c ++ "' object is not subscriptable")) s
          | _ => Raise (no_attribute s value "upper") s
          end
        else Raise (ValueError "Provide at least 3 characters for language") s
    end.

Definition legal_basis_namespace : string := "https://w3id.org/dpv#".

Definition _legal_basis_transformation (fuel : nat) (value : pyval) : M pyval :=
  do text <~ format_value fuel value;
  ret (VStr (legal_basis_namespace ++ text)).

Definition not_supported (text : string) (table : list (string * pyval)) : exn :=
  ValueError (text ++ " incorrect or not supported. Supported values: "
              ++ PyStr.join ", " (dict_keys table)).

Definition _to_enum (fuel : nat) (value : pyval) (kind : kind) : M pyval :=
  match kind with
  | KLanguage => _language_transformation value
  | KLegalBasis => _legal_basis_transformation fuel value
  | KTable table =>
      match value with
      | VStr t =>
          match dict_get (PyStr.lower (str_lower S) t) table with
          | Some canonical => ret canonical
          | None => raise (not_supported t table)
          end
      | _ =>
          do text <~ format_value fuel value;
          raise (not_supported text table)
      end
  end.

(** ** Cardinality pass *)

(** ['List' in str(field.annotation)] *)
Definition is_list_type (f : FieldInfo) : bool := PyStr.contains "List" (annotation f).

(** the body of the loop of [_ensure_lists] for one field; [rec] is the
    pass itself *)
Definition ensure_field (rec : pyval -> M unit) (FDP_obj : pyval) (f : FieldInfo) : M unit :=
  let field_name := fname f in
  do value <~ getattr FDP_obj field_name;
  (fun s => if is_model s value then rec value s else Ok tt s) ;;;
  fun s =>
    if is_list_type f && negb (is_list s value) && negb (is_none value) then
      (do wrapped <~ alloc (HList [value]);
       setattr FDP_obj field_name wrapped) s
    else if negb (is_list_type f) && is_list s value then
      match as_list s value with
      | Some [x] =>
          (setattr FDP_obj field_name x ;;;
           emit (Warn ("Please do not put list in field: " ++ field_name))) s
      | _ => Raise (TypeError ("Found list where it is not supposed to be: " ++ field_name)) s
      end
    else Ok tt s.

Fixpoint _ensure_lists (fuel : nat) (FDP_obj : pyval) {struct fuel} : M unit :=
  match fuel with
  | 0 => out_of_fuel
  | Datatypes.S n =>
      fun s =>
        match as_model s FDP_obj with
        | Some (cls, _) => for_each (fields_of cls) (ensure_field (_ensure_lists n) FDP_obj) s
        | None => Raise (no_attribute s FDP_obj "model_fields") s
        end
  end.

(** ** Vocabulary pass *)

(** [value[position] = x] *)
Definition list_setitem (l : loc) (position : nat) (x : pyval) : M unit :=
  fun s =>
    match heap s !! l with
    | Some (HList xs) => store l (HList (<[position := x]> xs)) s
    | _ => Ok tt s
    end.

(** [for position, x in enumerate(value): body position x] over the list
    at [l]: the element is read when its turn comes *)
Fixpoint enumerate_from (n position : nat) (l : loc) (body : nat -> pyval -> M unit) : M unit :=
  match n with
  | 0 => ret tt
  | Datatypes.S n' =>
      fun s =>
        match heap s !! l with
        | Some (HList xs) =>
            match xs !! position with
            | Some x => (body position x ;;; enumerate_from n' (Datatypes.S position) l body) s
            | None => Ok tt s
            end
        | _ => Ok tt s
        end
  end.

Definition for_enumerate (l : loc) (body : nat -> pyval -> M unit) : M unit :=
  fun s =>
    match heap s !! l with
    | Some (HList xs) => enumerate_from (length xs) 0 l body s
    | _ => Ok tt s
    end.

(** a scalar field: [if not already: setattr(FDP_obj, field_name,
    _to_enum(value, kind))] *)
Definition convert_scalar (fuel : nat) (FDP_obj : pyval) (field_name : string)
  (already : bool) (value : pyval) (kind : kind) : M unit :=
  if already then ret tt
  else
    do canonical <~ _to_enum fuel value kind;
    setattr FDP_obj field_name canonical.

(** the body of the loop of [_string_to_enum] for one field *)
Definition string_to_enum_field (rec : pyval -> M unit) (fuel : nat)
  (FDP_obj : pyval) (field_name : string) : M unit :=
  do value <~ getattr FDP_obj field_name;
  fun s =>
    if truthy s value then
      ((fun s1 =>
          if is_model s1 value then rec value s1
          else
            match value with
            | VRef l =>
                for_enumerate l (fun _ v s2 => if is_model s2 v then rec v s2 else Ok tt s2) s1
            | _ => Ok tt s1
            end) ;;;
       fun s1 =>
         if String.eqb field_name "access_rights" then
           convert_scalar fuel FDP_obj field_name (isinstance s1 value "AccessRights")
             value (KTable (access_rights S)) s1
         else if String.eqb field_name "theme" then
           match value with
           | VRef l =>
               if is_list s1 value then
                 for_enumerate l (fun position theme s2 =>
                   if isinstance s2 theme "DatasetTheme" then Ok tt s2
                   else (do canonical <~ _to_enum fuel theme (KTable (themes S));
                         list_setitem l position canonical) s2) s1
               else
                 convert_scalar fuel FDP_obj field_name (isinstance s1 FDP_obj "DatasetTheme")
                   value (KTable (themes S)) s1
           | _ =>
               convert_scalar fuel FDP_obj field_name (isinstance s1 FDP_obj "DatasetTheme")
                 value (KTable (themes S)) s1
           end
         else if String.eqb field_name "language" then
           match value with
           | VRef l =>
               if is_list s1 value then
                 for_enumerate l (fun position lang s2 =>
                   if isinstance s2 lang "AnyHttpUrl" then Ok tt s2
                   else (do canonical <~ _to_enum fuel lang KLanguage;
                         list_setitem l position canonical) s2) s1
               else
                 convert_scalar fuel FDP_obj field_name (isinstance s1 FDP_obj "AnyHttpUrl")
                   value KLanguage s1
           | _ =>
               convert_scalar fuel FDP_obj field_name (isinstance s1 FDP_obj "AnyHttpUrl")
                 value KLanguage s1
           end
         else if String.eqb field_name "license" then
           convert_scalar fuel FDP_obj field_name (isinstance s1 value "AnyHttpUrl")
             value (KTable (licenses S)) s1
         else if String.eqb field_name "legal_basis" then
           match value with
           | VRef l =>
               if is_list s1 value then
                 for_enumerate l (fun position basis s2 =>
                   if isinstance s2 basis "AnyHttpUrl" then Ok tt s2
                   else (do canonical <~ _to_enum fuel value KLegalBasis;
                         list_setitem l position canonical) s2) s1
               else
                 convert_scalar fuel FDP_obj field_name (isinstance s1 value "AnyHttpUrl")
                   value KLegalBasis s1
           | _ =>
               convert_scalar fuel FDP_obj field_name (isinstance s1 value "AnyHttpUrl")
                 value KLegalBasis s1
           end
         else if String.eqb field_name "status" then
           convert_scalar fuel FDP_obj field_name (isinstance s1 value "DatasetStatus")
             value (KTable (statuses S)) s1
         else if String.eqb field_name "spatial" then Ok tt s1
         else if String.eqb field_name "frequency" then
           convert_scalar fuel FDP_obj field_name (isinstance s1 FDP_obj "AnyHttpUrl")
             value (KTable (frequencies S)) s1
         else Ok tt s1) s
    else Ok tt s.

Fixpoint _string_to_enum (fuel : nat) (FDP_obj : pyval) {struct fuel} : M unit :=
  match fuel with
  | 0 => out_of_fuel
  | Datatypes.S n =>
      fun s =>
        match as_model s FDP_obj with
        | Some (cls, _) =>
            for_each (fields_of cls)
              (fun f => string_to_enum_field (_string_to_enum n) n FDP_obj (fname f)) s
        | None => Raise (no_attribute s FDP_obj "model_fields") s
        end
  end.

(** ** Validator *)

Definition null_in_required : exn :=
  ValueError "Likely put null or null equivalent value in required field".

(** one round of the loop over [data.model_fields.items()] in
    [_drop_none]; [rec] is [_drop_none] itself *)
Definition drop_field (rec : pyval -> M pyval) (data : pyval)
  (result : list (string * pyval)) (f : FieldInfo) : M (list (string * pyval)) :=
  fun s =>
    match getattr data (fname f) s with
    | Ok value s1 =>
        if negb (is_none value) || required f then
          (do cleaned <~ rec value;
           ret (dict_set (fname f) cleaned result)) s1
        else Ok result s1
    | Raise _ s1 => Raise null_in_required s1
    | OutOfFuel => OutOfFuel
    end.

Fixpoint drop_fields (rec : pyval -> M pyval) (data : pyval)
  (fields : list FieldInfo) (result : list (string * pyval)) : M (list (string * pyval)) :=
  match fields with
  | [] => ret result
  | f :: r =>
      do result' <~ drop_field rec data result f;
      drop_fields rec data r result'
  end.

(** [{k: rec(v) for k, v in data.items() if v is not None}] *)
Fixpoint drop_items (rec : pyval -> M pyval) (items : list (string * pyval))
  (result : list (string * pyval)) : M (list (string * pyval)) :=
  match items with
  | [] => ret result
  | (k, v) :: r =>
      if is_none v then drop_items rec r result
      else
        do cleaned <~ rec v;
        drop_items rec r (dict_set k cleaned result)
  end.

(** [[rec(v) for v in data if v is not None]] *)
Fixpoint drop_elements (rec : pyval -> M pyval) (xs : list pyval) : M (list pyval) :=
  match xs with
  | [] => ret []
  | v :: r =>
      if is_none v then drop_elements rec r
      else
        do cleaned <~ rec v;
        do rest <~ drop_elements rec r;
        ret (cleaned :: rest)
  end.

Fixpoint _drop_none (fuel : nat) (data : pyval) {struct fuel} : M pyval :=
  fun s =>
    match data with
    | VRef l =>
        match heap s !! l, fuel with
        | None, _ => Ok data s
        | Some _, 0 => OutOfFuel
        | Some (HModel cls _), Datatypes.S n =>
            (do result <~ drop_fields (_drop_none n) data (fields_of cls) [];
             ret (VDict result)) s
        | Some (HList xs), Datatypes.S n =>
            (do result <~ drop_elements (_drop_none n) xs;
             alloc (HList result)) s
        end
    | VDict kvs =>
        match fuel with
        | 0 => OutOfFuel
        | Datatypes.S n =>
            (do result <~ drop_items (_drop_none n) kvs [];
             ret (VDict result)) s
        end
    | _ => Ok data s
    end.

(** [validate(self)] *)
Definition validate (fuel : nat) (self : pyval) : M unit :=
  do cleaned <~ _drop_none fuel self;
  fun s =>
    match as_model s self with
    | Some (cls, _) =>
        match model_validate S cls s cleaned with
        | Some msg => Raise (ValidationError msg) s
        | None => emit (LogInfo "Validation successful") s
        end
    | None => Raise (no_attribute s self "model_validate") s
    end.

End Engine.

(** ** A concrete schema

    Modelled from the spec: the node classes of [schema_definitions_hri]
    and the tables of [mappings] are not in the sources.  The descriptors
    below give each node type of the record tree (Catalog, Dataset,
    Distribution, Agent, Kind) the fields that the engine and its tests
    name, with the shape (sequence or scalar) and the mandatory flag the
    tests rely on; the tables hold the labels the tests use. *)

Module Hri.

Definition opt (name ann : string) : FieldInfo := mkField name ann false VNone.
Definition req (name ann : string) : FieldInfo := mkField name ann true VNone.

Definition text : string := "<class 'str'>".
Definition texts : string := "typing.List[str]".
Definition url : string := "<class 'pydantic.networks.AnyHttpUrl'>".
Definition urls : string := "typing.List[pydantic.networks.AnyHttpUrl]".

Definition catalog_fields : list FieldInfo :=
  [ req "title" texts; req "description" texts; req "contact_point" "<class 'Kind'>";
    req "publisher" "<class 'Agent'>"; opt "creator" "typing.List[Agent]";
    opt "license" url; opt "language" urls; opt "homepage" url;
    opt "applicable_legislation" urls; opt "dataset" "typing.List[Dataset]" ].

Definition dataset_fields : list FieldInfo :=
  [ req "title" texts; req "description" texts; req "identifier" text;
    opt "keyword" texts; req "theme" "typing.List[DatasetTheme]";
    req "access_rights" "<enum 'AccessRights'>"; req "contact_point" "<class 'Kind'>";
    opt "creator" "typing.List[Agent]"; opt "publisher" "<class 'Agent'>";
    opt "applicable_legislation" urls; opt "language" urls; opt "legal_basis" urls;
    opt "frequency" url; opt "status" "<enum 'DatasetStatus'>"; opt "purpose" urls;
    opt "distribution" "typing.List[Distribution]" ].

Definition distribution_fields : list FieldInfo :=
  [ req "access_url" url; req "byte_size" "<class 'int'>"; req "format" url;
    req "license" url; req "rights" url; opt "title" texts; opt "description" texts;
    opt "language" urls; opt "status" "<enum 'DistributionStatus'>" ].

Definition agent_fields : list FieldInfo :=
  [ req "mbox" text; req "identifier" texts; req "name" texts; req "homepage" url;
    opt "spatial" urls; opt "type" url; opt "publisher_type" url; opt "publisher_note" text ].

Definition kind_fields : list FieldInfo :=
  [ req "hasEmail" text; req "fn" text; opt "hasUrl" urls ].

Definition fields (cls : string) : list FieldInfo :=
  if String.eqb cls "Catalog" then catalog_fields
  else if String.eqb cls "Dataset" then dataset_fields
  else if String.eqb cls "Distribution" then distribution_fields
  else if String.eqb cls "Agent" then agent_fields
  else if String.eqb cls "Kind" then kind_fields
  else [].

Definition member (cls name uri : string) : pyval :=
  VAtom cls (cls ++ "." ++ name) ("<" ++ cls ++ "." ++ name ++ ": " ++ PyStr.repr_ascii uri ++ ">").

Definition access_rights_table : list (string * pyval) :=
  [ ("public", member "AccessRights" "public" "http://publications.europa.eu/resource/authority/access-right/PUBLIC");
    ("restricted", member "AccessRights" "restricted" "http://publications.europa.eu/resource/authority/access-right/RESTRICTED");
    ("non_public", member "AccessRights" "non_public" "http://publications.europa.eu/resource/authority/access-right/NON_PUBLIC") ].

Definition themes_table : list (string * pyval) :=
  [ ("heal", member "DatasetTheme" "heal" "http://publications.europa.eu/resource/authority/data-theme/HEAL");
    ("tech", member "DatasetTheme" "tech" "http://publications.europa.eu/resource/authority/data-theme/TECH") ].

Definition licenses_table : list (string * pyval) :=
  [ ("cc0", VStr "https://creativecommons.org/publicdomain/zero/1.0/") ].

Definition statuses_table : list (string * pyval) :=
  [ ("completed", member "DatasetStatus" "completed" "http://publications.europa.eu/resource/authority/dataset-status/COMPLETED");
    ("withdrawn", member "DatasetStatus" "withdrawn" "http://publications.europa.eu/resource/authority/dataset-status/WITHDRAWN") ].

Definition frequencies_table : list (string * pyval) :=
  [ ("daily", VStr "http://publications.europa.eu/resource/authority/frequency/DAILY");
    ("quarterly", VStr "http://publications.europa.eu/resource/authority/frequency/QUARTERLY") ].

(** Modelled from the spec: strict validation of a snapshot, as far as the
    mandatory fields of the validated node go: a mandatory field that is
    missing from the snapshot, or null in it, is a violation. *)
Definition missing_mandatory (cls : string) (snapshot : pyval) : option string :=
  match snapshot with
  | VDict kvs =>
      let fs := if String.eqb cls "MetadataRecord" then record_fields else fields cls in
      match List.filter (fun f => required f &&
                             match dict_get (fname f) kvs with
                             | Some v => is_none v
                             | None => true
                             end) fs with
      | [] => None
      | f :: _ => Some (fname f ++ ": Field required")
      end
  | _ => Some "Input should be a valid dictionary"
  end.

(** The text of the examples is all ASCII, so that the interpreter's
    tables are not consulted; this instance leaves any other text as it
    is. *)
Definition other_text (t : string) : string := t.

Definition schema : Schema :=
  mkSchema fields access_rights_table themes_table licenses_table statuses_table
           frequencies_table (fun cls _ snapshot => missing_mandatory cls snapshot)
           other_text other_text other_text.

(** a validator that accepts every snapshot *)
Definition lenient : Schema :=
  mkSchema fields access_rights_table themes_table licenses_table statuses_table
           frequencies_table (fun _ _ _ => None)
           other_text other_text other_text.

End Hri.

Definition empty_state : state := mkState [] [].

(** * Notions used in the statements *)

(** ** Induction over nested values *)

Definition is_flat (v : pyval) : bool :=
  match v with
  | VTuple _ | VDict _ => false
  | _ => true
  end.

Section pyval_nested.

Variable P : pyval -> Prop.

Hypothesis flat : forall v, is_flat v = true -> P v.
Hypothesis tuple : forall xs, Forall P xs -> P (VTuple xs).
Hypothesis dict : forall kvs, Forall (fun kv => P (snd kv)) kvs -> P (VDict kvs).

Fixpoint pyval_nested_ind (v : pyval) : P v :=
  match v with
  | VTuple xs =>
      tuple xs ((fix all (l : list pyval) : Forall P l :=
                   match l with
                   | [] => @List.Forall_nil _ P
                   | x :: r => @List.Forall_cons _ P x r (pyval_nested_ind x) (all r)
                   end) xs)
  | VDict kvs =>
      dict kvs ((fix all (l : list (string * pyval)) : Forall (fun kv => P (snd kv)) l :=
                   match l with
                   | [] => @List.Forall_nil _ _
                   | kv :: r => @List.Forall_cons _ _ kv r (pyval_nested_ind (snd kv)) (all r)
                   end) kvs)
  | VNone => flat VNone eq_refl
  | VBool b => flat (VBool b) eq_refl
  | VInt z => flat (VInt z) eq_refl
  | VStr t => flat (VStr t) eq_refl
  | VAtom c t r => flat (VAtom c t r) eq_refl
  | VRef l => flat (VRef l) eq_refl
  end.

End pyval_nested.

(** the keys of a dict are pairwise distinct *)
Fixpoint distinct (l : list string) : bool :=
  match l with
  | [] => true
  | k :: r => negb (existsb (String.eqb k) r) && distinct r
  end.

(** the state a computation ends in, the value it returns, the exception
    it raises *)
Definition final_state {A} (r : outcome A) : option state :=
  match r with
  | Ok _ s => Some s
  | Raise _ s => Some s
  | OutOfFuel => None
  end.

Definition result_of {A} (r : outcome A) : option A :=
  match r with
  | Ok a _ => Some a
  | _ => None
  end.

Definition error_of {A} (r : outcome A) : option exn :=
  match r with
  | Raise e _ => Some e
  | _ => None
  end.

(** the computation returned or raised within its fuel *)
Definition returns {A} (r : outcome A) : Prop :=
  match r with
  | OutOfFuel => False
  | _ => True
  end.

(** the objects of the store before a call, as they are after it *)
Definition preserved {A} (s : state) (r : outcome A) : Prop :=
  match final_state r with
  | Some s' => forall l o, heap s !! l = Some o -> heap s' !! l = Some o
  | None => True
  end.

(** the state after [obj.name = v] for the instance at [l] *)
Definition with_attr (s : state) (l : loc) (cls : string) (attrs : list (string * pyval))
  (name : string) (v : pyval) : state :=
  mkState (<[l := HModel cls (dict_set name v attrs)]> (heap s)) (events s).

(** the payload has no truthy value *)
Definition no_data (s : state) (api_data : list (string * pyval)) : Prop :=
  forall k v, dict_get k api_data = Some v -> truthy s v = false.

(** [s'] has the objects of [s], unchanged, at the same places, possibly
    followed by new ones, and the same events *)
Definition extends (s s' : state) : Prop :=
  exists ext, heap s' = (heap s ++ ext)%list /\ events s' = events s.

(** a computation that changes no object, allocates, and raises at most
    the error of [_drop_none] *)
Definition only_allocates {A} (m : M A) : Prop :=
  forall s,
    match m s with
    | Ok _ s' => extends s s'
    | Raise e s' => extends s s' /\ e = null_in_required
    | OutOfFuel => True
    end.

(** every reference reachable from [v] is in the store, and [v] nests
    containers at most [n] deep: the fuel that [_drop_none] needs *)
Fixpoint bounded (n : nat) (s : state) (v : pyval) {struct n} : bool :=
  match v with
  | VRef l =>
      match heap s !! l, n with
      | None, _ => false
      | Some _, 0 => false
      | Some (HList xs), Datatypes.S n' => forallb (bounded n' s) xs
      | Some (HModel _ attrs), Datatypes.S n' => forallb (fun kv => bounded n' s (snd kv)) attrs
      end
  | VDict kvs =>
      match n with
      | 0 => false
      | Datatypes.S n' => forallb (fun kv => bounded n' s (snd kv)) kvs
      end
  | _ => true
  end.

(** the fields that the snapshot of a node with attributes [attrs] keeps *)
Definition kept (attrs : list (string * pyval)) (f : FieldInfo) : bool :=
  match dict_get (fname f) attrs with
  | Some v => negb (is_none v) || required f
  | None => false
  end.

(** a value that [_drop_none] returns as it is *)
Definition is_leaf (v : pyval) : bool :=
  match v with
  | VRef _ | VDict _ => false
  | _ => true
  end.

(** [[v for v in xs if v is not None]] *)
Definition without_none (xs : list pyval) : list pyval :=
  List.filter (fun v => negb (is_none v)) xs.

(** the kind that [_string_to_enum] passes to [_to_enum] for a field that
    holds a raw scalar *)
Definition scalar_kind (S : Schema) (field_name : string) : option kind :=
  if String.eqb field_name "access_rights" then Some (KTable (access_rights S))
  else if String.eqb field_name "theme" then Some (KTable (themes S))
  else if String.eqb field_name "language" then Some KLanguage
  else if String.eqb field_name "license" then Some (KTable (licenses S))
  else if String.eqb field_name "legal_basis" then Some KLegalBasis
  else if String.eqb field_name "status" then Some (KTable (statuses S))
  else if String.eqb field_name "spatial" then None
  else if String.eqb field_name "frequency" then Some (KTable (frequencies S))
  else None.

(** the table-lookup fields, each with its table *)
Definition table_fields (S : Schema) : list (string * list (string * pyval)) :=
  [ ("access_rights", access_rights S); ("theme", themes S); ("license", licenses S);
    ("status", statuses S); ("frequency", frequencies S) ].

Section Notions.

Context (S : Schema).

(** the outcome of [validate] once the snapshot [cleaned] is made, in the
    state [s'] *)
Definition verdict (cls : string) (s' : state) (cleaned : pyval) : outcome unit :=
  match model_validate S cls s' cleaned with
  | Some msg => Raise (ValidationError msg) s'
  | None => Ok tt (mkState (heap s') (events s' ++ [LogInfo "Validation successful"]))
  end.

(** no snapshot of the node at [l] is made: [_drop_none] raises its
    ValueError and [validate] raises it too *)
Definition has_no_snapshot (n : nat) (s : state) (l : loc) : Prop :=
  exists s', extends s s' /\
    _drop_none S n (VRef l) s = Raise null_in_required s' /\
    validate S n (VRef l) s = Raise null_in_required s'.

(** the snapshot of the node at [l], of class [cls] with attributes
    [attrs], is the mapping [kvs], made in the state [s'] *)
Definition has_snapshot (n : nat) (s : state) (l : loc) (cls : string)
  (attrs kvs : list (string * pyval)) (s' : state) : Prop :=
  extends s s' /\
  _drop_none S n (VRef l) s = Ok (VDict kvs) s' /\
  dict_keys kvs = map fname (List.filter (kept attrs) (fields_of S cls)) /\
  (forall f, List.In f (fields_of S cls) -> kept attrs f = true ->
     exists v cleaned s1 s2,
       dict_get (fname f) attrs = Some v /\ extends s s1 /\
       _drop_none S (pred n) v s1 = Ok cleaned s2 /\
       dict_get (fname f) kvs = Some cleaned) /\
  (forall f, List.In f (fields_of S cls) -> required f = true ->
     dict_get (fname f) attrs = Some VNone -> dict_get (fname f) kvs = Some VNone) /\
  (forall f, List.In f (fields_of S cls) -> required f = false ->
     dict_get (fname f) attrs = Some VNone -> dict_get (fname f) kvs = None) /\
  validate S n (VRef l) s = verdict cls s' (VDict kvs).

End Notions.

(** ** Records for the examples *)

(** a computation run from the empty store; a configuration is built by a
    computation that first allocates its sequences *)
Definition run {A} (m : M A) : outcome A := m empty_state.

(** the value of [obj.a.b...] *)
Fixpoint getattr_path (obj : pyval) (path : list string) : M pyval :=
  match path with
  | [] => ret obj
  | name :: r => do child <~ getattr obj name; getattr_path child r
  end.

(** the elements of the list that [obj.a.b...] holds *)
Definition getlist_path (obj : pyval) (path : list string) : M (list pyval) :=
  do v <~ getattr_path obj path;
  fun s =>
    match as_list s v with
    | Some xs => Ok xs s
    | None => Raise (TypeError "not a list") s
    end.

(** [{catalog: {mapping: {challenge_title: [title]},
                creator: {mapping: {challenge_title: [name]}, mbox: ...}}}]
    with the payload [{challenge_title: "Title given by challenge"}] *)
Definition creator_mapping_config : M pyval :=
  do title <~ alloc (HList [VStr "title"]);
  do name <~ alloc (HList [VStr "name"]);
  ret (VDict [("catalog",
               VDict [("mapping", VDict [("challenge_title", title)]);
                      ("creator",
                       VDict [("mapping", VDict [("challenge_title", name)]);
                              ("mbox", VStr "catalog@testing.com")])])]).

Definition creator_mapping_payload : list (string * pyval) :=
  [("challenge_title", VStr "Title given by challenge")].

Definition creator_mapping_record : M pyval :=
  do config <~ creator_mapping_config;
  create_FDP_instance Hri.schema config (Some creator_mapping_payload).

(** the configuration of the fixture of [tests.py] (catalog with contact
    point and publisher, dataset with keyword and theme), with the values
    that vary as parameters; its payload; the record made from both *)
Definition fixture (fn language legal_basis : pyval) : M pyval :=
  do description <~ alloc (HList [VStr "description"]);
  do title <~ alloc (HList [VStr "title"]);
  do identifier <~ alloc (HList [VStr "identifier"]);
  do keyword <~ alloc (HList [VStr "keyword"]);
  do publisher_id <~ alloc (HList [VStr "identification"]);
  do publisher_name <~ alloc (HList [VStr "uitgever"]);
  do keywords <~ alloc (HList [VStr "Test platform"]);
  do theme <~ alloc (HList [VStr "HEAL"]);
  ret (VDict
    [("catalog", VDict
       [("mapping", VDict [("challenge_description", description);
                           ("challenge_title", title)]);
        ("contact_point", VDict [("hasEmail", VStr "test@testing.com"); ("fn", fn)]);
        ("publisher", VDict [("mbox", VStr "publisher@publishing.com");
                             ("identifier", publisher_id); ("name", publisher_name);
                             ("homepage", VStr "https://uitgeverij.nl")]);
        ("language", language);
        ("dataset", VDict
           [("mapping", VDict [("archive_description", description);
                               ("archive_title", title);
                               ("challenge_url", identifier);
                               ("challenge_keywords", keyword)]);
            ("access_rights", VStr "non_public");
            ("contact_point", VDict [("hasEmail", VStr "support@test.com");
                                     ("fn", VStr "testing support")]);
            ("keyword", keywords);
            ("theme", theme);
            ("legal_basis", legal_basis)])])]).

Definition payload : M (list (string * pyval)) :=
  do keywords <~ alloc (HList [VStr "Medical"; VStr "keyword2"]);
  ret [("challenge_description", VStr "Description given by challenge");
       ("challenge_title", VStr "Title given by challenge");
       ("archive_description", VStr "Description given by archive");
       ("archive_title", VStr "Title given by archive");
       ("challenge_url", VStr "url of the challenge");
       ("challenge_keywords", keywords)].

Definition record (S : Schema) (fn language legal_basis : pyval) : M pyval :=
  do config <~ fixture fn language legal_basis;
  do api_data <~ payload;
  create_FDP_instance S config (Some api_data).

Definition an_agent : hobj :=
  HModel "Agent"
    [("mbox", VStr "person@testing.com"); ("identifier", VRef 2); ("name", VRef 3);
     ("homepage", VStr "https://datasetmaker.org"); ("spatial", VNone); ("type", VNone);
     ("publisher_type", VNone); ("publisher_note", VNone)].

(** a contact point without its mandatory [fn], one with [fn] null, and a
    sequence with a null element *)
Definition kind_unset : state :=
  mkState [HModel "Kind" [("hasUrl", VNone); ("hasEmail", VStr "test@testing.com")]] [].

Definition kind_null_attrs : list (string * pyval) :=
  [("hasUrl", VNone); ("hasEmail", VStr "test@testing.com"); ("fn", VNone)].

Definition kind_null : state := mkState [HModel "Kind" kind_null_attrs] [].

Definition with_null_element : state := mkState [HList [VStr "a"; VNone; VStr "b"]] [].

(** a contact point whose [fn] holds a sequence inside a sequence *)
Definition kind_nested : state :=
  mkState [HModel "Kind" [("hasUrl", VNone); ("hasEmail", VStr "test@testing.com");
                          ("fn", VRef 1)];
           HList [VRef 2]; HList [VStr "David Tester"]] [].

(** ** Further notions *)

(** * Further notions: the Filler's loop, sequences that are kept *)

Section FillerLoop.

Context (S : Schema).

(** the body of the loop of [_fill_fields] for one entry of the
    configuration *)
Definition fill_item (FDP_obj : pyval) (key : string) (value : pyval) : M unit :=
  fun s =>
    if is_list s value then setattr S FDP_obj key value s
    else
      match structural_class key with
      | Some cls =>
          (do child <~ model_construct S cls [];
           setattr S FDP_obj key child ;;;
           do got <~ getattr FDP_obj key;
           _fill_fields S got value) s
      | None =>
          if String.eqb key "mapping" then Ok tt s
          else if truthy s value then setattr S FDP_obj key value s
          else Ok tt s
      end.

(** the loop of [_fill_fields] over the entries, without the handler
    around it *)
Fixpoint fill_items (FDP_obj : pyval) (kvs : list (string * pyval)) : M unit :=
  match kvs with
  | [] => ret tt
  | (key, value) :: rest => fill_item FDP_obj key value ;;; fill_items FDP_obj rest
  end.

End FillerLoop.

(** the state with one more [print] of the Filler's hint *)
Definition hinted (s : state) : state :=
  mkState (heap s) (events s ++ [Print fill_hint]).

(** from [s] to [s'] every sequence object is kept as it is, every node
    stays a node of its class, and no object disappears *)
Definition lists_kept (s s' : state) : Prop :=
  (forall l xs, heap s !! l = Some (HList xs) -> heap s' !! l = Some (HList xs)) /\
  (forall l cls attrs, heap s !! l = Some (HModel cls attrs) ->
     exists attrs', heap s' !! l = Some (HModel cls attrs')) /\
  (length (heap s) <= length (heap s'))%nat.

Definition keeps_lists {A} (m : M A) : Prop :=
  forall s,
    match final_state (m s) with
    | Some s' => lists_kept s s'
    | None => True
    end.

(** [for name in names: attrs[name] = v] *)
Definition set_all (names : list string) (v : pyval) (attrs : list (string * pyval))
  : list (string * pyval) :=
  fold_left (fun a name => dict_set name v a) names attrs.

(** the [api_data] attribute of a record made with the payload [given] *)
Definition payload_value (given : option (list (string * pyval))) : pyval :=
  match given with
  | Some d => VDict d
  | None => VNone
  end.

(** the store [s] with one more object, a record that has its
    configuration and its payload and nothing else *)
Definition bare_record (s : state) (config api_data : pyval) : state :=
  mkState (heap s ++ [HModel "MetadataRecord" [("config", config); ("api_data", api_data)]])
          (events s).

(** a value that is no node: not a reference, or a reference to a
    sequence *)
Definition plainb (s : state) (v : pyval) : bool :=
  match v with
  | VRef _ => is_list s v
  | _ => true
  end.

(** the field [f] of a node with attributes [attrs] is set, holds no
    node, and, if it is declared a scalar and holds a single-element
    sequence, the element is neither a node nor a sequence *)
Definition unnested (s : state) (attrs : list (string * pyval)) (f : FieldInfo) : bool :=
  match dict_get (fname f) attrs with
  | Some v =>
      plainb s v &&
      (is_list_type f ||
       match as_list s v with
       | Some [x] => plainb s x && negb (is_list s x)
       | _ => true
       end)
  | None => false
  end.

(** the field [f] holds a value of its declared shape: a sequence or
    null if it is declared a sequence, no sequence otherwise *)
Definition settled (s : state) (attrs : list (string * pyval)) (f : FieldInfo) : bool :=
  match dict_get (fname f) attrs with
  | Some v =>
      plainb s v &&
      (if is_list_type f then is_list s v || is_none v else negb (is_list s v))
  | None => false
  end.

(** *** The cardinality pass on one node *)






(** *** The cardinality pass on a tree of nodes *)












(** a contact point with a sequence in the scalar field [fn] and a bare
    string in the sequence field [hasUrl]; the same with two names *)
Definition kind_raw_attrs (fn : pyval) : list (string * pyval) :=
  [("hasEmail", VStr "test@testing.com"); ("fn", fn); ("hasUrl", VStr "https://example.com")].




(** a catalog whose contact point is the node above, held directly *)
Definition catalog_attrs (contact_point creator : pyval) : list (string * pyval) :=
  [("title", VNone); ("description", VNone); ("contact_point", contact_point);
   ("publisher", VNone); ("creator", creator); ("license", VNone); ("language", VNone);
   ("homepage", VNone); ("applicable_legislation", VNone); ("dataset", VNone)].

Definition catalog_with_contact : state :=
  mkState [HModel "Catalog" (catalog_attrs (VRef 1) VNone);
           HModel "Kind" (kind_raw_attrs (VRef 2)); HList [VStr "Test Person"]] [].





(** *** The record tree as a value, and the snapshot the spec asks for *)

(** What a value holds, read out of the store: a value that is no
    container, the elements of a sequence, the entries of a mapping, the
    attributes of a node. *)
Inductive tree : Type :=
| TLeaf (v : pyval)
| TList (xs : list tree)
| TDict (kvs : list (string * tree))
| TNode (cls : string) (attrs : list (string * tree)).

Definition read_entry (read : pyval -> option tree) (kv : string * pyval)
  : option (string * tree) :=
  t ← read (snd kv); Some (fst kv, t).

(** the tree below [v], if it nests containers less than [n] deep *)
Fixpoint read (n : nat) (s : state) (v : pyval) {struct n} : option tree :=
  match v with
  | VRef l =>
      match n with
      | 0 => None
      | Datatypes.S n' =>
          match heap s !! l with
          | Some (HList xs) => ts ← mapM (read n' s) xs; Some (TList ts)
          | Some (HModel cls attrs) =>
              kts ← mapM (read_entry (read n' s)) attrs; Some (TNode cls kts)
          | None => None
          end
      end
  | VDict kvs =>
      match n with
      | 0 => None
      | Datatypes.S n' => kts ← mapM (read_entry (read n' s)) kvs; Some (TDict kts)
      end
  | _ => Some (TLeaf v)
  end.

Definition is_null (t : tree) : bool :=
  match t with
  | TLeaf VNone => true
  | _ => false
  end.

(** of the declared fields, in their order, those whose value is not null
    or that are mandatory *)
Definition kept_fields (fields : list FieldInfo) (values : list (string * tree))
  : list (string * tree) :=
  flat_map (fun f => match dict_get (fname f) values with
                     | Some c => if negb (is_null c) || required f then [(fname f, c)] else []
                     | None => []
                     end) fields.

(** The snapshot as the spec words it: a plain nested mapping of the tree
    with every field whose value is null and not schema-mandatory removed,
    recursively, including inside sequences and nested nodes (null
    elements and null entries are removed there); fields that are
    schema-mandatory are retained even if null. *)
Fixpoint spec_snapshot (S : Schema) (t : tree) : tree :=
  match t with
  | TLeaf v => TLeaf v
  | TList xs =>
      TList ((fix elements (xs : list tree) : list tree :=
                match xs with
                | [] => []
                | x :: r => if is_null x then elements r else spec_snapshot S x :: elements r
                end) xs)
  | TDict kvs =>
      TDict ((fix items (kvs : list (string * tree)) : list (string * tree) :=
                match kvs with
                | [] => []
                | kv :: r =>
                    if is_null (snd kv) then items r
                    else (fst kv, spec_snapshot S (snd kv)) :: items r
                end) kvs)
  | TNode cls attrs =>
      TDict (kept_fields (fields_of S cls)
               ((fix values (kvs : list (string * tree)) : list (string * tree) :=
                   match kvs with
                   | [] => []
                   | kv :: r => (fst kv, spec_snapshot S (snd kv)) :: values r
                   end) attrs))
  end.

Definition spec_elements (S : Schema) (xs : list tree) : list tree :=
  map (spec_snapshot S) (List.filter (fun x => negb (is_null x)) xs).

Definition spec_items (S : Schema) (kvs : list (string * tree)) : list (string * tree) :=
  map (fun kv => (fst kv, spec_snapshot S (snd kv)))
      (List.filter (fun kv => negb (is_null (snd kv))) kvs).

Definition spec_values (S : Schema) (kvs : list (string * tree)) : list (string * tree) :=
  map (fun kv => (fst kv, spec_snapshot S (snd kv))) kvs.

(** The trees of which a snapshot is made: every declared field of every
    node is set; as in Python, the fields of a class and the keys of a
    mapping are pairwise different. *)
Fixpoint complete (S : Schema) (t : tree) : bool :=
  match t with
  | TLeaf _ => true
  | TList xs =>
      (fix all (xs : list tree) : bool :=
         match xs with
         | [] => true
         | x :: r => complete S x && all r
         end) xs
  | TDict kvs =>
      distinct (map fst kvs) &&
      (fix all (kvs : list (string * tree)) : bool :=
         match kvs with
         | [] => true
         | kv :: r => complete S (snd kv) && all r
         end) kvs
  | TNode cls attrs =>
      distinct (map fname (fields_of S cls)) &&
      forallb (fun f => match dict_get (fname f) attrs with
                        | Some _ => true
                        | None => false
                        end) (fields_of S cls) &&
      (fix all (kvs : list (string * tree)) : bool :=
         match kvs with
         | [] => true
         | kv :: r => complete S (snd kv) && all r
         end) attrs
  end.

(** the entries of [kvs], read in the state [s], are those of [kts] *)
Definition entries_read (n : nat) (s : state) (kvs : list (string * pyval))
  (kts : list (string * tree)) : Prop :=
  Forall2 (fun kv kt => read_entry (read n s) kv = Some kt) kvs kts.

(** [_drop_none] with fuel [n] makes the snapshot of the spec of every
    complete tree that nests less than [n] deep *)
Definition snapshot_refines (S : Schema) (n : nat) : Prop :=
  forall v s t,
    read n s v = Some t -> complete S t = true ->
    exists r s',
      _drop_none S n v s = Ok r s' /\ extends s s' /\
      read n s' r = Some (spec_snapshot S t).

(** a contact point whose sequence of addresses has a null element, and
    the tree of the catalog above *)
Definition kind_with_urls : state :=
  mkState [HModel "Kind" [("hasEmail", VStr "test@testing.com"); ("fn", VStr "Test Person");
                          ("hasUrl", VRef 1)];
           HList [VStr "https://example.com"; VNone]] [].

Definition catalog_with_contact_tree : tree :=
  TNode "Catalog"
    [("title", TLeaf VNone); ("description", TLeaf VNone);
     ("contact_point",
      TNode "Kind" [("hasEmail", TLeaf (VStr "test@testing.com"));
                    ("fn", TList [TLeaf (VStr "Test Person")]);
                    ("hasUrl", TLeaf (VStr "https://example.com"))]);
     ("publisher", TLeaf VNone); ("creator", TLeaf VNone); ("license", TLeaf VNone);
     ("language", TLeaf VNone); ("homepage", TLeaf VNone);
     ("applicable_legislation", TLeaf VNone); ("dataset", TLeaf VNone)].

(** *** Sequences in the vocabulary pass *)

(** what the pass makes of one element of a theme sequence: the value of
    the table for a raw label, the element itself if it is a theme
    already; no value where the pass raises *)
Definition canonical_theme (S : Schema) (x : pyval) : option pyval :=
  match x with
  | VStr t => dict_get (PyStr.lower (str_lower S) t) (themes S)
  | VAtom c _ _ => if String.eqb c "DatasetTheme" then Some x else None
  | _ => None
  end.

(** the same for one element of a language sequence *)
Definition canonical_language (S : Schema) (x : pyval) : option pyval :=
  match x with
  | VStr t =>
      if (3 <=? PyStr.length t)%nat
      then Some (VStr (language_authority ++ PyStr.upper (str_upper S) (PyStr.take 3 t)))
      else None
  | VAtom c _ _ => if String.eqb c "AnyHttpUrl" then Some x else None
  | _ => None
  end.

(** the state in which the sequence at [k] holds [cs] *)
Definition with_elements (s : state) (k : loc) (cs : list pyval) : state :=
  mkState (<[k := HList cs]> (heap s)) (events s).

(** a dataset of which only the theme and the language are set *)
Definition dataset_attrs (theme language : pyval) : list (string * pyval) :=
  [("title", VNone); ("description", VNone); ("identifier", VNone); ("keyword", VNone);
   ("theme", theme); ("access_rights", VNone); ("contact_point", VNone); ("creator", VNone);
   ("publisher", VNone); ("applicable_legislation", VNone); ("language", language);
   ("legal_basis", VNone); ("frequency", VNone); ("status", VNone); ("purpose", VNone);
   ("distribution", VNone)].

Definition tech_theme : pyval :=
  Hri.member "DatasetTheme" "tech"
    "http://publications.europa.eu/resource/authority/data-theme/TECH".

Definition heal_theme : pyval :=
  Hri.member "DatasetTheme" "heal"
    "http://publications.europa.eu/resource/authority/data-theme/HEAL".

(** * Properties *)

(** ** Dictionaries *)

Lemma existsb_eqb_In (k : string) (l : list string) :
  existsb (String.eqb k) l = true <-> List.In k l.
Proof.
  rewrite existsb_exists. split.
  - intros (x & Hx & He). apply String.eqb_eq in He. now subst.
  - intros H. exists k. split; [assumption | apply String.eqb_refl].
Qed.

Lemma distinct_NoDup (l : list string) : distinct l = true -> List.NoDup l.
Proof.
  induction l as [|k r IH]; simpl; intros H.
  - constructor.
  - apply andb_true_iff in H as [Hk Hr]. constructor.
    + intros Hin. apply existsb_eqb_In in Hin. rewrite Hin in Hk. discriminate.
    + now apply IH.
Qed.

Lemma dict_get_In {A} (k : string) (v : A) (d : list (string * A)) :
  dict_get k d = Some v -> List.In (k, v) d.
Proof.
  induction d as [|[k' v'] r IH]; simpl; [discriminate|].
  destruct (String.eqb k k') eqn:E.
  - apply String.eqb_eq in E. intros [= ->]. subst. now left.
  - intros H. right. now apply IH.
Qed.

Lemma dict_get_None {A} (k : string) (d : list (string * A)) :
  dict_get k d = None <-> ~ List.In k (dict_keys d).
Proof.
  induction d as [|[k' v'] r IH]; simpl.
  - tauto.
  - destruct (String.eqb k k') eqn:E.
    + apply String.eqb_eq in E. subst. split; [discriminate | intros H; exfalso; apply H; now left].
    + apply String.eqb_neq in E. rewrite IH. split.
      * intros H [H1|H1]; [congruence | tauto].
      * intros H H1. apply H. now right.
Qed.

Lemma In_dict_get {A} (k : string) (v : A) (d : list (string * A)) :
  List.NoDup (dict_keys d) -> List.In (k, v) d -> dict_get k d = Some v.
Proof.
  induction d as [|[k' v'] r IH]; simpl; [tauto|].
  intros Hnd [H|H].
  - injection H as -> ->. now rewrite String.eqb_refl.
  - inversion Hnd as [|? ? Hk Hr]; subst.
    destruct (String.eqb k k') eqn:E.
    + apply String.eqb_eq in E. subst. exfalso. apply Hk.
      change (List.In (fst (k', v)) (map fst r)). now apply in_map.
    + now apply IH.
Qed.

Lemma dict_get_set {A} (k k' : string) (v : A) (d : list (string * A)) :
  dict_get k (dict_set k' v d) = if String.eqb k k' then Some v else dict_get k d.
Proof.
  induction d as [|[k0 v0] r IH]; simpl.
  - reflexivity.
  - destruct (String.eqb k' k0) eqn:E0; simpl.
    + apply String.eqb_eq in E0. subst k0. destruct (String.eqb k k'); reflexivity.
    + rewrite IH. destruct (String.eqb k k0) eqn:E1; [|reflexivity].
      apply String.eqb_eq in E1. subst k0.
      rewrite String.eqb_sym in E0. now rewrite E0.
Qed.

Lemma dict_keys_set_new {A} (k : string) (v : A) (d : list (string * A)) :
  ~ List.In k (dict_keys d) -> dict_keys (dict_set k v d) = (dict_keys d ++ [k])%list.
Proof.
  induction d as [|[k0 v0] r IH]; simpl; intros H.
  - reflexivity.
  - destruct (String.eqb k k0) eqn:E.
    + apply String.eqb_eq in E. subst. exfalso. apply H. now left.
    + simpl. f_equal. apply IH. intros Hin. apply H. now right.
Qed.

(** ** The state reached by a computation *)

Lemma bind_Ok {A B} (m : M A) (k : A -> M B) (s s' : state) (a : A) :
  m s = Ok a s' -> bind m k s = k a s'.
Proof. unfold bind. now intros ->. Qed.

Lemma bind_Raise {A B} (m : M A) (k : A -> M B) (s s' : state) (e : exn) :
  m s = Raise e s' -> bind m k s = Raise e s'.
Proof. unfold bind. now intros ->. Qed.

Lemma bind_same_state {A B} (m : M A) (k : A -> M B) (s : state) :
  final_state (m s) = Some s -> (forall a, final_state (k a s) = Some s) ->
  final_state (bind m k s) = Some s.
Proof.
  unfold bind. intros Hm Hk. destruct (m s) as [a s1|e s1|]; simpl in Hm; try discriminate;
    injection Hm as ->; [apply Hk | reflexivity].
Qed.

(** ** Reading and writing attributes *)

Lemma as_model_lookup (s : state) (l : loc) (cls : string) (attrs : list (string * pyval)) :
  heap s !! l = Some (HModel cls attrs) -> as_model s (VRef l) = Some (cls, attrs).
Proof. unfold as_model, deref. now intros ->. Qed.

Lemma as_list_lookup (s : state) (l : loc) (xs : list pyval) :
  heap s !! l = Some (HList xs) -> as_list s (VRef l) = Some xs.
Proof. unfold as_list, deref. now intros ->. Qed.

Lemma is_list_lookup (s : state) (l : loc) (xs : list pyval) :
  heap s !! l = Some (HList xs) -> is_list s (VRef l) = true.
Proof. intros H. unfold is_list. now rewrite (as_list_lookup _ _ _ H). Qed.

Lemma getattr_set (s : state) (l : loc) (cls name : string) (attrs : list (string * pyval))
  (v : pyval) :
  heap s !! l = Some (HModel cls attrs) -> dict_get name attrs = Some v ->
  getattr (VRef l) name s = Ok v s.
Proof. intros Hl Hv. unfold getattr. now rewrite (as_model_lookup _ _ _ _ Hl), Hv. Qed.

Lemma getattr_unset (s : state) (l : loc) (cls name : string) (attrs : list (string * pyval)) :
  heap s !! l = Some (HModel cls attrs) -> dict_get name attrs = None ->
  getattr (VRef l) name s = Raise (no_attribute s (VRef l) name) s.
Proof. intros Hl Hv. unfold getattr. now rewrite (as_model_lookup _ _ _ _ Hl), Hv. Qed.

Lemma getattr_state (obj : pyval) (name : string) (s : state) :
  final_state (getattr obj name s) = Some s.
Proof.
  unfold getattr. destruct (as_model s obj) as [[cls attrs]|]; [|reflexivity].
  destruct (dict_get name attrs); reflexivity.
Qed.

Lemma setattr_declared (S : Schema) (s : state) (l : loc) (cls name : string)
  (attrs : list (string * pyval)) (v : pyval) :
  heap s !! l = Some (HModel cls attrs) -> declares S cls name = true ->
  setattr S (VRef l) name v s = Ok tt (with_attr s l cls attrs name v).
Proof.
  intros Hl Hd. unfold setattr. now rewrite (as_model_lookup _ _ _ _ Hl), Hd.
Qed.

Lemma with_attr_same (s : state) (l : loc) (cls name : string)
  (attrs : list (string * pyval)) (v : pyval) :
  heap s !! l = Some (HModel cls attrs) ->
  heap (with_attr s l cls attrs name v) !! l = Some (HModel cls (dict_set name v attrs)).
Proof.
  intros Hl. simpl. apply list_lookup_insert_eq. now apply lookup_lt_Some in Hl.
Qed.

Lemma with_attr_other (s : state) (l l' : loc) (cls name : string)
  (attrs : list (string * pyval)) (v : pyval) :
  l' <> l -> heap (with_attr s l cls attrs name v) !! l' = heap s !! l'.
Proof. intros Hne. simpl. apply list_lookup_insert_ne. congruence. Qed.

Lemma string_to_enum_field_raw (S : Schema) (rec : pyval -> M unit) (fuel : nat) (l : loc)
  (cls field_name raw : string) (attrs : list (string * pyval)) (k : kind) (s : state) :
  heap s !! l = Some (HModel cls attrs) ->
  cls <> "DatasetTheme" -> cls <> "AnyHttpUrl" ->
  dict_get field_name attrs = Some (VStr raw) -> raw <> "" ->
  scalar_kind S field_name = Some k ->
  string_to_enum_field S rec fuel (VRef l) field_name s =
  (do canonical <~ _to_enum S fuel (VStr raw) k; setattr S (VRef l) field_name canonical) s.
Proof.
  intros Hl Hc1 Hc2 Hv Hraw Hk.
  unfold string_to_enum_field. unfold bind at 1. rewrite (getattr_set _ _ _ _ _ _ Hl Hv).
  assert (Ht : truthy s (VStr raw) = true).
  { simpl. apply negb_true_iff. now apply String.eqb_neq. }
  rewrite Ht. unfold bind at 1. change (is_model s (VStr raw)) with false. cbv iota.
  assert (Hi1 : isinstance s (VRef l) "DatasetTheme" = false).
  { unfold isinstance. rewrite (as_model_lookup _ _ _ _ Hl). now apply String.eqb_neq. }
  assert (Hi2 : isinstance s (VRef l) "AnyHttpUrl" = false).
  { unfold isinstance. rewrite (as_model_lookup _ _ _ _ Hl). now apply String.eqb_neq. }
  unfold scalar_kind in Hk.
  repeat match type of Hk with
         | (if String.eqb field_name ?c then _ else _) = _ =>
             destruct (String.eqb field_name c) eqn:?
         end;
    try discriminate; injection Hk as <-;
    rewrite ?Hi1, ?Hi2; unfold convert_scalar; simpl isinstance; cbv iota; reflexivity.
Qed.

(** ** Vocabulary lookup (claims C5 and C6) *)

Section Vocabulary.

Context (S : Schema).

Variables (fuel : nat) (s : state).

Lemma to_enum_hit (raw : string) (table : list (string * pyval)) (canonical : pyval) :
  dict_get (PyStr.lower (str_lower S) raw) table = Some canonical ->
  _to_enum S fuel (VStr raw) (KTable table) s = Ok canonical s.
Proof. intros H. simpl. now rewrite H. Qed.

Lemma to_enum_miss (raw : string) (table : list (string * pyval)) :
  dict_get (PyStr.lower (str_lower S) raw) table = None ->
  _to_enum S fuel (VStr raw) (KTable table) s = Raise (not_supported raw table) s.
Proof. intros H. simpl. now rewrite H. Qed.

Lemma table_fields_kind (field_name : string) (table : list (string * pyval)) :
  List.In (field_name, table) (table_fields S) ->
  scalar_kind S field_name = Some (KTable table).
Proof.
  simpl. intros [H|[H|[H|[H|[H|[]]]]]]; injection H as <- <-; reflexivity.
Qed.

(** C5. Table lookup: normalising a raw string yields the value that the
    table holds for the lowercased string; in particular every (label,
    canonical value) pair of a table with lowercase labels is mapped to its
    canonical value; a string whose lowercased form is no key raises a
    ValueError whose message lists all the keys of the table.  The
    vocabulary pass does so for each of the fields access_rights, theme,
    license, status and frequency with the field's own table: a field
    that holds a raw string is set to the canonical value, or the pass
    raises that error and writes nothing. *)
Theorem to_enum_table_lookup (raw : string) (table : list (string * pyval)) :
  (forall canonical,
      dict_get (PyStr.lower (str_lower S) raw) table = Some canonical ->
      _to_enum S fuel (VStr raw) (KTable table) s = Ok canonical s) /\
  (forall canonical,
      List.In (raw, canonical) table -> distinct (dict_keys table) = true ->
      PyStr.lower (str_lower S) raw = raw ->
      _to_enum S fuel (VStr raw) (KTable table) s = Ok canonical s) /\
  (~ List.In (PyStr.lower (str_lower S) raw) (dict_keys table) ->
   _to_enum S fuel (VStr raw) (KTable table) s =
   Raise (ValueError (raw ++ " incorrect or not supported. Supported values: "
                      ++ PyStr.join ", " (dict_keys table))) s) /\
  (forall rec l cls attrs field_name,
      List.In (field_name, table) (table_fields S) ->
      heap s !! l = Some (HModel cls attrs) ->
      declares S cls field_name = true ->
      cls <> "DatasetTheme" -> cls <> "AnyHttpUrl" ->
      dict_get field_name attrs = Some (VStr raw) -> raw <> "" ->
      string_to_enum_field S rec fuel (VRef l) field_name s =
      match dict_get (PyStr.lower (str_lower S) raw) table with
      | Some canonical => Ok tt (with_attr s l cls attrs field_name canonical)
      | None =>
          Raise (ValueError (raw ++ " incorrect or not supported. Supported values: "
                             ++ PyStr.join ", " (dict_keys table))) s
      end).
Proof.
  split; [|split; [|split]].
  - intros canonical. apply to_enum_hit.
  - intros canonical Hin Hd Hl. apply to_enum_hit. rewrite Hl.
    apply In_dict_get; [now apply distinct_NoDup | assumption].
  - intros Hn. apply to_enum_miss. now apply dict_get_None.
  - intros rec l cls attrs field_name Hin Hl Hdecl Hc1 Hc2 Hv Hraw.
    rewrite (string_to_enum_field_raw S rec fuel l cls field_name raw attrs (KTable table) s
               Hl Hc1 Hc2 Hv Hraw (table_fields_kind _ _ Hin)).
    unfold bind. destruct (dict_get (PyStr.lower (str_lower S) raw) table) as [canonical|] eqn:E.
    + rewrite (to_enum_hit _ _ _ E). now apply setattr_declared.
    + now rewrite (to_enum_miss _ _ E).
Qed.

Lemma length_take (n : nat) (t : string) :
  PyStr.length (PyStr.take n t) = Nat.min n (PyStr.length t).
Proof.
  revert n. induction t as [|c r IH]; intros n; [destruct n; reflexivity|].
  simpl. destruct (PyStr.is_continuation c) eqn:E.
  - simpl. rewrite E. apply IH.
  - destruct n as [|n]; [reflexivity|]. simpl. rewrite E. now rewrite IH.
Qed.

(** C6. Language: a raw string of at least 3 characters (code points)
    becomes the authority URI followed by its first three characters in
    upper case, and that slice has exactly three characters; a shorter
    one raises a ValueError.  The vocabulary pass sets a language field
    that holds a raw string to that URI, or raises that error and writes
    nothing. *)
Theorem language_transformation_length (raw : string) :
  ((3 <= PyStr.length raw)%nat ->
   _to_enum S fuel (VStr raw) KLanguage s =
   Ok (VStr ("http://publications.europa.eu/resource/authority" ++ "/language/"
             ++ PyStr.upper (str_upper S) (PyStr.take 3 raw))) s /\
   PyStr.length (PyStr.take 3 raw) = 3%nat /\
   forall rec l cls attrs,
     heap s !! l = Some (HModel cls attrs) ->
     declares S cls "language" = true ->
     cls <> "DatasetTheme" -> cls <> "AnyHttpUrl" ->
     dict_get "language" attrs = Some (VStr raw) ->
     string_to_enum_field S rec fuel (VRef l) "language" s =
     Ok tt (with_attr s l cls attrs "language"
              (VStr ("http://publications.europa.eu/resource/authority" ++ "/language/"
                     ++ PyStr.upper (str_upper S) (PyStr.take 3 raw))))) /\
  ((PyStr.length raw < 3)%nat ->
   _to_enum S fuel (VStr raw) KLanguage s =
   Raise (ValueError "Provide at least 3 characters for language") s /\
   forall rec l cls attrs,
     heap s !! l = Some (HModel cls attrs) ->
     cls <> "DatasetTheme" -> cls <> "AnyHttpUrl" ->
     dict_get "language" attrs = Some (VStr raw) -> raw <> "" ->
     string_to_enum_field S rec fuel (VRef l) "language" s =
     Raise (ValueError "Provide at least 3 characters for language") s).
Proof.
  split; intros H.
  - assert (Hto : _to_enum S fuel (VStr raw) KLanguage s =
                  Ok (VStr ("http://publications.europa.eu/resource/authority" ++ "/language/"
                            ++ PyStr.upper (str_upper S) (PyStr.take 3 raw))) s).
    { cbv [_to_enum _language_transformation py_len].
      apply Nat.leb_le in H as Hb. now rewrite Hb. }
    split; [exact Hto|]. split.
    + rewrite length_take. lia.
    + intros rec l cls attrs Hl Hdecl Hc1 Hc2 Hv.
      assert (Hraw : raw <> "") by (intros ->; simpl in H; lia).
      rewrite (string_to_enum_field_raw S rec fuel l cls "language" raw attrs KLanguage s
                 Hl Hc1 Hc2 Hv Hraw eq_refl).
      unfold bind. rewrite Hto. now apply setattr_declared.
  - assert (Hto : _to_enum S fuel (VStr raw) KLanguage s =
                  Raise (ValueError "Provide at least 3 characters for language") s).
    { cbv [_to_enum _language_transformation py_len].
      apply Nat.leb_gt in H. now rewrite H. }
    split; [exact Hto|].
    intros rec l cls attrs Hl Hc1 Hc2 Hv Hraw.
    rewrite (string_to_enum_field_raw S rec fuel l cls "language" raw attrs KLanguage s
               Hl Hc1 Hc2 Hv Hraw eq_refl).
    unfold bind. now rewrite Hto.
Qed.

End Vocabulary.

(** a dataset whose theme holds a raw label, and a catalog whose language
    holds a raw value *)
Lemma to_enum_table_lookup_witness :
  _to_enum Hri.schema 0 (VStr "heal") (KTable Hri.themes_table) empty_state =
    Ok (Hri.member "DatasetTheme" "heal"
          "http://publications.europa.eu/resource/authority/data-theme/HEAL") empty_state /\
  _to_enum Hri.schema 0 (VStr "HEAL") (KTable Hri.themes_table) empty_state =
    Ok (Hri.member "DatasetTheme" "heal"
          "http://publications.europa.eu/resource/authority/data-theme/HEAL") empty_state /\
  _to_enum Hri.schema 0 (VStr "INVALID_THEME") (KTable Hri.themes_table) empty_state =
    Raise (ValueError "INVALID_THEME incorrect or not supported. Supported values: heal, tech")
          empty_state /\
  string_to_enum_field Hri.schema (_string_to_enum Hri.schema 0) 0 (VRef 0) "access_rights"
    (mkState [HModel "Dataset" [("access_rights", VStr "Public")]] []) =
    Ok tt (mkState [HModel "Dataset"
                      [("access_rights",
                        Hri.member "AccessRights" "public"
                          "http://publications.europa.eu/resource/authority/access-right/PUBLIC")]]
             []).
Proof.
  split; [|split; [|split]].
  - apply (proj1 (proj2 (to_enum_table_lookup Hri.schema 0 empty_state "heal"
                           Hri.themes_table))).
    + left. reflexivity.
    + reflexivity.
    + reflexivity.
  - apply (proj1 (to_enum_table_lookup Hri.schema 0 empty_state "HEAL" Hri.themes_table)).
    reflexivity.
  - apply (proj1 (proj2 (proj2 (to_enum_table_lookup Hri.schema 0 empty_state "INVALID_THEME"
                                  Hri.themes_table)))).
    vm_compute. intuition discriminate.
  - apply (proj2 (proj2 (proj2 (to_enum_table_lookup Hri.schema 0
                                  (mkState [HModel "Dataset" [("access_rights", VStr "Public")]] [])
                                  "Public" Hri.access_rights_table)))
             (_string_to_enum Hri.schema 0) 0 "Dataset" [("access_rights", VStr "Public")]
             "access_rights");
      try reflexivity; try discriminate.
    left. reflexivity.
Defined.

Lemma language_transformation_length_witness :
  _to_enum Hri.schema 0 (VStr "english") KLanguage empty_state =
    Ok (VStr "http://publications.europa.eu/resource/authority/language/ENG") empty_state /\
  _to_enum Hri.schema 0 (VStr "en") KLanguage empty_state =
    Raise (ValueError "Provide at least 3 characters for language") empty_state /\
  string_to_enum_field Hri.schema (_string_to_enum Hri.schema 0) 0 (VRef 0) "language"
    (mkState [HModel "Catalog" [("language", VStr "Eng")]] []) =
    Ok tt (mkState [HModel "Catalog"
                      [("language",
                        VStr "http://publications.europa.eu/resource/authority/language/ENG")]]
             []) /\
  string_to_enum_field Hri.schema (_string_to_enum Hri.schema 0) 0 (VRef 0) "language"
    (mkState [HModel "Catalog" [("language", VStr "En")]] []) =
    Raise (ValueError "Provide at least 3 characters for language")
      (mkState [HModel "Catalog" [("language", VStr "En")]] []).
Proof.
  split; [|split; [|split]].
  - apply (proj1 (language_transformation_length Hri.schema 0 empty_state "english")).
    simpl. lia.
  - apply (proj2 (language_transformation_length Hri.schema 0 empty_state "en")).
    simpl. lia.
  - apply (proj2 (proj2 (proj1 (language_transformation_length Hri.schema 0
                                  (mkState [HModel "Catalog" [("language", VStr "Eng")]] [])
                                  "Eng")
                           ltac:(simpl; lia)))
             (_string_to_enum Hri.schema 0) 0 "Catalog" [("language", VStr "Eng")]);
      try reflexivity; discriminate.
  - apply (proj2 (proj2 (language_transformation_length Hri.schema 0
                           (mkState [HModel "Catalog" [("language", VStr "En")]] [])
                           "En")
                    ltac:(simpl; lia))
             (_string_to_enum Hri.schema 0) 0 "Catalog" [("language", VStr "En")]);
      try reflexivity; discriminate.
Defined.

(** ** Mapping Resolver: no data, no write (claim C8) *)

Section Resolver.

Context (S : Schema).

Lemma populate_write_falsy (FDP_obj api_value : pyval) (names : list pyval) (s : state) :
  truthy s api_value = false ->
  for_each names (populate_write S FDP_obj api_value) s = Ok tt s.
Proof.
  intros Hf. induction names as [|n r IH]; simpl; [reflexivity|].
  unfold bind, populate_write at 1. now rewrite Hf.
Qed.

Lemma iterate_state (v : pyval) (s : state) : final_state (iterate v s) = Some s.
Proof.
  destruct v; try reflexivity. simpl. destruct (heap s !! l) as [[xs|cls attrs]|]; reflexivity.
Qed.

Lemma populate_entry_idle (FDP_obj : pyval) (api_data : list (string * pyval))
  (api_field : string) (internal_fields : pyval) (s : state) :
  dict_get api_field api_data = None \/
  (exists v, dict_get api_field api_data = Some v /\ truthy s v = false) ->
  final_state (populate_entry S FDP_obj api_data (api_field, internal_fields) s) = Some s /\
  (is_list s internal_fields = true ->
   populate_entry S FDP_obj api_data (api_field, internal_fields) s = Ok tt s).
Proof.
  intros [Habsent | (v & Hv & Hf)]; unfold populate_entry.
  - rewrite Habsent. split; reflexivity.
  - rewrite Hv. unfold bind.
    pose proof (iterate_state internal_fields s) as Hit.
    split.
    + destruct (iterate internal_fields s) as [names s1|e s1|]; simpl in Hit;
        try discriminate; injection Hit as ->; [|reflexivity].
      now rewrite populate_write_falsy.
    + unfold is_list, as_list, deref. destruct internal_fields; try discriminate.
      simpl. destruct (heap s !! l) as [[xs|cls attrs]|]; try discriminate.
      intros _. now rewrite populate_write_falsy.
Qed.

(** C8. An entry of a mapping directive whose external field is absent
    from the payload, or whose payload value is falsy, writes nothing: the
    state after resolving the entry is the state before it, whatever the
    internal field names are; with a sequence of names the entry also
    completes normally. *)
Theorem populate_entry_no_data (FDP_obj : pyval) (api_data : list (string * pyval))
  (api_field : string) (internal_fields : pyval) (s : state) :
  dict_get api_field api_data = None \/
  (exists v, dict_get api_field api_data = Some v /\ truthy s v = false) ->
  final_state (populate_entry S FDP_obj api_data (api_field, internal_fields) s) = Some s /\
  (is_list s internal_fields = true ->
   populate_entry S FDP_obj api_data (api_field, internal_fields) s = Ok tt s).
Proof. apply populate_entry_idle. Qed.

Lemma populate_mapping_no_data (FDP_obj : pyval) (api_data : list (string * pyval))
  (value : pyval) (s : state) :
  no_data s api_data ->
  final_state (populate_mapping S FDP_obj api_data value s) = Some s.
Proof.
  intros Hno. destruct value; try reflexivity. simpl.
  induction kvs as [|[api_field internal_fields] r IH]; simpl; [reflexivity|].
  apply bind_same_state; [|intros _; exact IH].
  apply populate_entry_idle. destruct (dict_get api_field api_data) as [v|] eqn:E.
  - right. exists v. split; [reflexivity | now apply (Hno api_field)].
  - now left.
Qed.

Lemma populate_FDP_no_data (api_data : list (string * pyval)) (config : pyval) :
  forall (FDP_obj : pyval) (s : state),
    no_data s api_data ->
    final_state (_populate_FDP S FDP_obj api_data config s) = Some s.
Proof.
  induction config as [v Hv | xs _ | kvs IH] using pyval_nested_ind; intros FDP_obj s Hno.
  - destruct v; try reflexivity; discriminate Hv.
  - reflexivity.
  - simpl. induction IH as [|[field value] r Hx _ IHr]; [reflexivity|].
    apply bind_same_state; [|intros _; exact IHr].
    destruct (descends field).
    + apply bind_same_state; [apply getattr_state|].
      intros child. now apply Hx.
    + destruct (String.eqb field "mapping"); [|reflexivity].
      now apply populate_mapping_no_data.
Qed.

End Resolver.

Lemma populate_entry_no_data_witness :
  final_state
    (populate_entry Hri.schema (VRef 0) [("archive_title", VStr "")]
       ("archive_title", VRef 1)
       (mkState [HModel "Dataset" [("title", VStr "Configured")]; HList [VStr "title"]] []))
  = Some (mkState [HModel "Dataset" [("title", VStr "Configured")]; HList [VStr "title"]] []) /\
  populate_entry Hri.schema (VRef 0) [("archive_title", VStr "X")]
    ("challenge_title", VRef 1)
    (mkState [HModel "Dataset" [("title", VStr "Configured")]; HList [VStr "title"]] [])
  = Ok tt (mkState [HModel "Dataset" [("title", VStr "Configured")]; HList [VStr "title"]] []).
Proof.
  split.
  - apply (populate_entry_no_data Hri.schema). right. exists (VStr "").
    split; reflexivity.
  - apply (populate_entry_no_data Hri.schema); [left|]; reflexivity.
Defined.

(** ** Mapping Resolver: keyword accumulation (claim C3) *)

Section Accumulation.

Context (S : Schema).

Lemma lookup_alloc_old (h : list hobj) (o : hobj) (l : loc) (x : hobj) :
  h !! l = Some x -> (h ++ [o])%list !! l = Some x.
Proof. intros H. now apply lookup_app_l_Some. Qed.

Lemma lookup_alloc_new (h : list hobj) (o : hobj) : (h ++ [o])%list !! length h = Some o.
Proof. rewrite lookup_app_r by lia. now rewrite Nat.sub_diag. Qed.

Lemma populate_FDP_step (FDP_obj : pyval) (api_data : list (string * pyval))
  (field : string) (sub : pyval) (rest : list (string * pyval)) :
  _populate_FDP S FDP_obj api_data (VDict ((field, sub) :: rest)) =
  ((if descends field then
      do child <~ getattr FDP_obj field;
      _populate_FDP S child api_data sub
    else if String.eqb field "mapping" then populate_mapping S FDP_obj api_data sub
    else ret tt) ;;;
   _populate_FDP S FDP_obj api_data (VDict rest)).
Proof. reflexivity. Qed.



End Accumulation.


(** ** Mapping Resolver: traversal of the configuration tree (claim C9) *)

Section Traversal.

Context (S : Schema).

(** C9, as the code has it.  Under the keys catalog, dataset and
    distribution the Mapping Resolver goes on in the child node that the
    field holds, with the configuration sub-tree of the key, and then
    continues with the remaining keys; a mapping directive found there is
    resolved against that child.  Every other key that is not [mapping] -
    creator, publisher and contact_point among them - is passed over: the
    state is the one that the remaining keys produce. *)
Theorem populate_FDP_traversal (FDP_obj : pyval) (api_data : list (string * pyval))
  (field : string) (sub : pyval) (rest : list (string * pyval)) (s : state) :
  (List.In field ["catalog"; "dataset"; "distribution"] ->
   forall child, getattr FDP_obj field s = Ok child s ->
   _populate_FDP S FDP_obj api_data (VDict ((field, sub) :: rest)) s =
   (_populate_FDP S child api_data sub ;;; _populate_FDP S FDP_obj api_data (VDict rest)) s) /\
  (List.In field ["catalog"; "dataset"; "distribution"] ->
   forall lc cls attrs ln ext name v,
     getattr FDP_obj field s = Ok (VRef lc) s ->
     heap s !! lc = Some (HModel cls attrs) ->
     declares S cls name = true -> name <> "keyword" ->
     heap s !! ln = Some (HList [VStr name]) ->
     dict_get ext api_data = Some v -> truthy s v = true ->
     _populate_FDP S FDP_obj api_data
       (VDict [(field, VDict [("mapping", VDict [(ext, VRef ln)])])]) s =
     Ok tt (with_attr s lc cls attrs name v)) /\
  (List.In field ["creator"; "publisher"; "contact_point"] ->
   _populate_FDP S FDP_obj api_data (VDict ((field, sub) :: rest)) s =
   _populate_FDP S FDP_obj api_data (VDict rest) s).
Proof.
  split; [|split].
  - intros Hin child Hget. rewrite populate_FDP_step.
    assert (Hd : descends field = true).
    { simpl in Hin. destruct Hin as [<-|[<-|[<-|[]]]]; reflexivity. }
    rewrite Hd. unfold bind at 1 2. now rewrite Hget.
  - intros Hin lc cls attrs ln ext name v Hget Hlc Hdecl Hname Hln Hext Htrue.
    assert (Hd : descends field = true).
    { simpl in Hin. destruct Hin as [<-|[<-|[<-|[]]]]; reflexivity. }
    rewrite populate_FDP_step, Hd. unfold bind at 1 2. rewrite Hget.
    rewrite populate_FDP_step. change (descends "mapping") with false. cbv iota.
    change (String.eqb "mapping" "mapping") with true. cbv iota.
    unfold bind at 1. unfold populate_mapping. simpl for_each.
    unfold bind at 1. unfold populate_entry. rewrite Hext.
    unfold bind at 1. simpl iterate. rewrite Hln. simpl for_each.
    unfold bind at 1. unfold populate_write. rewrite Htrue.
    assert (Hk : is_keyword (VStr name) = false).
    { simpl. now apply String.eqb_neq. }
    rewrite Hk. unfold setattr_named.
    now rewrite (setattr_declared S s lc cls name attrs v Hlc Hdecl).
  - intros Hin. rewrite populate_FDP_step.
    assert (Hd : descends field = false /\ String.eqb field "mapping" = false).
    { simpl in Hin. destruct Hin as [<-|[<-|[<-|[]]]]; split; reflexivity. }
    destruct Hd as [-> ->]. reflexivity.
Qed.

End Traversal.

(** C9 as stated fails: the Filler creates the creator node and fills it,
    the Resolver writes the catalog's title from the payload, but the
    mapping directive under [creator] is not resolved: the creator has no
    name afterwards. *)
Lemma creator_mapping_not_resolved :
  result_of (run (do record <~ creator_mapping_record;
                  getattr_path record ["catalog"; "title"]))
  = Some (VStr "Title given by challenge") /\
  result_of (run (do record <~ creator_mapping_record;
                  getattr_path record ["catalog"; "creator"; "mbox"]))
  = Some (VStr "catalog@testing.com") /\
  error_of (run (do record <~ creator_mapping_record;
                 getattr_path record ["catalog"; "creator"; "name"]))
  = Some (AttributeError "'Agent' object has no attribute 'name'").
Proof. vm_compute. repeat split. Qed.

Lemma populate_FDP_traversal_witness :
  _populate_FDP Hri.schema (VRef 0) creator_mapping_payload
    (VDict [("catalog", VDict [("mapping", VDict [("challenge_title", VRef 2)])])])
    (mkState [HModel "MetadataRecord" [("catalog", VRef 1)]; HModel "Catalog" [];
              HList [VStr "title"]] [])
  = Ok tt (mkState [HModel "MetadataRecord" [("catalog", VRef 1)];
                    HModel "Catalog" [("title", VStr "Title given by challenge")];
                    HList [VStr "title"]] []) /\
  _populate_FDP Hri.schema (VRef 0) creator_mapping_payload
    (VDict [("creator", VDict [("mapping", VDict [("challenge_title", VRef 2)])])])
    (mkState [HModel "Catalog" [("creator", VRef 1)]; HModel "Agent" [];
              HList [VStr "name"]] [])
  = Ok tt (mkState [HModel "Catalog" [("creator", VRef 1)]; HModel "Agent" [];
                    HList [VStr "name"]] []).
Proof.
  split.
  - apply (proj1 (proj2 (populate_FDP_traversal Hri.schema (VRef 0) creator_mapping_payload
                           "catalog" VNone []
                           (mkState [HModel "MetadataRecord" [("catalog", VRef 1)];
                                     HModel "Catalog" []; HList [VStr "title"]] [])))
             ltac:(simpl; tauto) 1 "Catalog" [] 2 "challenge_title" "title"
             (VStr "Title given by challenge"));
      try reflexivity. discriminate.
  - apply (proj2 (proj2 (populate_FDP_traversal Hri.schema (VRef 0) creator_mapping_payload
                           "creator" (VDict [("mapping", VDict [("challenge_title", VRef 2)])]) []
                           (mkState [HModel "Catalog" [("creator", VRef 1)]; HModel "Agent" [];
                                     HList [VStr "name"]] [])))).
    simpl. tauto.
Defined.

(** ** Cardinality pass: one field *)

Section Cardinality.

Context (S : Schema).

Lemma declares_In (cls : string) (f : FieldInfo) :
  List.In f (fields_of S cls) -> declares S cls (fname f) = true.
Proof.
  intros Hin. unfold declares. apply existsb_exists. exists f.
  split; [assumption | apply String.eqb_refl].
Qed.

(** One field of a node in the cardinality pass, where the field holds
    [v]:
    - declared as a sequence, [v] neither a sequence nor null (and not a
      nested node, which the pass first visits): the field is set to a new
      single-element sequence holding [v];
    - declared as a sequence, [v] a nested node: once the visit of the
      node has returned, the same wrapping takes place;
    - declared as a scalar, [v] a single-element sequence: the field is set
      to the element and a warning is emitted;
    - declared as a scalar, [v] a sequence of two or more elements: a
      TypeError that names the field is raised and nothing is written. *)
Lemma ensure_field_cardinality (rec : pyval -> M unit) (l : loc) (cls : string)
  (attrs : list (string * pyval)) (f : FieldInfo) (v : pyval) (s : state) :
  heap s !! l = Some (HModel cls attrs) ->
  List.In f (fields_of S cls) ->
  dict_get (fname f) attrs = Some v ->
  (is_list_type f = true -> is_list s v = false -> v <> VNone -> is_model s v = false ->
   ensure_field S rec (VRef l) f s =
   Ok tt (with_attr (mkState (heap s ++ [HList [v]]) (events s)) l cls attrs
            (fname f) (VRef (length (heap s))))) /\
  (is_list_type f = true -> is_model s v = true ->
   forall s1 attrs1,
     rec v s = Ok tt s1 -> heap s1 !! l = Some (HModel cls attrs1) -> is_list s1 v = false ->
     ensure_field S rec (VRef l) f s =
     Ok tt (with_attr (mkState (heap s1 ++ [HList [v]]) (events s1)) l cls attrs1
              (fname f) (VRef (length (heap s1))))) /\
  (is_list_type f = false ->
   forall x, as_list s v = Some [x] ->
   ensure_field S rec (VRef l) f s =
   Ok tt (mkState (heap (with_attr s l cls attrs (fname f) x))
            (events s ++ [Warn ("Please do not put list in field: " ++ fname f)]))) /\
  (is_list_type f = false ->
   forall xs, as_list s v = Some xs -> (2 <= length xs)%nat ->
   ensure_field S rec (VRef l) f s =
   Raise (TypeError ("Found list where it is not supposed to be: " ++ fname f)) s).
Proof.
  intros Hl Hin Hv. pose proof (declares_In cls f Hin) as Hdecl.
  assert (Hnm : forall xs, as_list s v = Some xs -> is_model s v = false).
  { intros xs. unfold as_list, is_model, as_model.
    destruct (deref s v) as [[ys|c a]|]; now try discriminate. }
  split; [|split; [|split]]; intros Hlt;
    unfold ensure_field; unfold bind at 1; rewrite (getattr_set _ _ _ _ _ _ Hl Hv);
    unfold bind at 1.
  - intros Hnl Hnn Hm. rewrite Hm, Hlt, Hnl.
    assert (Hn : is_none v = false) by (destruct v; try reflexivity; contradiction).
    rewrite Hn. cbn [andb negb]. unfold bind, alloc.
    apply setattr_declared; [|assumption]. now apply lookup_alloc_old.
  - intros Hm s1 attrs1 Hrec Hl1 Hnl. rewrite Hm, Hrec, Hlt, Hnl.
    assert (Hn : is_none v = false).
    { destruct v; try reflexivity; discriminate Hm. }
    rewrite Hn. cbn [andb negb]. unfold bind, alloc.
    apply setattr_declared; [|assumption]. now apply lookup_alloc_old.
  - intros x Hx. rewrite (Hnm _ Hx), Hlt.
    assert (Hil : is_list s v = true) by (unfold is_list; now rewrite Hx).
    rewrite Hil, Hx. cbn [andb negb]. unfold bind.
    now rewrite (setattr_declared S s l cls (fname f) attrs x Hl Hdecl).
  - intros xs Hxs Hlen. rewrite (Hnm _ Hxs), Hlt.
    assert (Hil : is_list s v = true) by (unfold is_list; now rewrite Hxs).
    rewrite Hil, Hxs. cbn [andb negb].
    destruct xs as [|x [|y r]]; simpl in Hlen; try lia; reflexivity.
Qed.

End Cardinality.

Lemma ensure_field_cardinality_witness :
  (* a bare scalar in a sequence field *)
  ensure_field Hri.schema (_ensure_lists Hri.schema 2) (VRef 0)
    (Hri.opt "hasUrl" Hri.urls)
    (mkState [HModel "Kind" [("hasUrl", VStr "https://example.com")]] [])
  = Ok tt (mkState [HModel "Kind" [("hasUrl", VRef 1)];
                    HList [VStr "https://example.com"]] []) /\
  (* a nested node in a sequence field *)
  ensure_field Hri.schema (_ensure_lists Hri.schema 2) (VRef 0)
    (Hri.opt "creator" "typing.List[Agent]")
    (mkState [HModel "Catalog" [("creator", VRef 1)]; an_agent;
              HList [VStr "test person identifier"]; HList [VStr "datasetmaker"]] [])
  = Ok tt (mkState [HModel "Catalog" [("creator", VRef 4)]; an_agent;
                    HList [VStr "test person identifier"]; HList [VStr "datasetmaker"];
                    HList [VRef 1]] []) /\
  (* a single-element sequence in a scalar field *)
  ensure_field Hri.schema (_ensure_lists Hri.schema 2) (VRef 0)
    (Hri.req "identifier" Hri.text)
    (mkState [HModel "Dataset" [("identifier", VRef 1)]; HList [VStr "idee"]] [])
  = Ok tt (mkState [HModel "Dataset" [("identifier", VStr "idee")]; HList [VStr "idee"]]
             [Warn "Please do not put list in field: identifier"]) /\
  (* a two-element sequence in a scalar field *)
  ensure_field Hri.schema (_ensure_lists Hri.schema 2) (VRef 0)
    (Hri.req "identifier" Hri.text)
    (mkState [HModel "Dataset" [("identifier", VRef 1)];
              HList [VStr "idee2"; VStr "illegal_id"]] [])
  = Raise (TypeError "Found list where it is not supposed to be: identifier")
      (mkState [HModel "Dataset" [("identifier", VRef 1)];
                HList [VStr "idee2"; VStr "illegal_id"]] []).
Proof.
  split; [|split; [|split]].
  - apply (proj1 (ensure_field_cardinality Hri.schema (_ensure_lists Hri.schema 2) 0 "Kind"
                    [("hasUrl", VStr "https://example.com")] (Hri.opt "hasUrl" Hri.urls)
                    (VStr "https://example.com")
                    (mkState [HModel "Kind" [("hasUrl", VStr "https://example.com")]] [])
                    eq_refl ltac:(simpl; tauto) eq_refl));
      [reflexivity | reflexivity | discriminate | reflexivity].
  - apply (proj1 (proj2 (ensure_field_cardinality Hri.schema (_ensure_lists Hri.schema 2) 0
                    "Catalog" [("creator", VRef 1)] (Hri.opt "creator" "typing.List[Agent]")
                    (VRef 1)
                    (mkState [HModel "Catalog" [("creator", VRef 1)]; an_agent;
                              HList [VStr "test person identifier"];
                              HList [VStr "datasetmaker"]] [])
                    eq_refl ltac:(simpl; tauto) eq_refl))
             eq_refl eq_refl
             (mkState [HModel "Catalog" [("creator", VRef 1)]; an_agent;
                       HList [VStr "test person identifier"];
                       HList [VStr "datasetmaker"]] [])
             [("creator", VRef 1)]);
      reflexivity.
  - apply (proj1 (proj2 (proj2 (ensure_field_cardinality Hri.schema
                    (_ensure_lists Hri.schema 2) 0 "Dataset"
                    [("identifier", VRef 1)] (Hri.req "identifier" Hri.text) (VRef 1)
                    (mkState [HModel "Dataset" [("identifier", VRef 1)];
                              HList [VStr "idee"]] [])
                    eq_refl ltac:(simpl; tauto) eq_refl)))
             eq_refl (VStr "idee") eq_refl).
  - apply (proj2 (proj2 (proj2 (ensure_field_cardinality Hri.schema
                    (_ensure_lists Hri.schema 2) 0 "Dataset"
                    [("identifier", VRef 1)] (Hri.req "identifier" Hri.text) (VRef 1)
                    (mkState [HModel "Dataset" [("identifier", VRef 1)];
                              HList [VStr "idee2"; VStr "illegal_id"]] [])
                    eq_refl ltac:(simpl; tauto) eq_refl)))
             eq_refl [VStr "idee2"; VStr "illegal_id"] eq_refl).
    simpl. lia.
Defined.

(** ** The Validator only allocates (claim C10) *)

Lemma extends_refl (s : state) : extends s s.
Proof. exists []. split; [now rewrite app_nil_r | reflexivity]. Qed.

Lemma extends_trans (s1 s2 s3 : state) : extends s1 s2 -> extends s2 s3 -> extends s1 s3.
Proof.
  intros (e1 & H1 & E1) (e2 & H2 & E2). exists (e1 ++ e2)%list. split.
  - rewrite H2, H1. now rewrite <- app_assoc.
  - congruence.
Qed.

Lemma extends_lookup (s s' : state) (l : loc) (o : hobj) :
  extends s s' -> heap s !! l = Some o -> heap s' !! l = Some o.
Proof. intros (ext & H & _) Hl. rewrite H. now apply lookup_app_l_Some. Qed.

Lemma only_allocates_ret {A} (a : A) : only_allocates (ret a).
Proof. intros s. apply extends_refl. Qed.

Lemma only_allocates_bind {A B} (m : M A) (k : A -> M B) :
  only_allocates m -> (forall a, only_allocates (k a)) -> only_allocates (bind m k).
Proof.
  intros Hm Hk s. unfold bind. specialize (Hm s).
  destruct (m s) as [a s1|e s1|]; [|assumption|exact I].
  specialize (Hk a s1). destruct (k a s1) as [b s2|e s2|]; [| |exact I].
  - now apply (extends_trans s s1 s2).
  - destruct Hk as [Hk ->]. split; [now apply (extends_trans s s1 s2) | reflexivity].
Qed.

Lemma only_allocates_alloc (o : hobj) : only_allocates (alloc o).
Proof. intros s. exists [o]. split; reflexivity. Qed.

Section Snapshot.

Context (S : Schema).

Lemma only_allocates_drop_field (rec : pyval -> M pyval) (data : pyval)
  (result : list (string * pyval)) (f : FieldInfo) :
  (forall v, only_allocates (rec v)) -> only_allocates (drop_field rec data result f).
Proof.
  intros Hrec s. unfold drop_field.
  pose proof (getattr_state data (fname f) s) as Hg.
  destruct (getattr data (fname f) s) as [v s1|e s1|]; simpl in Hg; try discriminate;
    injection Hg as ->; [|split; [apply extends_refl | reflexivity]].
  destruct (negb (is_none v) || required f); [|apply extends_refl].
  apply (only_allocates_bind (rec v)); [apply Hrec | intros a; apply only_allocates_ret].
Qed.

Lemma only_allocates_drop_fields (rec : pyval -> M pyval) (data : pyval)
  (fields : list FieldInfo) :
  (forall v, only_allocates (rec v)) ->
  forall result, only_allocates (drop_fields rec data fields result).
Proof.
  intros Hrec. induction fields as [|f r IH]; intros result; simpl.
  - apply only_allocates_ret.
  - apply only_allocates_bind; [now apply only_allocates_drop_field | intros a; apply IH].
Qed.

Lemma only_allocates_drop_items (rec : pyval -> M pyval) (items : list (string * pyval)) :
  (forall v, only_allocates (rec v)) ->
  forall result, only_allocates (drop_items rec items result).
Proof.
  intros Hrec. induction items as [|[k v] r IH]; intros result; simpl.
  - apply only_allocates_ret.
  - destruct (is_none v); [apply IH|].
    apply only_allocates_bind; [apply Hrec | intros a; apply IH].
Qed.

Lemma only_allocates_drop_elements (rec : pyval -> M pyval) (xs : list pyval) :
  (forall v, only_allocates (rec v)) -> only_allocates (drop_elements rec xs).
Proof.
  intros Hrec. induction xs as [|v r IH]; simpl.
  - apply only_allocates_ret.
  - destruct (is_none v); [apply IH|].
    apply only_allocates_bind; [apply Hrec | intros a].
    apply only_allocates_bind; [apply IH | intros b; apply only_allocates_ret].
Qed.

Lemma only_allocates_drop_none (fuel : nat) :
  forall data, only_allocates (_drop_none S fuel data).
Proof.
  induction fuel as [|n IH]; intros data s.
  - destruct data as [| b | z | t | c t r | xs | kvs | l]; simpl; try apply extends_refl.
    + exact I.
    + destruct (heap s !! l) as [[xs|cls attrs]|]; [exact I | exact I | apply extends_refl].
  - destruct data as [| b | z | t | c t r | xs | kvs | l]; try apply extends_refl.
    + change (_drop_none S (Datatypes.S n) (VDict kvs) s)
        with ((do result <~ drop_items (_drop_none S n) kvs []; ret (VDict result)) s).
      apply (only_allocates_bind (drop_items (_drop_none S n) kvs []));
        [now apply only_allocates_drop_items | intros a; apply only_allocates_ret].
    + simpl. destruct (heap s !! l) as [[xs|cls attrs]|]; [| |apply extends_refl].
      * apply (only_allocates_bind (drop_elements (_drop_none S n) xs));
          [now apply only_allocates_drop_elements | intros a; apply only_allocates_alloc].
      * apply (only_allocates_bind (drop_fields (_drop_none S n) (VRef l) (fields_of S cls) []));
          [now apply only_allocates_drop_fields | intros a; apply only_allocates_ret].
Qed.

Lemma drop_none_extends (fuel : nat) (data : pyval) (s s' : state) :
  final_state (_drop_none S fuel data s) = Some s' -> extends s s'.
Proof.
  pose proof (only_allocates_drop_none fuel data s) as H.
  destruct (_drop_none S fuel data s) as [a s1|e s1|]; simpl; intros [= <-];
    [assumption | apply H].
Qed.

(** *** Enough fuel *)

Lemma bind_returns {A B} (m : M A) (k : A -> M B) (s : state) :
  returns (m s) -> (forall a s1, m s = Ok a s1 -> returns (k a s1)) -> returns (bind m k s).
Proof.
  unfold bind. intros Hm Hk. destruct (m s) as [a s1|e s1|]; [now apply Hk | exact I | exact Hm].
Qed.

Lemma bounded_extends (n : nat) :
  forall (s s' : state) (v : pyval), extends s s' -> bounded n s v = true -> bounded n s' v = true.
Proof.
  induction n as [|n IH]; intros s s' v Hx; destruct v as [| b | z | t | c t r | xs | kvs | l];
    simpl; try reflexivity; try discriminate.
  - destruct (heap s !! l) as [[xs|cls attrs]|]; discriminate.
  - rewrite !forallb_forall. intros H kv Hin. eapply IH; [exact Hx | now apply H].
  - destruct (heap s !! l) as [o|] eqn:Hl; [|discriminate].
    rewrite (extends_lookup s s' l o Hx Hl). destruct o as [xs|cls attrs];
      rewrite !forallb_forall; intros H x Hin; (eapply IH; [exact Hx | now apply H]).
Qed.

Section Returns.

Variables (n : nat) (rec : pyval -> M pyval).

Hypothesis rec_returns : forall v s, bounded n s v = true -> returns (rec v s).
Hypothesis rec_allocates : forall v, only_allocates (rec v).

Lemma rec_extends (v a : pyval) (s s1 : state) : rec v s = Ok a s1 -> extends s s1.
Proof. intros H. pose proof (rec_allocates v s) as Hx. now rewrite H in Hx. Qed.

Lemma drop_elements_returns (xs : list pyval) :
  forall s, forallb (bounded n s) xs = true -> returns (drop_elements rec xs s).
Proof.
  induction xs as [|v r IH]; intros s Hb; simpl; [exact I|].
  simpl in Hb. apply andb_true_iff in Hb as [Hv Hr].
  destruct (is_none v); [now apply IH|].
  apply bind_returns; [now apply rec_returns|]. intros a s1 Ha.
  apply bind_returns; [|intros; exact I].
  apply IH. rewrite forallb_forall in *. intros x Hin.
  eapply bounded_extends; [eapply rec_extends; exact Ha | now apply Hr].
Qed.

Lemma drop_items_returns (items : list (string * pyval)) :
  forall result s,
    forallb (fun kv => bounded n s (snd kv)) items = true ->
    returns (drop_items rec items result s).
Proof.
  induction items as [|[k v] r IH]; intros result s Hb; simpl; [exact I|].
  simpl in Hb. apply andb_true_iff in Hb as [Hv Hr].
  destruct (is_none v); [now apply IH|].
  apply bind_returns; [now apply rec_returns|]. intros a s1 Ha.
  apply IH. rewrite forallb_forall in *. intros x Hin.
  eapply bounded_extends; [eapply rec_extends; exact Ha | now apply Hr].
Qed.

Lemma drop_fields_returns (l : loc) (cls : string) (attrs : list (string * pyval))
  (fields : list FieldInfo) :
  forall result s,
    heap s !! l = Some (HModel cls attrs) ->
    forallb (fun kv => bounded n s (snd kv)) attrs = true ->
    returns (drop_fields rec (VRef l) fields result s).
Proof.
  induction fields as [|f r IH]; intros result s Hl Hb; simpl; [exact I|].
  apply bind_returns.
  - unfold drop_field.
    destruct (dict_get (fname f) attrs) as [v|] eqn:Hv.
    + rewrite (getattr_set _ _ _ _ _ _ Hl Hv).
      destruct (negb (is_none v) || required f); [|exact I].
      apply bind_returns; [|intros; exact I]. apply rec_returns.
      rewrite forallb_forall in Hb. apply (Hb (fname f, v)). now apply dict_get_In.
    + now rewrite (getattr_unset _ _ _ _ _ Hl Hv).
  - intros result' s1 Hf.
    assert (Hx : extends s s1).
    { pose proof (only_allocates_drop_field rec (VRef l) result f rec_allocates s) as H.
      now rewrite Hf in H. }
    apply IH; [now apply (extends_lookup s s1)|].
    rewrite forallb_forall in *. intros kv Hin.
    eapply bounded_extends; [exact Hx | now apply Hb].
Qed.

End Returns.

Lemma drop_none_returns (n : nat) :
  forall v s, bounded n s v = true -> returns (_drop_none S n v s).
Proof.
  induction n as [|n IH]; intros v s; destruct v as [| b | z | t | c t r | xs | kvs | l];
    simpl; try (intros; exact I); try discriminate.
  - destruct (heap s !! l) as [[xs|cls attrs]|]; discriminate.
  - intros Hb. apply bind_returns; [|intros; exact I].
    apply (drop_items_returns n); [exact IH | apply only_allocates_drop_none | exact Hb].
  - destruct (heap s !! l) as [[xs|cls attrs]|] eqn:Hl; [| |discriminate]; intros Hb.
    + apply bind_returns; [|intros; exact I].
      apply (drop_elements_returns n); [exact IH | apply only_allocates_drop_none | exact Hb].
    + apply bind_returns; [|intros; exact I].
      apply (drop_fields_returns n _ IH (only_allocates_drop_none n) l cls attrs);
        assumption.
Qed.

(** *** What the snapshot of a node holds *)

Lemma drop_none_leaf (n : nat) (v : pyval) (s : state) :
  is_leaf v = true -> _drop_none S n v s = Ok v s.
Proof. destruct n, v; simpl; try discriminate; reflexivity. Qed.

Lemma drop_fields_snapshot (n : nat) (l : loc) (cls : string) (attrs : list (string * pyval))
  (fields : list FieldInfo) :
  forall result s kvs s',
    heap s !! l = Some (HModel cls attrs) ->
    List.NoDup (dict_keys result ++ map fname fields) ->
    drop_fields (_drop_none S n) (VRef l) fields result s = Ok kvs s' ->
    (forall f, List.In f fields -> dict_get (fname f) attrs <> None) /\
    dict_keys kvs = (dict_keys result ++ map fname (List.filter (kept attrs) fields))%list /\
    (forall k, ~ List.In k (map fname fields) -> dict_get k kvs = dict_get k result) /\
    (forall f, List.In f fields -> kept attrs f = true ->
       exists v cleaned s1 s2,
         dict_get (fname f) attrs = Some v /\ extends s s1 /\
         _drop_none S n v s1 = Ok cleaned s2 /\ dict_get (fname f) kvs = Some cleaned).
Proof.
  induction fields as [|f r IH]; intros result s kvs s' Hl Hnd Hrun.
  - simpl in Hrun. injection Hrun as <- <-. simpl. rewrite app_nil_r.
    split; [|split; [|split]]; try tauto; reflexivity.
  - simpl in Hrun. unfold bind in Hrun.
    destruct (drop_field (_drop_none S n) (VRef l) result f s) as [result' s1|e s1|] eqn:Hf;
      try discriminate.
    assert (Hx : extends s s1).
    { pose proof (only_allocates_drop_field (_drop_none S n) (VRef l) result f
                    (only_allocates_drop_none n) s) as H.
      now rewrite Hf in H. }
    assert (Hfresh : ~ List.In (fname f) (dict_keys result) /\ ~ List.In (fname f) (map fname r)).
    { simpl in Hnd. apply NoDup_remove_2 in Hnd. rewrite in_app_iff in Hnd. tauto. }
    destruct Hfresh as [Hfr1 Hfr2].
    unfold drop_field in Hf.
    destruct (dict_get (fname f) attrs) as [v|] eqn:Hv.
    2:{ rewrite (getattr_unset _ _ _ _ _ Hl Hv) in Hf. discriminate. }
    rewrite (getattr_set _ _ _ _ _ _ Hl Hv) in Hf.
    assert (Hk : kept attrs f = negb (is_none v) || required f) by (unfold kept; now rewrite Hv).
    destruct (negb (is_none v) || required f) eqn:Hkeep.
    + unfold bind in Hf.
      destruct (_drop_none S n v s) as [cleaned s2|e s2|] eqn:Hrec; try discriminate.
      injection Hf as <- <-.
      assert (Hnd' : List.NoDup (dict_keys (dict_set (fname f) cleaned result) ++ map fname r)).
      { rewrite dict_keys_set_new by assumption. rewrite <- app_assoc. exact Hnd. }
      destruct (IH _ _ _ _ (extends_lookup _ _ _ _ Hx Hl) Hnd' Hrun) as (H1 & H2 & H3 & H4).
      split; [|split; [|split]].
      * intros f0 [<-|Hin]; [congruence | now apply H1].
      * simpl. rewrite Hk. rewrite H2, dict_keys_set_new by assumption.
        now rewrite <- app_assoc.
      * intros k Hk0. simpl in Hk0. rewrite H3 by tauto. rewrite dict_get_set.
        destruct (String.eqb k (fname f)) eqn:E; [|reflexivity].
        apply String.eqb_eq in E. subst k. tauto.
      * intros f0 [<-|Hin] Hk0.
        -- exists v, cleaned, s, s2. repeat split; try assumption; [apply extends_refl|].
           rewrite H3 by assumption. rewrite dict_get_set. now rewrite String.eqb_refl.
        -- destruct (H4 f0 Hin Hk0) as (v0 & c0 & s3 & s4 & Ha & Hb & Hc & Hd).
           exists v0, c0, s3, s4. repeat split; try assumption.
           now apply (extends_trans s s2 s3).
    + injection Hf as <- <-.
      assert (Hnd' : List.NoDup (dict_keys result ++ map fname r)).
      { simpl in Hnd. now apply NoDup_remove_1 in Hnd. }
      destruct (IH _ _ _ _ Hl Hnd' Hrun) as (H1 & H2 & H3 & H4).
      split; [|split; [|split]].
      * intros f0 [<-|Hin]; [congruence | now apply H1].
      * simpl. now rewrite Hk.
      * intros k Hk0. simpl in Hk0. apply H3. tauto.
      * intros f0 [<-|Hin] Hk0; [congruence | now apply H4].
Qed.

Lemma drop_elements_leaves (n : nat) (xs : list pyval) (s : state) :
  forallb is_leaf xs = true ->
  drop_elements (_drop_none S n) xs s = Ok (without_none xs) s.
Proof.
  induction xs as [|v r IH]; simpl; [reflexivity|].
  intros Hb. apply andb_true_iff in Hb as [Hv Hr]. specialize (IH Hr).
  destruct (is_none v); simpl; [exact IH|].
  unfold bind. now rewrite (drop_none_leaf n v s Hv), IH.
Qed.

Lemma same_name_same_field (fields : list FieldInfo) (f g : FieldInfo) :
  List.NoDup (map fname fields) -> List.In f fields -> List.In g fields ->
  fname f = fname g -> f = g.
Proof.
  induction fields as [|h r IH]; simpl; [tauto|].
  intros Hnd Hf Hg Heq. inversion Hnd as [|? ? Hh Hr]; subst.
  destruct Hf as [->|Hf], Hg as [->|Hg]; try reflexivity.
  - exfalso. apply Hh. rewrite Heq. now apply in_map.
  - exfalso. apply Hh. rewrite <- Heq. now apply in_map.
  - now apply IH.
Qed.

Lemma drop_none_node (n : nat) (l : loc) (cls : string) (attrs : list (string * pyval))
  (s : state) :
  heap s !! l = Some (HModel cls attrs) ->
  _drop_none S (Datatypes.S n) (VRef l) s =
  match drop_fields (_drop_none S n) (VRef l) (fields_of S cls) [] s with
  | Ok kvs s' => Ok (VDict kvs) s'
  | Raise e s' => Raise e s'
  | OutOfFuel => OutOfFuel
  end.
Proof. intros Hl. simpl. rewrite Hl. reflexivity. Qed.

(** The cases of a node whose nesting the fuel covers:
    - if a declared field is not set on the node, no snapshot is made:
      [_drop_none] raises the ValueError [null_in_required], and so does
      [validate], before any schema validation;
    - if every declared field is set, then either a nested node fails in
      that way, or the snapshot is a mapping that holds exactly the
      declared fields whose value is not null or that are mandatory, in
      the order of declaration; each holds what [_drop_none] makes of the
      field's value; a mandatory field that is null is retained as null,
      a field that is null and not mandatory is absent; and [validate]
      returns or raises as strict validation of that snapshot decides;
    - the snapshot of a sequence of plain values is a new sequence
      without the null elements. *)
Lemma drop_none_cases (n : nat) (s : state) :
  (forall l cls attrs,
     heap s !! l = Some (HModel cls attrs) ->
     distinct (map fname (fields_of S cls)) = true ->
     bounded n s (VRef l) = true ->
     ((exists f, List.In f (fields_of S cls) /\ dict_get (fname f) attrs = None) ->
      has_no_snapshot S n s l) /\
     ((forall f, List.In f (fields_of S cls) -> dict_get (fname f) attrs <> None) ->
      has_no_snapshot S n s l \/ exists kvs s', has_snapshot S n s l cls attrs kvs s')) /\
  (forall l xs,
     heap s !! l = Some (HList xs) -> forallb is_leaf xs = true -> (0 < n)%nat ->
     _drop_none S n (VRef l) s =
     Ok (VRef (length (heap s)))
        (mkState (heap s ++ [HList (without_none xs)]) (events s))).
Proof.
  split.
  - intros l cls attrs Hl Hd Hb.
    destruct n as [|n']; [simpl in Hb; rewrite Hl in Hb; discriminate|].
    assert (Hattrs : forallb (fun kv => bounded n' s (snd kv)) attrs = true).
    { simpl in Hb. now rewrite Hl in Hb. }
    pose proof (drop_fields_returns n' (_drop_none S n') (drop_none_returns n')
                  (only_allocates_drop_none n') l cls attrs (fields_of S cls) [] s Hl Hattrs)
      as Hret.
    pose proof (only_allocates_drop_fields (_drop_none S n') (VRef l) (fields_of S cls)
                  (only_allocates_drop_none n') [] s) as Hall.
    assert (Hval : forall s' cleaned,
               _drop_none S (Datatypes.S n') (VRef l) s = Ok cleaned s' -> extends s s' ->
               validate S (Datatypes.S n') (VRef l) s = verdict S cls s' cleaned).
    { intros s' cleaned Hrun Hx. unfold validate, bind. rewrite Hrun.
      rewrite (as_model_lookup _ _ _ _ (extends_lookup _ _ _ _ Hx Hl)). reflexivity. }
    assert (Hraise : forall s' e,
               _drop_none S (Datatypes.S n') (VRef l) s = Raise e s' ->
               validate S (Datatypes.S n') (VRef l) s = Raise e s').
    { intros s' e Hrun. unfold validate, bind. now rewrite Hrun. }
    unfold has_no_snapshot, has_snapshot.
    rewrite (drop_none_node n' l cls attrs s Hl) in *.
    destruct (drop_fields (_drop_none S n') (VRef l) (fields_of S cls) [] s)
      as [kvs s'|e s'|] eqn:Hrun; [| |contradiction].
    + destruct (drop_fields_snapshot n' l cls attrs (fields_of S cls) [] s kvs s' Hl
                  (distinct_NoDup _ Hd) Hrun) as (H1 & H2 & H3 & H4).
      split.
      * intros (f & Hin & Hnone). exfalso. now apply (H1 f Hin).
      * intros _. right. exists kvs, s'. split; [exact Hall|].
        split; [reflexivity|]. split; [exact H2|]. split; [exact H4|].
        split; [|split].
        -- intros f Hin Hreq Hnull.
           assert (Hk : kept attrs f = true) by (unfold kept; now rewrite Hnull, Hreq).
           destruct (H4 f Hin Hk) as (v & c & s1 & s2 & Ha & _ & Hc & Hg).
           rewrite Hnull in Ha. injection Ha as <-.
           rewrite drop_none_leaf in Hc by reflexivity. injection Hc as <- _. exact Hg.
        -- intros f Hin Hreq Hnull. apply dict_get_None. rewrite H2. simpl.
           intros Hmem. apply in_map_iff in Hmem as (g & Hname & Hg).
           apply filter_In in Hg as [Hg Hkg].
           assert (g = f) by (apply (same_name_same_field (fields_of S cls));
                              auto using distinct_NoDup).
           subst g. unfold kept in Hkg. rewrite Hnull, Hreq in Hkg. discriminate.
        -- now apply Hval.
    + destruct Hall as [Hx ->]. split.
      * intros _. exists s'. split; [exact Hx|]. split; [reflexivity|]. now apply Hraise.
      * intros _. left. exists s'. split; [exact Hx|]. split; [reflexivity|]. now apply Hraise.
  - intros l xs Hl Hleaf Hn. destruct n as [|n']; [lia|].
    simpl. rewrite Hl. unfold bind. now rewrite drop_elements_leaves.
Qed.

(** C10. [validate] changes no object of the store, whether it returns
    or raises: every list and every node that exists before the call is
    the same after it (the snapshot is made of new objects); and it does
    return or raise when the fuel covers the nesting of the record. *)
Theorem validate_preserves_tree (fuel : nat) (self : pyval) (s : state) :
  preserved s (validate S fuel self s) /\
  preserved s (_drop_none S fuel self s) /\
  (bounded fuel s self = true -> returns (validate S fuel self s)).
Proof.
  split; [|split]; unfold preserved.
  - unfold validate, bind.
    destruct (_drop_none S fuel self s) as [cleaned s1|e s1|] eqn:Hd; simpl; [| |exact I].
    + assert (Hx : extends s s1) by (apply (drop_none_extends fuel self); now rewrite Hd).
      destruct (as_model s1 self) as [[cls attrs]|]; simpl.
      * destruct (model_validate S cls s1 cleaned); simpl;
          intros l o; now apply extends_lookup.
      * intros l o; now apply extends_lookup.
    + assert (Hx : extends s s1) by (apply (drop_none_extends fuel self); now rewrite Hd).
      intros l o; now apply extends_lookup.
  - destruct (_drop_none S fuel self s) as [cleaned s1|e s1|] eqn:Hd; simpl; [| |exact I];
      (assert (Hx : extends s s1) by (apply (drop_none_extends fuel self); now rewrite Hd));
      intros l o; now apply extends_lookup.
  - intros Hb. unfold validate. apply bind_returns; [now apply drop_none_returns|].
    intros cleaned s1 _. destruct (as_model s1 self) as [[cls attrs]|]; [|exact I].
    destruct (model_validate S cls s1 cleaned); exact I.
Qed.

End Snapshot.

(** ** The record of the test fixture *)

(** The record of the fixture is built as the tests expect: the keyword
    of the dataset is the configured sequence followed by the payload's,
    in a new object, and the configured sequence (the seventh object of
    the store) is as it was; the record validates. *)
Lemma fixture_record :
  result_of (run (do r <~ record Hri.schema (VStr "David Tester") VNone VNone;
                  getlist_path r ["catalog"; "dataset"; "keyword"]))
  = Some [VStr "Test platform"; VStr "Medical"; VStr "keyword2"] /\
  result_of (run (do r <~ record Hri.schema (VStr "David Tester") VNone VNone;
                  fun s => Ok (as_list s (VRef 6)) s))
  = Some (Some [VStr "Test platform"]) /\
  result_of (run (do r <~ record Hri.schema (VStr "David Tester") VNone VNone;
                  getattr_path r ["catalog"; "title"]))
  = Some (VStr "Title given by challenge") /\
  result_of (run (do r <~ record Hri.schema (VStr "David Tester") VNone VNone;
                  validate Hri.schema 10 r))
  = Some tt.
Proof. vm_compute. repeat split. Qed.

(** C2 as stated fails.  A mandatory field (the contact point's [fn])
    that the configuration sets to null, or to the empty string, is not
    retained as null in a snapshot: no snapshot is made, [_drop_none]
    raises its ValueError, and [validate] raises that error even with a
    schema validation that accepts every snapshot. *)
Lemma null_mandatory_field_has_no_snapshot :
  result_of (run (do r <~ record Hri.lenient VNone VNone VNone;
                  _drop_none Hri.lenient 10 r)) = None /\
  error_of (run (do r <~ record Hri.lenient VNone VNone VNone;
                 _drop_none Hri.lenient 10 r))
  = Some (ValueError "Likely put null or null equivalent value in required field") /\
  error_of (run (do r <~ record Hri.lenient VNone VNone VNone;
                 validate Hri.lenient 10 r))
  = Some (ValueError "Likely put null or null equivalent value in required field") /\
  error_of (run (do r <~ record Hri.lenient (VStr "") VNone VNone;
                 validate Hri.lenient 10 r))
  = Some (ValueError "Likely put null or null equivalent value in required field") /\
  result_of (run (do r <~ record Hri.lenient (VStr "David Tester") VNone VNone;
                  validate Hri.lenient 10 r)) = Some tt.
Proof. vm_compute. repeat split. Qed.

(** C1 at the failing input: the language of the catalog is "Eng".  The
    vocabulary pass succeeds and gives the authority URI for ENG; run a
    second time on the normalised record, it succeeds again and changes
    the field, to the URI made of the first three characters of the
    first URI.  Likewise the legal basis of the dataset gets the
    namespace a second time. *)
Lemma vocabulary_pass_twice :
  result_of (run (do r <~ record Hri.schema (VStr "David Tester") (VStr "Eng")
                            (VStr "InformedConsent");
                  _string_to_enum Hri.schema 10 r ;;;
                  getattr_path r ["catalog"; "language"]))
  = Some (VStr "http://publications.europa.eu/resource/authority/language/ENG") /\
  result_of (run (do r <~ record Hri.schema (VStr "David Tester") (VStr "Eng")
                            (VStr "InformedConsent");
                  _string_to_enum Hri.schema 10 r ;;;
                  _string_to_enum Hri.schema 10 r ;;;
                  getattr_path r ["catalog"; "language"]))
  = Some (VStr "http://publications.europa.eu/resource/authority/language/HTT") /\
  result_of (run (do r <~ record Hri.schema (VStr "David Tester") (VStr "Eng")
                            (VStr "InformedConsent");
                  _string_to_enum Hri.schema 10 r ;;;
                  getattr_path r ["catalog"; "dataset"; "legal_basis"]))
  = Some (VStr "https://w3id.org/dpv#InformedConsent") /\
  result_of (run (do r <~ record Hri.schema (VStr "David Tester") (VStr "Eng")
                            (VStr "InformedConsent");
                  _string_to_enum Hri.schema 10 r ;;;
                  _string_to_enum Hri.schema 10 r ;;;
                  getattr_path r ["catalog"; "dataset"; "legal_basis"]))
  = Some (VStr "https://w3id.org/dpv#https://w3id.org/dpv#InformedConsent").
Proof. vm_compute. repeat split. Qed.

(** The cardinality pass on a scalar field that holds a sequence inside a
    single-element sequence: the first run unwraps the outer sequence,
    the second run unwraps the inner one. *)
Lemma cardinality_pass_twice_nested :
  result_of ((_ensure_lists Hri.schema 2 (VRef 0) ;;;
              getattr (VRef 0) "fn") kind_nested)
  = Some (VRef 2) /\
  result_of ((_ensure_lists Hri.schema 2 (VRef 0) ;;;
              _ensure_lists Hri.schema 2 (VRef 0) ;;;
              getattr (VRef 0) "fn") kind_nested)
  = Some (VStr "David Tester").
Proof. vm_compute. split; reflexivity. Qed.

(** C7 at the failing input: the legal basis of the dataset is the
    sequence ["InformedConsent"].  The vocabulary pass replaces the
    element, in place, by the namespace followed by the text of the whole
    sequence, not of the element; the theme, a sequence too, is converted
    element by element. *)
Lemma legal_basis_sequence :
  result_of (run (do basis <~ alloc (HList [VStr "InformedConsent"]);
                  do r <~ record Hri.schema (VStr "David Tester") VNone basis;
                  _string_to_enum Hri.schema 10 r ;;;
                  getattr_path r ["catalog"; "dataset"; "legal_basis"]))
  = Some (VRef 0) /\
  result_of (run (do basis <~ alloc (HList [VStr "InformedConsent"]);
                  do r <~ record Hri.schema (VStr "David Tester") VNone basis;
                  _string_to_enum Hri.schema 10 r ;;;
                  getlist_path r ["catalog"; "dataset"; "legal_basis"]))
  = Some [VStr "https://w3id.org/dpv#['InformedConsent']"] /\
  result_of (run (do basis <~ alloc (HList [VStr "InformedConsent"]);
                  do r <~ record Hri.schema (VStr "David Tester") VNone basis;
                  _string_to_enum Hri.schema 10 r ;;;
                  getlist_path r ["catalog"; "dataset"; "theme"]))
  = Some [Hri.member "DatasetTheme" "heal"
            "http://publications.europa.eu/resource/authority/data-theme/HEAL"].
Proof. vm_compute. repeat split. Qed.

Lemma drop_none_cases_example :
  has_no_snapshot Hri.schema 1 kind_unset 0 /\
  (has_no_snapshot Hri.schema 1 kind_null 0 \/
   exists kvs s', has_snapshot Hri.schema 1 kind_null 0 "Kind" kind_null_attrs kvs s') /\
  _drop_none Hri.schema 1 (VRef 0) with_null_element =
  Ok (VRef 1) (mkState [HList [VStr "a"; VNone; VStr "b"]; HList [VStr "a"; VStr "b"]] []).
Proof.
  split; [|split].
  - apply (proj1 (proj1 (drop_none_cases Hri.schema 1 kind_unset) 0 "Kind"
                    [("hasUrl", VNone); ("hasEmail", VStr "test@testing.com")]
                    eq_refl eq_refl eq_refl)).
    exists (Hri.req "fn" Hri.text). split; [simpl; tauto | reflexivity].
  - apply (proj2 (proj1 (drop_none_cases Hri.schema 1 kind_null) 0 "Kind"
                    kind_null_attrs eq_refl eq_refl eq_refl)).
    intros f Hin. simpl in Hin. destruct Hin as [<-|[<-|[<-|[]]]]; discriminate.
  - apply (proj2 (drop_none_cases Hri.schema 1 with_null_element) 0
             [VStr "a"; VNone; VStr "b"] eq_refl eq_refl).
    lia.
Qed.

(** The snapshot of the contact point whose [fn] is null retains [fn] as
    null and has no [hasUrl]; strict validation then rejects it. *)
Lemma null_mandatory_field_retained :
  _drop_none Hri.schema 1 (VRef 0) kind_null =
  Ok (VDict [("hasEmail", VStr "test@testing.com"); ("fn", VNone)]) kind_null /\
  validate Hri.schema 1 (VRef 0) kind_null =
  Raise (ValidationError "fn: Field required") kind_null.
Proof. vm_compute. split; reflexivity. Qed.

Lemma validate_preserves_tree_witness :
  preserved kind_null (validate Hri.schema 1 (VRef 0) kind_null) /\
  returns (validate Hri.schema 1 (VRef 0) kind_null).
Proof.
  split.
  - apply (proj1 (validate_preserves_tree Hri.schema 1 (VRef 0) kind_null)).
  - apply (proj2 (proj2 (validate_preserves_tree Hri.schema 1 (VRef 0) kind_null))).
    reflexivity.
Defined.

(** ** The Field Filler *)

Section Filler.

Context (S : Schema).

Lemma fill_fields_dict (FDP_obj : pyval) (kvs : list (string * pyval)) :
  _fill_fields S FDP_obj (VDict kvs) = reporting_attribute_error (fill_items S FDP_obj kvs).
Proof.
  simpl. f_equal. induction kvs as [|[key value] rest IH]; [reflexivity|].
  simpl. unfold fill_item at 1. now rewrite IH.
Qed.

Lemma reporting_Ok_bind (m : M unit) (k : M unit) (s s1 : state) :
  m s = Ok tt s1 ->
  reporting_attribute_error (m ;;; k) s = reporting_attribute_error k s1.
Proof. intros H. unfold reporting_attribute_error, bind. now rewrite H. Qed.

Lemma fill_fields_cons_Ok (FDP_obj : pyval) (key : string) (value : pyval)
  (rest : list (string * pyval)) (s s1 : state) :
  fill_item S FDP_obj key value s = Ok tt s1 ->
  _fill_fields S FDP_obj (VDict ((key, value) :: rest)) s =
  _fill_fields S FDP_obj (VDict rest) s1.
Proof.
  intros H. rewrite !fill_fields_dict. simpl fill_items. now apply reporting_Ok_bind.
Qed.

Lemma fill_fields_cons_Raise (FDP_obj : pyval) (key : string) (value : pyval)
  (rest : list (string * pyval)) (s s1 : state) (e : exn) :
  fill_item S FDP_obj key value s = Raise e s1 ->
  _fill_fields S FDP_obj (VDict ((key, value) :: rest)) s =
  match e with
  | AttributeError _ => Raise e (hinted s1)
  | _ => Raise e s1
  end.
Proof.
  intros H. rewrite fill_fields_dict. simpl fill_items.
  unfold reporting_attribute_error, bind. rewrite H. destruct e; reflexivity.
Qed.

Lemma setattr_undeclared (s : state) (l : loc) (cls name : string)
  (attrs : list (string * pyval)) (v : pyval) :
  heap s !! l = Some (HModel cls attrs) -> declares S cls name = false ->
  setattr S (VRef l) name v s = Raise (no_field cls name) s.
Proof.
  intros Hl Hd. unfold setattr. now rewrite (as_model_lookup _ _ _ _ Hl), Hd.
Qed.


(** The Filler writes nothing for the key [mapping] (unless it holds a
    sequence), and nothing for a key that is not structural and holds a
    falsy value (null, false, 0, the empty string, an empty mapping): it
    goes on with the remaining entries in the same state. *)
Theorem fill_fields_skips (FDP_obj : pyval) (key : string) (value : pyval)
  (rest : list (string * pyval)) (s : state) :
  is_list s value = false ->
  key = "mapping" \/ (structural_class key = None /\ truthy s value = false) ->
  _fill_fields S FDP_obj (VDict ((key, value) :: rest)) s =
  _fill_fields S FDP_obj (VDict rest) s.
Proof.
  intros Hnl H. apply fill_fields_cons_Ok. unfold fill_item. rewrite Hnl.
  destruct H as [-> | [Hs Ht]].
  - reflexivity.
  - rewrite Hs, Ht. now destruct (String.eqb key "mapping").
Qed.

(** A truthy value that is no sequence, under a key that is neither
    structural nor [mapping], is written verbatim when the class of the
    node declares the key.  A key that the class does not declare is
    refused with a ValueError, for such a value as for a sequence, and
    the node is left as it was. *)
Theorem fill_fields_plain_key (l : loc) (cls key : string)
  (attrs : list (string * pyval)) (value : pyval) (rest : list (string * pyval))
  (s : state) :
  heap s !! l = Some (HModel cls attrs) ->
  is_list s value = true \/
  (structural_class key = None /\ key <> "mapping" /\ truthy s value = true) ->
  (declares S cls key = true ->
   _fill_fields S (VRef l) (VDict ((key, value) :: rest)) s =
   _fill_fields S (VRef l) (VDict rest) (with_attr s l cls attrs key value)) /\
  (declares S cls key = false ->
   _fill_fields S (VRef l) (VDict ((key, value) :: rest)) s =
   Raise (no_field cls key) s).
Proof.
  intros Hl H.
  assert (Hitem : fill_item S (VRef l) key value s = setattr S (VRef l) key value s).
  { unfold fill_item. destruct H as [-> | (Hs & Hk & Ht)]; [reflexivity|].
    destruct (is_list s value); [reflexivity|]. rewrite Hs, Ht.
    apply String.eqb_neq in Hk. now rewrite Hk. }
  split; intros Hd.
  - apply fill_fields_cons_Ok. rewrite Hitem. now apply setattr_declared.
  - rewrite (fill_fields_cons_Raise _ _ _ _ s s (no_field cls key)).
    + reflexivity.
    + rewrite Hitem. now apply (setattr_undeclared s l cls key attrs).
Qed.

(** A structural key whose value is neither a mapping nor a sequence
    (a string given for [creator], say): the Filler has already put a new
    node of the key's class, with its defaults only, into the field when
    the failure shows; it raises the AttributeError of [value.items()],
    and the hint is printed twice, once by the call for the child and
    once by the call for the node. *)
Theorem fill_fields_structural_scalar (l : loc) (cls key child_cls : string)
  (attrs : list (string * pyval)) (value : pyval) (rest : list (string * pyval))
  (s : state) :
  heap s !! l = Some (HModel cls attrs) ->
  structural_class key = Some child_cls ->
  declares S cls key = true ->
  is_list s value = false ->
  (forall kvs, value <> VDict kvs) ->
  exists s',
    heap s' = <[l := HModel cls (dict_set key (VRef (length (heap s))) attrs)]>
                (heap s ++ [HModel child_cls (construct_attrs (fields_of S child_cls) [])])%list /\
    events s' = (events s ++ [Print fill_hint; Print fill_hint])%list /\
    exists msg,
      _fill_fields S (VRef l) (VDict ((key, value) :: rest)) s =
      Raise (AttributeError msg) s'.
Proof.
  intros Hl Hs Hd Hnl Hnd.
  set (child := HModel child_cls (construct_attrs (fields_of S child_cls) [])).
  set (s1 := mkState (heap s ++ [child])%list (events s)).
  set (s2 := with_attr s1 l cls attrs key (VRef (length (heap s)))).
  assert (Hl1 : heap s1 !! l = Some (HModel cls attrs)) by now apply lookup_alloc_old.
  assert (Hfill : _fill_fields S (VRef (length (heap s))) value s2 =
                  Raise (no_attribute s2 value "items") (hinted s2)).
  { destruct value; try reflexivity. exfalso. now apply (Hnd kvs). }
  assert (Hitem : fill_item S (VRef l) key value s =
                  Raise (no_attribute s2 value "items") (hinted s2)).
  { unfold fill_item. rewrite Hnl, Hs. unfold bind at 1. unfold model_construct, alloc.
    fold child. fold s1. unfold bind at 1.
    rewrite (setattr_declared S s1 l cls key attrs _ Hl1 Hd). fold s2.
    unfold bind at 1.
    rewrite (getattr_set s2 l cls key (dict_set key (VRef (length (heap s))) attrs)
               (VRef (length (heap s)))).
    - exact Hfill.
    - now apply with_attr_same.
    - rewrite dict_get_set. now rewrite String.eqb_refl. }
  exists (hinted (hinted s2)). split; [reflexivity|]. split.
  - simpl. now rewrite <- app_assoc.
  - unfold no_attribute in Hitem. eexists.
    rewrite (fill_fields_cons_Raise _ _ _ _ _ _ _ Hitem). reflexivity.
Qed.

End Filler.

(** ** Sequences are kept by the Filler, the Resolver and the cardinality pass *)

Lemma lists_kept_refl (s : state) : lists_kept s s.
Proof. split; [|split]; eauto. Qed.

Lemma lists_kept_trans (s1 s2 s3 : state) :
  lists_kept s1 s2 -> lists_kept s2 s3 -> lists_kept s1 s3.
Proof.
  intros (A1 & B1 & C1) (A2 & B2 & C2). split; [|split].
  - intros l xs H. now apply A2, A1.
  - intros l cls attrs H. destruct (B1 _ _ _ H) as [attrs1 H1]. now apply (B2 _ _ _ H1).
  - lia.
Qed.

Lemma lists_kept_events (s : state) (evs : list event) : lists_kept s (mkState (heap s) evs).
Proof. split; [|split]; simpl; eauto. Qed.

Lemma lists_kept_alloc (s : state) (o : hobj) :
  lists_kept s (mkState (heap s ++ [o])%list (events s)).
Proof.
  split; [|split]; simpl.
  - intros l xs H. now apply lookup_app_l_Some.
  - intros l cls attrs H. exists attrs. now apply lookup_app_l_Some.
  - rewrite length_app. lia.
Qed.

Lemma lists_kept_with_attr (s : state) (l : loc) (cls name : string)
  (attrs : list (string * pyval)) (v : pyval) :
  heap s !! l = Some (HModel cls attrs) -> lists_kept s (with_attr s l cls attrs name v).
Proof.
  intros Hl. split; [|split]; simpl.
  - intros l' xs H. rewrite list_lookup_insert_ne; [assumption|].
    intros E. subst l'. pose proof (eq_trans (eq_sym Hl) H) as X. discriminate X.
  - intros l' c a H. destruct (Nat.eq_dec l l') as [<-|Hne].
    + pose proof (eq_trans (eq_sym Hl) H) as X. injection X as <- <-.
      eexists. apply list_lookup_insert_eq. now apply lookup_lt_Some in Hl.
    + exists a. now rewrite list_lookup_insert_ne.
  - now rewrite length_insert.
Qed.

Lemma keeps_lists_ret {A} (a : A) : keeps_lists (ret a).
Proof. intros s. apply lists_kept_refl. Qed.

Lemma keeps_lists_raise {A} (e : state -> exn) : keeps_lists (fun s => @Raise A (e s) s).
Proof. intros s. apply lists_kept_refl. Qed.

Lemma keeps_lists_bind {A B} (m : M A) (k : A -> M B) :
  keeps_lists m -> (forall a, keeps_lists (k a)) -> keeps_lists (bind m k).
Proof.
  intros Hm Hk s. unfold bind. specialize (Hm s).
  destruct (m s) as [a s1|e s1|]; simpl in *; [|assumption|exact I].
  specialize (Hk a s1). destruct (final_state (k a s1)); [|exact I].
  now apply (lists_kept_trans s s1).
Qed.

Lemma keeps_lists_for_each {A} (l : list A) (body : A -> M unit) :
  (forall x, keeps_lists (body x)) -> keeps_lists (for_each l body).
Proof.
  intros H. induction l as [|x r IH]; simpl.
  - apply keeps_lists_ret.
  - apply keeps_lists_bind; [apply H | intros _; exact IH].
Qed.

Lemma keeps_lists_getattr (obj : pyval) (name : string) : keeps_lists (getattr obj name).
Proof. intros s. rewrite getattr_state. apply lists_kept_refl. Qed.

Lemma keeps_lists_alloc (o : hobj) : keeps_lists (alloc o).
Proof. intros s. apply lists_kept_alloc. Qed.

Lemma keeps_lists_emit (ev : event) : keeps_lists (emit ev).
Proof. intros s. apply lists_kept_events. Qed.

Lemma keeps_lists_reporting {A} (m : M A) :
  keeps_lists m -> keeps_lists (reporting_attribute_error m).
Proof.
  intros H s. unfold reporting_attribute_error. specialize (H s).
  destruct (m s) as [a s1|[msg|msg|msg|msg] s1|]; simpl in *; assumption.
Qed.

Section Frame.

Context (S : Schema).

Lemma keeps_lists_setattr (obj : pyval) (name : string) (v : pyval) :
  keeps_lists (setattr S obj name v).
Proof.
  intros s. unfold setattr. destruct obj as [| b | z | t | c t r | xs | kvs | l];
    try apply lists_kept_refl.
  destruct (as_model s (VRef l)) as [[cls attrs]|] eqn:Hm; [|apply lists_kept_refl].
  destruct (declares S cls name); [|apply lists_kept_refl].
  apply lists_kept_with_attr. unfold as_model, deref in Hm.
  destruct (heap s !! l) as [[xs|c a]|]; try discriminate. now injection Hm as -> ->.
Qed.

Lemma keeps_lists_setattr_named (obj name v : pyval) :
  keeps_lists (setattr_named S obj name v).
Proof.
  destruct name; try (intros s; apply lists_kept_refl). apply keeps_lists_setattr.
Qed.

Lemma keeps_lists_fill_fields (config : pyval) :
  forall FDP_obj, keeps_lists (_fill_fields S FDP_obj config).
Proof.
  induction config as [v Hv | xs _ | kvs IH] using pyval_nested_ind; intros FDP_obj.
  - destruct v as [| b | z | t | c t r | xs | kvs | l]; try discriminate Hv;
      intros s; apply lists_kept_events.
  - intros s. apply lists_kept_events.
  - rewrite fill_fields_dict. apply keeps_lists_reporting.
    induction IH as [|[key value] r Hx _ IHr]; simpl; [apply keeps_lists_ret|].
    apply keeps_lists_bind; [|intros _; exact IHr].
    intros s. unfold fill_item.
    destruct (is_list s value); [apply keeps_lists_setattr|].
    destruct (structural_class key) as [cls|].
    + apply (keeps_lists_bind (model_construct S cls []));
        [apply keeps_lists_alloc | intros child].
      apply keeps_lists_bind; [apply keeps_lists_setattr | intros _].
      apply keeps_lists_bind; [apply keeps_lists_getattr | intros got]. apply Hx.
    + destruct (String.eqb key "mapping"); [apply lists_kept_refl|].
      destruct (truthy s value); [apply keeps_lists_setattr | apply lists_kept_refl].
Qed.

Lemma keeps_lists_list_concat (a b : pyval) : keeps_lists (list_concat a b).
Proof.
  intros s. unfold list_concat.
  destruct (as_list s a), (as_list s b); try apply lists_kept_refl. apply lists_kept_alloc.
Qed.

Lemma keeps_lists_populate_write (FDP_obj api_value internal_field : pyval) :
  keeps_lists (populate_write S FDP_obj api_value internal_field).
Proof.
  intros s. unfold populate_write.
  destruct (truthy s api_value); [|apply lists_kept_refl].
  destruct (is_keyword internal_field); [|apply keeps_lists_setattr_named].
  apply (keeps_lists_bind (getattr FDP_obj "keyword")); [apply keeps_lists_getattr|].
  intros kw s1. destruct (is_list s1 kw); [|apply keeps_lists_setattr_named].
  apply (keeps_lists_bind (getattr FDP_obj "keyword")); [apply keeps_lists_getattr|].
  intros kw'. apply keeps_lists_bind; [apply keeps_lists_list_concat|].
  intros joined. apply keeps_lists_setattr_named.
Qed.

Lemma keeps_lists_iterate (v : pyval) : keeps_lists (iterate v).
Proof. intros s. rewrite iterate_state. apply lists_kept_refl. Qed.

Lemma keeps_lists_populate_mapping (FDP_obj : pyval) (api_data : list (string * pyval))
  (value : pyval) :
  keeps_lists (populate_mapping S FDP_obj api_data value).
Proof.
  destruct value; try apply keeps_lists_ret. simpl.
  apply keeps_lists_for_each. intros [api_field internal_fields]. simpl.
  destruct (dict_get api_field api_data) as [v|]; [|apply keeps_lists_ret].
  apply keeps_lists_bind; [apply keeps_lists_iterate | intros names].
  apply keeps_lists_for_each. intros name. apply keeps_lists_populate_write.
Qed.

Lemma keeps_lists_populate_FDP (api_data : list (string * pyval)) (config : pyval) :
  forall FDP_obj, keeps_lists (_populate_FDP S FDP_obj api_data config).
Proof.
  induction config as [v Hv | xs _ | kvs IH] using pyval_nested_ind; intros FDP_obj.
  - destruct v as [| b | z | t | c t r | xs | kvs | l]; try discriminate Hv;
      intros s; apply lists_kept_refl.
  - intros s. apply lists_kept_refl.
  - simpl. induction IH as [|[field value] r Hx _ IHr]; [apply keeps_lists_ret|].
    apply keeps_lists_bind; [|intros _; exact IHr].
    destruct (descends field).
    + apply keeps_lists_bind; [apply keeps_lists_getattr | intros child; apply Hx].
    + destruct (String.eqb field "mapping");
        [apply keeps_lists_populate_mapping | apply keeps_lists_ret].
Qed.

Lemma keeps_lists_create (config : pyval) (api_data : option (list (string * pyval))) :
  keeps_lists (create_FDP_instance S config api_data).
Proof.
  unfold create_FDP_instance.
  apply keeps_lists_bind; [apply keeps_lists_alloc | intros FDP_obj].
  destruct (is_none config); [apply keeps_lists_ret|].
  apply keeps_lists_bind; [apply keeps_lists_fill_fields | intros _].
  destruct api_data as [d|]; [|apply keeps_lists_ret].
  apply keeps_lists_bind; [apply keeps_lists_populate_FDP | intros _; apply keeps_lists_ret].
Qed.

Lemma keeps_lists_ensure_field (rec : pyval -> M unit) (FDP_obj : pyval) (f : FieldInfo) :
  (forall v, keeps_lists (rec v)) -> keeps_lists (ensure_field S rec FDP_obj f).
Proof.
  intros Hrec. unfold ensure_field.
  apply keeps_lists_bind; [apply keeps_lists_getattr | intros value].
  apply keeps_lists_bind.
  - intros s. destruct (is_model s value); [apply Hrec | apply lists_kept_refl].
  - intros _ s.
    destruct (is_list_type f && negb (is_list s value) && negb (is_none value)).
    + apply (keeps_lists_bind (alloc (HList [value]))); [apply keeps_lists_alloc|].
      intros wrapped. apply keeps_lists_setattr.
    + destruct (negb (is_list_type f) && is_list s value); [|apply lists_kept_refl].
      destruct (as_list s value) as [[|x [|y r]]|]; try apply lists_kept_refl.
      apply (keeps_lists_bind (setattr S FDP_obj (fname f) x));
        [apply keeps_lists_setattr | intros _; apply keeps_lists_emit].
Qed.

Lemma keeps_lists_ensure_lists (fuel : nat) :
  forall FDP_obj, keeps_lists (_ensure_lists S fuel FDP_obj).
Proof.
  induction fuel as [|n IH]; intros FDP_obj s; simpl; [exact I|].
  destruct (as_model s FDP_obj) as [[cls attrs]|]; [|apply lists_kept_refl].
  apply keeps_lists_for_each. intros f. now apply keeps_lists_ensure_field.
Qed.

(** Building a record and the cardinality pass never change a sequence
    object: whether they return or raise, every sequence that is in the
    store before [_fill_fields], [_populate_FDP], [create_FDP_instance] or
    [_ensure_lists] holds the same elements after it (the sequences of the
    configuration and of the payload among them), every node is still a
    node of its class, and no object is removed. *)
Theorem creation_keeps_sequences (FDP_obj config : pyval)
  (api_data : list (string * pyval)) (given : option (list (string * pyval)))
  (fuel : nat) :
  keeps_lists (_fill_fields S FDP_obj config) /\
  keeps_lists (_populate_FDP S FDP_obj api_data config) /\
  keeps_lists (create_FDP_instance S config given) /\
  keeps_lists (_ensure_lists S fuel FDP_obj).
Proof.
  split; [apply keeps_lists_fill_fields|].
  split; [apply keeps_lists_populate_FDP|].
  split; [apply keeps_lists_create | apply keeps_lists_ensure_lists].
Qed.

End Frame.

(** ** The Mapping Resolver: writes and their edge cases *)

Section ResolverWrites.

Context (S : Schema).

Lemma truthy_with_attr (s : state) (l : loc) (cls name : string)
  (attrs : list (string * pyval)) (x v : pyval) :
  heap s !! l = Some (HModel cls attrs) ->
  truthy (with_attr s l cls attrs name x) v = truthy s v.
Proof.
  intros Hl. destruct v as [| b | z | t | c t r | xs | kvs | l']; try reflexivity.
  unfold truthy, as_list, deref. destruct (Nat.eq_dec l' l) as [->|Hne].
  - rewrite (with_attr_same s l cls name attrs x Hl).
    pose proof Hl as Hl'. unfold loc in *. now rewrite Hl'.
  - now rewrite with_attr_other.
Qed.

Lemma populate_write_plain (l : loc) (cls name : string) (attrs : list (string * pyval))
  (v : pyval) (s : state) :
  heap s !! l = Some (HModel cls attrs) ->
  declares S cls name = true -> name <> "keyword" -> truthy s v = true ->
  populate_write S (VRef l) v (VStr name) s = Ok tt (with_attr s l cls attrs name v).
Proof.
  intros Hl Hd Hk Ht. unfold populate_write. rewrite Ht.
  assert (Hkw : is_keyword (VStr name) = false) by (simpl; now apply String.eqb_neq).
  rewrite Hkw. now apply setattr_declared.
Qed.

Lemma populate_write_all (l : loc) (cls : string) (v : pyval) (names : list string) :
  forall (attrs : list (string * pyval)) (s : state),
    heap s !! l = Some (HModel cls attrs) ->
    forallb (declares S cls) names = true ->
    ~ List.In "keyword" names ->
    truthy s v = true ->
    for_each (map VStr names) (populate_write S (VRef l) v) s =
    Ok tt (mkState (<[l := HModel cls (set_all names v attrs)]> (heap s)) (events s)).
Proof.
  induction names as [|name r IH]; intros attrs s Hl Hd Hk Ht.
  - simpl. unfold ret. f_equal. destruct s as [h evs]. simpl in *. f_equal.
    symmetry. now apply list_insert_id.
  - simpl in Hd. apply andb_true_iff in Hd as [Hd1 Hd2].
    simpl for_each. unfold bind.
    rewrite (populate_write_plain l cls name attrs v s Hl Hd1); try assumption.
    2:{ intros ->. apply Hk. now left. }
    rewrite (IH (dict_set name v attrs)).
    + f_equal. unfold with_attr. simpl. f_equal. now rewrite list_insert_insert_eq.
    + now apply with_attr_same.
    + exact Hd2.
    + intros Hin. apply Hk. now right.
    + now rewrite truthy_with_attr.
Qed.

Lemma populate_entry_writes_all (l ln : loc) (cls api_field : string)
  (attrs : list (string * pyval)) (api_data : list (string * pyval))
  (v : pyval) (names : list string) (s : state) :
  heap s !! l = Some (HModel cls attrs) ->
  heap s !! ln = Some (HList (map VStr names)) ->
  dict_get api_field api_data = Some v ->
  truthy s v = true ->
  forallb (declares S cls) names = true ->
  ~ List.In "keyword" names ->
  populate_entry S (VRef l) api_data (api_field, VRef ln) s =
  Ok tt (mkState (<[l := HModel cls (set_all names v attrs)]> (heap s)) (events s)) /\
  (forall name, List.In name names -> dict_get name (set_all names v attrs) = Some v).
Proof.
  intros Hl Hln Hv Ht Hd Hk. split.
  - unfold populate_entry. rewrite Hv. unfold bind. simpl iterate. rewrite Hln.
    now apply populate_write_all.
  - clear. revert attrs. induction names as [|n r IH]; intros attrs name; simpl; [tauto|].
    intros [<-|Hin]; [|now apply IH].
    destruct (in_dec string_dec n r) as [Hr|Hr]; [now apply IH|].
    assert (Hkeep : forall a, dict_get n a = Some v -> dict_get n (set_all r v a) = Some v).
    { clear. induction r as [|m r IH]; intros a Ha; simpl; [assumption|].
      apply IH. rewrite dict_get_set. now destruct (String.eqb n m). }
    apply Hkeep. rewrite dict_get_set. now rewrite String.eqb_refl.
Qed.

Lemma populate_write_keyword (l : loc) (cls : string)
  (attrs : list (string * pyval)) (v : pyval) (s : state) :
  heap s !! l = Some (HModel cls attrs) ->
  truthy s v = true ->
  (forall old, dict_get "keyword" attrs = Some old -> is_list s old = false ->
   declares S cls "keyword" = true ->
   populate_write S (VRef l) v (VStr "keyword") s =
   Ok tt (with_attr s l cls attrs "keyword" v)) /\
  (forall old, dict_get "keyword" attrs = Some old -> is_list s old = true ->
   is_list s v = false ->
   exists msg, populate_write S (VRef l) v (VStr "keyword") s = Raise (TypeError msg) s) /\
  (dict_get "keyword" attrs = None ->
   exists msg, populate_write S (VRef l) v (VStr "keyword") s = Raise (AttributeError msg) s).
Proof.
  intros Hl Ht. split; [|split].
  - intros old Hold Hnl Hd. unfold populate_write. rewrite Ht. simpl is_keyword. cbv iota.
    unfold bind. rewrite (getattr_set _ _ _ _ _ _ Hl Hold), Hnl.
    now apply setattr_declared.
  - intros old Hold Hil Hnl. unfold populate_write. rewrite Ht. simpl is_keyword. cbv iota.
    unfold bind at 1. rewrite (getattr_set _ _ _ _ _ _ Hl Hold), Hil.
    unfold bind at 1. rewrite (getattr_set _ _ _ _ _ _ Hl Hold).
    unfold bind, list_concat. unfold is_list in Hil, Hnl.
    destruct (as_list s old); [|discriminate]. destruct (as_list s v); [discriminate|].
    eexists. reflexivity.
  - intros Hnone. unfold populate_write. rewrite Ht. simpl is_keyword. cbv iota.
    unfold bind. rewrite (getattr_unset _ _ _ _ _ Hl Hnone). eexists. reflexivity.
Qed.

Lemma populate_FDP_one_entry (FDP_obj : pyval) (api_data : list (string * pyval))
  (entry : string * pyval) (s : state) :
  _populate_FDP S FDP_obj api_data (VDict [("mapping", VDict [entry])]) s =
  populate_entry S FDP_obj api_data entry s.
Proof.
  rewrite populate_FDP_step. change (descends "mapping") with false. cbv iota.
  change (String.eqb "mapping" "mapping") with true. cbv iota.
  unfold populate_mapping. cbn [for_each]. unfold bind.
  destruct (populate_entry S FDP_obj api_data entry s) as [[] s'|e s'|]; reflexivity.
Qed.

(** A mapping directive whose entry names several internal fields: when
    the payload has a truthy value for the external field, the Resolver
    sets every named field (declared by the class of the node, none of
    them [keyword]) to that same value, in the order of the names;
    nothing else changes. *)
Theorem populate_FDP_fans_out (l ln : loc) (cls api_field : string)
  (attrs : list (string * pyval)) (api_data : list (string * pyval))
  (v : pyval) (names : list string) (s : state) :
  heap s !! l = Some (HModel cls attrs) ->
  heap s !! ln = Some (HList (map VStr names)) ->
  dict_get api_field api_data = Some v ->
  truthy s v = true ->
  forallb (declares S cls) names = true ->
  ~ List.In "keyword" names ->
  _populate_FDP S (VRef l) api_data (VDict [("mapping", VDict [(api_field, VRef ln)])]) s =
  Ok tt (mkState (<[l := HModel cls (set_all names v attrs)]> (heap s)) (events s)) /\
  (forall name, List.In name names -> dict_get name (set_all names v attrs) = Some v).
Proof.
  intros Hl Hln Hv Ht Hd Hk. rewrite populate_FDP_one_entry.
  now apply populate_entry_writes_all.
Qed.

(** The keyword rule of the Resolver at its edges, for a mapping
    directive that feeds [keyword] from an external field whose payload
    value [v] is truthy:
    - the keyword field holds something that is no sequence (null, a
      string): the field is replaced by [v] itself, as any other field;
    - the keyword field holds a sequence and [v] is no sequence: a
      TypeError is raised and nothing is written;
    - the node has no keyword attribute: an AttributeError is raised and
      nothing is written. *)
Theorem populate_FDP_keyword_edges (l ln : loc) (cls api_field : string)
  (attrs : list (string * pyval)) (api_data : list (string * pyval)) (v : pyval)
  (s : state) :
  heap s !! l = Some (HModel cls attrs) ->
  heap s !! ln = Some (HList [VStr "keyword"]) ->
  dict_get api_field api_data = Some v ->
  truthy s v = true ->
  (forall old, dict_get "keyword" attrs = Some old -> is_list s old = false ->
   declares S cls "keyword" = true ->
   _populate_FDP S (VRef l) api_data (VDict [("mapping", VDict [(api_field, VRef ln)])]) s =
   Ok tt (with_attr s l cls attrs "keyword" v)) /\
  (forall old, dict_get "keyword" attrs = Some old -> is_list s old = true ->
   is_list s v = false ->
   exists msg,
     _populate_FDP S (VRef l) api_data (VDict [("mapping", VDict [(api_field, VRef ln)])]) s =
     Raise (TypeError msg) s) /\
  (dict_get "keyword" attrs = None ->
   exists msg,
     _populate_FDP S (VRef l) api_data (VDict [("mapping", VDict [(api_field, VRef ln)])]) s =
     Raise (AttributeError msg) s).
Proof.
  intros Hl Hln Hv Ht.
  assert (E : _populate_FDP S (VRef l) api_data
                (VDict [("mapping", VDict [(api_field, VRef ln)])]) s =
              populate_write S (VRef l) v (VStr "keyword") s).
  { rewrite populate_FDP_one_entry. unfold populate_entry. rewrite Hv.
    unfold bind at 1. simpl iterate. rewrite Hln. cbn [for_each]. unfold bind.
    destruct (populate_write S (VRef l) v (VStr "keyword") s) as [[] s'|e s'|]; reflexivity. }
  rewrite E. now apply populate_write_keyword.
Qed.

End ResolverWrites.

(** ** The Filler and the Resolver together *)

Section Composition.

Context (S : Schema).

Lemma structural_of_descends (field : string) :
  descends field = true -> exists cls, structural_class field = Some cls.
Proof.
  unfold descends, structural_class.
  destruct (String.eqb field "catalog"); [eauto|].
  destruct (String.eqb field "dataset"); [eauto|].
  destruct (String.eqb field "distribution"); [eauto | discriminate].
Qed.

Lemma not_descends_plain (key : string) : structural_class key = None -> descends key = false.
Proof.
  intros H. destruct (descends key) eqn:E; [|reflexivity].
  destruct (structural_of_descends key E) as [cls Hc]. congruence.
Qed.

(** A sequence given for catalog, dataset or distribution in the
    configuration: the Filler accepts it and sets it verbatim, and the
    Resolver, which walks the same configuration, then raises the
    AttributeError of [config.items()] on that sequence; the field still
    holds the sequence. *)
Theorem sequence_under_structural_key (l ll : loc) (cls field : string)
  (attrs : list (string * pyval)) (xs : list pyval) (api_data : list (string * pyval))
  (s : state) :
  heap s !! l = Some (HModel cls attrs) ->
  heap s !! ll = Some (HList xs) ->
  declares S cls field = true ->
  List.In field ["catalog"; "dataset"; "distribution"] ->
  _fill_fields S (VRef l) (VDict [(field, VRef ll)]) s =
  Ok tt (with_attr s l cls attrs field (VRef ll)) /\
  _populate_FDP S (VRef l) api_data (VDict [(field, VRef ll)])
    (with_attr s l cls attrs field (VRef ll)) =
  Raise (AttributeError "'list' object has no attribute 'items'")
    (with_attr s l cls attrs field (VRef ll)).
Proof.
  intros Hl Hll Hd Hin. split.
  - rewrite (fill_fields_cons_Ok S (VRef l) field (VRef ll) [] s
               (with_attr s l cls attrs field (VRef ll))); [reflexivity|].
    unfold fill_item. rewrite (is_list_lookup _ _ _ Hll). now apply setattr_declared.
  - assert (Hdesc : descends field = true).
    { simpl in Hin. destruct Hin as [<-|[<-|[<-|[]]]]; reflexivity. }
    rewrite populate_FDP_step, Hdesc. unfold bind at 1 2.
    rewrite (getattr_set _ l cls field (dict_set field (VRef ll) attrs) (VRef ll)).
    + simpl. unfold no_attribute, type_name.
      assert (Hne : ll <> l) by (intros ->; pose proof (eq_trans (eq_sym Hl) Hll) as X;
                                 discriminate X).
      pose proof (with_attr_other s l ll cls field attrs (VRef ll) Hne) as Ho.
      simpl in Ho. simpl. unfold loc in *. rewrite Ho, Hll. reflexivity.
    + now apply with_attr_same.
    + rewrite dict_get_set. now rewrite String.eqb_refl.
Qed.

(** Precedence of the payload over the configuration, for a plain field
    [name] that the configuration sets to a non-empty string and that a
    mapping directive of the same node feeds from the external field
    [ext]: after the Filler and the Resolver the field holds the payload
    value if the payload has a truthy value for [ext], and the
    configured string otherwise. *)
Theorem payload_overrides_configuration (l ln : loc) (cls name ext configured : string)
  (attrs : list (string * pyval)) (api_data : list (string * pyval)) (s : state) :
  heap s !! l = Some (HModel cls attrs) ->
  heap s !! ln = Some (HList [VStr name]) ->
  declares S cls name = true ->
  structural_class name = None -> name <> "mapping" -> name <> "keyword" ->
  configured <> "" ->
  (_fill_fields S (VRef l)
     (VDict [(name, VStr configured); ("mapping", VDict [(ext, VRef ln)])]) ;;;
   _populate_FDP S (VRef l) api_data
     (VDict [(name, VStr configured); ("mapping", VDict [(ext, VRef ln)])]) ;;;
   getattr (VRef l) name) s =
  match dict_get ext api_data with
  | Some v =>
      if truthy s v
      then Ok v (with_attr (with_attr s l cls attrs name (VStr configured)) l cls
                   (dict_set name (VStr configured) attrs) name v)
      else Ok (VStr configured) (with_attr s l cls attrs name (VStr configured))
  | None => Ok (VStr configured) (with_attr s l cls attrs name (VStr configured))
  end.
Proof.
  intros Hl Hln Hd Hs Hm Hk Hc.
  set (s1 := with_attr s l cls attrs name (VStr configured)).
  assert (Hl1 : heap s1 !! l = Some (HModel cls (dict_set name (VStr configured) attrs)))
    by now apply with_attr_same.
  assert (Hne : ln <> l) by (intros ->; pose proof (eq_trans (eq_sym Hl) Hln) as X;
                             discriminate X).
  assert (Hln1 : heap s1 !! ln = Some (HList [VStr name])).
  { unfold s1. rewrite with_attr_other; assumption. }
  assert (Hfill : _fill_fields S (VRef l)
                    (VDict [(name, VStr configured); ("mapping", VDict [(ext, VRef ln)])]) s
                  = Ok tt s1).
  { rewrite (fill_fields_cons_Ok S (VRef l) name (VStr configured) _ s s1).
    - rewrite (fill_fields_cons_Ok S (VRef l) "mapping" _ [] s1 s1); reflexivity.
    - unfold fill_item. change (is_list s (VStr configured)) with false. cbv iota.
      rewrite Hs. apply String.eqb_neq in Hm. rewrite Hm.
      assert (Ht : truthy s (VStr configured) = true).
      { simpl. apply negb_true_iff. now apply String.eqb_neq. }
      rewrite Ht. now apply setattr_declared. }
  unfold bind at 1. rewrite Hfill.
  rewrite !populate_FDP_step. rewrite (not_descends_plain name Hs).
  apply String.eqb_neq in Hm. rewrite Hm.
  change (descends "mapping") with false. cbv iota.
  change (String.eqb "mapping" "mapping") with true. cbv iota.
  unfold bind at 1 2 3. unfold ret at 1.
  unfold populate_mapping. simpl for_each. unfold bind at 1 2. unfold populate_entry.
  destruct (dict_get ext api_data) as [v|] eqn:Hv.
  - unfold iterate. rewrite Hln1. simpl for_each. unfold bind.
    assert (Hts : truthy s1 v = truthy s v) by (unfold s1; now apply truthy_with_attr).
    destruct (truthy s v) eqn:Ht.
    + rewrite (populate_write_plain S l cls name _ v s1 Hl1 Hd Hk Hts).
      simpl. unfold ret. apply getattr_set with (cls := cls)
        (attrs := dict_set name v (dict_set name (VStr configured) attrs)).
      * now apply with_attr_same.
      * rewrite dict_get_set. now rewrite String.eqb_refl.
    + unfold populate_write. rewrite Hts. simpl. unfold ret.
      apply (getattr_set s1 l cls name _ _ Hl1). rewrite dict_get_set.
      now rewrite String.eqb_refl.
  - simpl. unfold ret. apply (getattr_set s1 l cls name _ _ Hl1). rewrite dict_get_set.
    now rewrite String.eqb_refl.
Qed.

(** A record created without a configuration ([config] null, or an empty
    mapping) is the bare record, also when a payload is given: nothing is
    filled and nothing is resolved, the record has no catalog, and
    [validate] raises the ValueError of [_drop_none] on it. *)
Theorem record_without_configuration (given : option (list (string * pyval)))
  (fuel : nat) (s : state) :
  create_FDP_instance S VNone given s =
    Ok (VRef (length (heap s))) (bare_record s VNone (payload_value given)) /\
  create_FDP_instance S (VDict []) given s =
    Ok (VRef (length (heap s))) (bare_record s (VDict []) (payload_value given)) /\
  (forall config,
     getattr (VRef (length (heap s))) "catalog" (bare_record s config (payload_value given)) =
       Raise (AttributeError "'MetadataRecord' object has no attribute 'catalog'")
         (bare_record s config (payload_value given)) /\
     validate S (Datatypes.S fuel) (VRef (length (heap s)))
       (bare_record s config (payload_value given)) =
       Raise null_in_required (bare_record s config (payload_value given))).
Proof.
  assert (Hn : forall config,
             heap (bare_record s config (payload_value given)) !! length (heap s) =
             Some (HModel "MetadataRecord"
                     [("config", config); ("api_data", payload_value given)])).
  { intros config. apply lookup_alloc_new. }
  split; [|split].
  - unfold create_FDP_instance. destruct given; reflexivity.
  - unfold create_FDP_instance. destruct given; reflexivity.
  - intros config. split.
    + rewrite (getattr_unset (bare_record s config (payload_value given)) (length (heap s))
                 "MetadataRecord" "catalog" _ (Hn config) eq_refl).
      unfold no_attribute, type_name. pose proof (Hn config) as H. unfold loc in *.
      now rewrite H.
    + unfold validate. unfold bind at 1.
      rewrite (drop_none_node S fuel _ _ _ _ (Hn config)).
      change (fields_of S "MetadataRecord") with record_fields.
      unfold record_fields. simpl drop_fields. unfold bind at 1. unfold drop_field at 1.
      simpl fname.
      rewrite (getattr_unset (bare_record s config (payload_value given)) (length (heap s))
                 "MetadataRecord" "catalog" _ (Hn config) eq_refl).
      reflexivity.
Qed.

End Composition.

(** ** The cardinality pass: fields it leaves alone, and a second run *)

Section CardinalityAgain.

Context (S : Schema).

Lemma plainb_not_model (s : state) (v : pyval) : plainb s v = true -> is_model s v = false.
Proof.
  destruct v as [| b | z | t | c t r | xs | kvs | k]; try reflexivity.
  unfold plainb, is_list, is_model, as_list, as_model.
  destruct (deref s (VRef k)) as [[xs|c a]|]; now try discriminate.
Qed.

Lemma plainb_kept (s s1 : state) (v : pyval) :
  lists_kept s s1 -> plainb s v = true ->
  plainb s1 v = true /\ as_list s1 v = as_list s v.
Proof.
  intros (Hk & _ & _). destruct v as [| b | z | t | c t r | xs | kvs | k];
    try (split; reflexivity).
  unfold plainb, is_list, as_list, deref.
  destruct (heap s !! k) as [[xs|c a]|] eqn:E; try discriminate.
  intros _. pose proof (Hk k xs E) as E1. unfold loc in *. now rewrite E1.
Qed.

Lemma is_list_kept (s s1 : state) (v : pyval) :
  lists_kept s s1 -> plainb s v = true -> is_list s1 v = is_list s v.
Proof.
  intros Hk Hp. unfold is_list. now rewrite (proj2 (plainb_kept s s1 v Hk Hp)).
Qed.

Lemma settled_kept (s s1 : state) (attrs attrs1 : list (string * pyval)) (f : FieldInfo) :
  lists_kept s s1 -> dict_get (fname f) attrs1 = dict_get (fname f) attrs ->
  settled s attrs f = true -> settled s1 attrs1 f = true.
Proof.
  intros Hk Hg. unfold settled. rewrite Hg.
  destruct (dict_get (fname f) attrs) as [v|]; [|discriminate].
  intros H. apply andb_true_iff in H as [Hp Hs].
  rewrite (proj1 (plainb_kept s s1 v Hk Hp)), (is_list_kept s s1 v Hk Hp). exact Hs.
Qed.

Lemma unnested_kept (s s1 : state) (attrs attrs1 : list (string * pyval)) (f : FieldInfo) :
  lists_kept s s1 -> dict_get (fname f) attrs1 = dict_get (fname f) attrs ->
  unnested s attrs f = true -> unnested s1 attrs1 f = true.
Proof.
  intros Hk Hg. unfold unnested. rewrite Hg.
  destruct (dict_get (fname f) attrs) as [v|]; [|discriminate].
  intros H. apply andb_true_iff in H as [Hp Hs].
  rewrite (proj1 (plainb_kept s s1 v Hk Hp)), (proj2 (plainb_kept s s1 v Hk Hp)).
  simpl. destruct (is_list_type f); [reflexivity|]. simpl in *.
  destruct (as_list s v) as [[|x [|y r]]|]; try reflexivity.
  apply andb_true_iff in Hs as [Hx Hnl].
  now rewrite (proj1 (plainb_kept s s1 x Hk Hx)), (is_list_kept s s1 x Hk Hx).
Qed.

Lemma ensure_field_settled (rec : pyval -> M unit) (l : loc) (cls : string)
  (attrs : list (string * pyval)) (f : FieldInfo) (s : state) :
  heap s !! l = Some (HModel cls attrs) ->
  settled s attrs f = true ->
  ensure_field S rec (VRef l) f s = Ok tt s.
Proof.
  intros Hl Hs. unfold settled in Hs.
  destruct (dict_get (fname f) attrs) as [v|] eqn:Hv; [|discriminate].
  apply andb_true_iff in Hs as [Hp Hshape].
  unfold ensure_field. unfold bind at 1. rewrite (getattr_set _ _ _ _ _ _ Hl Hv).
  unfold bind at 1. rewrite (plainb_not_model s v Hp).
  destruct (is_list_type f).
  - apply orb_true_iff in Hshape as [H|H]; rewrite H; simpl;
      [reflexivity | now rewrite andb_false_r].
  - apply negb_true_iff in Hshape. now rewrite Hshape.
Qed.

(** A field that already has its declared shape is left alone by the
    cardinality pass: a sequence or null in a sequence field, a value that
    is no sequence in a scalar field (the value being no node); null is
    never wrapped.  An empty sequence in a scalar field is refused like a
    sequence of several elements: the TypeError is raised and nothing is
    written. *)
Theorem ensure_field_leaves_alone (rec : pyval -> M unit) (l : loc) (cls : string)
  (attrs : list (string * pyval)) (f : FieldInfo) (v : pyval) (s : state) :
  heap s !! l = Some (HModel cls attrs) ->
  dict_get (fname f) attrs = Some v ->
  (is_list_type f = true -> is_list s v = true \/ v = VNone ->
   ensure_field S rec (VRef l) f s = Ok tt s) /\
  (is_list_type f = false -> is_list s v = false -> is_model s v = false ->
   ensure_field S rec (VRef l) f s = Ok tt s) /\
  (is_list_type f = false -> as_list s v = Some [] ->
   ensure_field S rec (VRef l) f s =
   Raise (TypeError ("Found list where it is not supposed to be: " ++ fname f)) s).
Proof.
  intros Hl Hv.
  assert (Hlm : is_list s v = true -> is_model s v = false).
  { unfold is_list, is_model, as_list, as_model.
    destruct (deref s v) as [[xs|c a]|]; now try discriminate. }
  split; [|split]; intros Hlt;
    unfold ensure_field; unfold bind at 1; rewrite (getattr_set _ _ _ _ _ _ Hl Hv);
    unfold bind at 1.
  - intros [Hil | ->].
    + rewrite (Hlm Hil), Hlt, Hil. reflexivity.
    + simpl. now rewrite Hlt.
  - intros Hnl Hnm. rewrite Hnm, Hlt, Hnl. reflexivity.
  - intros Hxs. assert (Hil : is_list s v = true) by (unfold is_list; now rewrite Hxs).
    rewrite (Hlm Hil), Hlt, Hil, Hxs. reflexivity.
Qed.

Lemma settles_here (l : loc) (cls : string) (attrs : list (string * pyval))
  (f : FieldInfo) (s : state) :
  heap s !! l = Some (HModel cls attrs) ->
  settled s attrs f = true ->
  exists attrs1,
    heap s !! l = Some (HModel cls attrs1) /\
    settled s attrs1 f = true /\
    (forall name, name <> fname f -> dict_get name attrs1 = dict_get name attrs) /\
    lists_kept s s.
Proof.
  intros Hl Hs. exists attrs. split; [exact Hl|]. split; [exact Hs|].
  split; [reflexivity | apply lists_kept_refl].
Qed.

Lemma ensure_field_settles (rec : pyval -> M unit) (l : loc) (cls : string)
  (attrs : list (string * pyval)) (f : FieldInfo) (s s1 : state) :
  heap s !! l = Some (HModel cls attrs) ->
  declares S cls (fname f) = true ->
  unnested s attrs f = true ->
  ensure_field S rec (VRef l) f s = Ok tt s1 ->
  exists attrs1,
    heap s1 !! l = Some (HModel cls attrs1) /\
    settled s1 attrs1 f = true /\
    (forall name, name <> fname f -> dict_get name attrs1 = dict_get name attrs) /\
    lists_kept s s1.
Proof.
  intros Hl Hd Hu Hrun. unfold unnested in Hu.
  destruct (dict_get (fname f) attrs) as [v|] eqn:Hv; [|discriminate].
  apply andb_true_iff in Hu as [Hp Hu].
  unfold ensure_field in Hrun. unfold bind at 1 in Hrun.
  rewrite (getattr_set _ _ _ _ _ _ Hl Hv) in Hrun. unfold bind at 1 in Hrun.
  rewrite (plainb_not_model s v Hp) in Hrun.
  destruct (is_list_type f) eqn:Hlt; simpl in Hrun.
  - destruct (is_list s v) eqn:Hil; simpl in Hrun.
    + injection Hrun as <-. apply settles_here; [assumption|].
      unfold settled. now rewrite Hv, Hp, Hlt, Hil.
    + destruct (is_none v) eqn:Hn; simpl in Hrun.
      * injection Hrun as <-. apply settles_here; [assumption|].
        unfold settled. now rewrite Hv, Hp, Hlt, Hil, Hn.
      * unfold bind, alloc in Hrun.
        set (s' := mkState (heap s ++ [HList [v]])%list (events s)) in *.
        assert (Hl' : heap s' !! l = Some (HModel cls attrs)) by now apply lookup_alloc_old.
        rewrite (setattr_declared S s' l cls (fname f) attrs _ Hl' Hd) in Hrun.
        injection Hrun as <-.
        assert (Hnew : heap (with_attr s' l cls attrs (fname f) (VRef (length (heap s))))
                         !! length (heap s) = Some (HList [v])).
        { rewrite with_attr_other; [apply lookup_alloc_new|].
          apply lookup_lt_Some in Hl. lia. }
        exists (dict_set (fname f) (VRef (length (heap s))) attrs). split; [|split; [|split]].
        -- now apply with_attr_same.
        -- unfold settled. rewrite dict_get_set, String.eqb_refl, Hlt.
           unfold plainb. now rewrite (is_list_lookup _ _ _ Hnew).
        -- intros name Hne. rewrite dict_get_set. apply String.eqb_neq in Hne.
           now rewrite Hne.
        -- apply (lists_kept_trans s s'); [apply lists_kept_alloc|].
           now apply lists_kept_with_attr.
  - destruct (is_list s v) eqn:Hil; simpl in Hrun.
    + destruct (as_list s v) as [[|x [|y r]]|] eqn:Hxs; try discriminate.
      apply andb_true_iff in Hu as [Hx Hnl]. apply negb_true_iff in Hnl.
      unfold bind in Hrun.
      rewrite (setattr_declared S s l cls (fname f) attrs x Hl Hd) in Hrun.
      simpl in Hrun. injection Hrun as <-.
      assert (Hk : lists_kept s (with_attr s l cls attrs (fname f) x))
        by now apply lists_kept_with_attr.
      exists (dict_set (fname f) x attrs). split; [|split; [|split]].
      * simpl. apply list_lookup_insert_eq. now apply lookup_lt_Some in Hl.
      * apply (settled_kept (with_attr s l cls attrs (fname f) x) _
                 (dict_set (fname f) x attrs)); [apply lists_kept_events | reflexivity|].
        unfold settled. rewrite dict_get_set, String.eqb_refl, Hlt.
        rewrite (proj1 (plainb_kept _ _ x Hk Hx)), (is_list_kept _ _ x Hk Hx), Hnl.
        reflexivity.
      * intros name Hne. rewrite dict_get_set. apply String.eqb_neq in Hne.
        now rewrite Hne.
      * apply (lists_kept_trans s (with_attr s l cls attrs (fname f) x));
          [assumption | apply lists_kept_events].
    + injection Hrun as <-. apply settles_here; [assumption|].
      unfold settled. now rewrite Hv, Hp, Hlt, Hil.
Qed.

Lemma ensure_pass_settles (rec : pyval -> M unit) (l : loc) (cls : string)
  (todo : list FieldInfo) :
  forall (attrs : list (string * pyval)) (s s1 : state),
    heap s !! l = Some (HModel cls attrs) ->
    List.NoDup (map fname todo) ->
    forallb (fun f => declares S cls (fname f)) todo = true ->
    forallb (unnested s attrs) todo = true ->
    for_each todo (ensure_field S rec (VRef l)) s = Ok tt s1 ->
    exists attrs1,
      heap s1 !! l = Some (HModel cls attrs1) /\
      forallb (settled s1 attrs1) todo = true /\
      (forall name, ~ List.In name (map fname todo) ->
         dict_get name attrs1 = dict_get name attrs) /\
      lists_kept s s1.
Proof.
  induction todo as [|f r IH]; intros attrs s s1 Hl Hnd Hd Hu Hrun.
  - simpl in Hrun. injection Hrun as <-. exists attrs.
    split; [exact Hl|]. split; [reflexivity|]. split; [reflexivity | apply lists_kept_refl].
  - simpl in Hd, Hu. apply andb_true_iff in Hd as [Hd1 Hd2].
    apply andb_true_iff in Hu as [Hu1 Hu2]. inversion Hnd as [|? ? Hf Hr]; subst.
    simpl in Hrun. unfold bind in Hrun.
    destruct (ensure_field S rec (VRef l) f s) as [[] s'|e s'|] eqn:Hstep; try discriminate.
    destruct (ensure_field_settles rec l cls attrs f s s' Hl Hd1 Hu1 Hstep)
      as (attrs' & Hl' & Hs' & Hother & Hk).
    assert (Hu' : forallb (unnested s' attrs') r = true).
    { rewrite forallb_forall in *. intros g Hg.
      apply (unnested_kept s s' attrs attrs' g Hk); [|now apply Hu2].
      apply Hother. intros E. apply Hf. rewrite <- E. now apply in_map. }
    destruct (IH attrs' s' s1 Hl' Hr Hd2 Hu' Hrun) as (attrs1 & Hl1 & Hs1 & Hother1 & Hk1).
    exists attrs1. split; [exact Hl1|]. split; [|split].
    + simpl. rewrite Hs1, andb_true_r.
      apply (settled_kept s' s1 attrs' attrs1 f Hk1); [now apply Hother1 | exact Hs'].
    + intros name Hn. simpl in Hn. rewrite Hother1 by tauto. apply Hother.
      intros ->. tauto.
    + now apply (lists_kept_trans s s' s1).
Qed.

Lemma ensure_pass_settled (rec : pyval -> M unit) (l : loc) (cls : string)
  (attrs : list (string * pyval)) (s : state) (fields : list FieldInfo) :
  heap s !! l = Some (HModel cls attrs) ->
  forallb (settled s attrs) fields = true ->
  for_each fields (ensure_field S rec (VRef l)) s = Ok tt s.
Proof.
  intros Hl. induction fields as [|f r IH]; simpl; [reflexivity|].
  intros H. apply andb_true_iff in H as [Hf Hr]. unfold bind.
  rewrite (ensure_field_settled rec l cls attrs f s Hl Hf). now apply IH.
Qed.

Lemma declares_all (cls : string) :
  forallb (fun f => declares S cls (fname f)) (fields_of S cls) = true.
Proof. apply forallb_forall. intros f Hin. now apply declares_In. Qed.

(** The cardinality pass on a node that holds no nested node and no
    sequence nested in a single-element sequence of a scalar field: if a
    first run returns, every field of the node then has its declared
    shape, and a second run changes nothing - same store, no new
    warning. *)
Theorem ensure_lists_settles (n m : nat) (l : loc) (cls : string)
  (attrs : list (string * pyval)) (s s1 : state) :
  heap s !! l = Some (HModel cls attrs) ->
  distinct (map fname (fields_of S cls)) = true ->
  forallb (unnested s attrs) (fields_of S cls) = true ->
  _ensure_lists S (Datatypes.S n) (VRef l) s = Ok tt s1 ->
  (exists attrs1,
     heap s1 !! l = Some (HModel cls attrs1) /\
     forallb (settled s1 attrs1) (fields_of S cls) = true) /\
  _ensure_lists S (Datatypes.S m) (VRef l) s1 = Ok tt s1.
Proof.
  intros Hl Hd Hu Hrun. simpl in Hrun. rewrite (as_model_lookup _ _ _ _ Hl) in Hrun.
  destruct (ensure_pass_settles (_ensure_lists S n) l cls (fields_of S cls) attrs s s1 Hl
              (distinct_NoDup _ Hd) (declares_all cls) Hu Hrun)
    as (attrs1 & Hl1 & Hs1 & _ & _).
  split; [now exists attrs1|].
  simpl. rewrite (as_model_lookup _ _ _ _ Hl1).
  now apply (ensure_pass_settled _ l cls attrs1).
Qed.

End CardinalityAgain.

(** ** The cardinality pass on a node whose fields hold no node *)

Section CardinalityPass.

Context (S : Schema).





End CardinalityPass.

(** ** The cardinality pass on a node with nodes in its fields *)

Section CardinalityTree.

Context (S : Schema).














(** *** Writing a shaped value into a field *)



End CardinalityTree.

Section CardinalityTreePass.

Context (S : Schema).





End CardinalityTreePass.

Section CardinalityClaim.

Context (S : Schema).


End CardinalityClaim.



(** ** The snapshot of the Validator against the snapshot of the spec *)

Section SnapshotSpec.

Context (S : Schema).

Lemma spec_list (xs : list tree) : spec_snapshot S (TList xs) = TList (spec_elements S xs).
Proof.
  simpl. f_equal. unfold spec_elements.
  induction xs as [|x r IH]; [reflexivity|]. simpl. rewrite IH.
  now destruct (is_null x).
Qed.

Lemma spec_dict (kvs : list (string * tree)) :
  spec_snapshot S (TDict kvs) = TDict (spec_items S kvs).
Proof.
  simpl. f_equal. unfold spec_items.
  induction kvs as [|kv r IH]; [reflexivity|]. simpl. rewrite IH.
  now destruct (is_null (snd kv)).
Qed.

Lemma spec_node (cls : string) (attrs : list (string * tree)) :
  spec_snapshot S (TNode cls attrs) =
  TDict (kept_fields (fields_of S cls) (spec_values S attrs)).
Proof.
  reflexivity.
Qed.

Lemma complete_list (xs : list tree) :
  complete S (TList xs) = forallb (complete S) xs.
Proof. reflexivity. Qed.

Lemma complete_dict (kvs : list (string * tree)) :
  complete S (TDict kvs) =
  distinct (map fst kvs) && forallb (fun kv => complete S (snd kv)) kvs.
Proof. reflexivity. Qed.

Lemma complete_node (cls : string) (attrs : list (string * tree)) :
  complete S (TNode cls attrs) =
  distinct (map fname (fields_of S cls)) &&
  forallb (fun f => match dict_get (fname f) attrs with
                    | Some _ => true
                    | None => false
                    end) (fields_of S cls) &&
  forallb (fun kv => complete S (snd kv)) attrs.
Proof. reflexivity. Qed.

Lemma is_null_spec (t : tree) : is_null (spec_snapshot S t) = is_null t.
Proof. destruct t as [v|xs|kvs|cls attrs]; reflexivity. Qed.

Lemma dict_get_spec_values (name : string) (kvs : list (string * tree)) :
  dict_get name (spec_values S kvs) = option_map (spec_snapshot S) (dict_get name kvs).
Proof.
  unfold spec_values. induction kvs as [|[k t] r IH]; [reflexivity|]. simpl.
  now destruct (String.eqb name k).
Qed.

(** *** Reading values out of the store *)

Lemma read_null (n : nat) (s : state) (v : pyval) (t : tree) :
  read n s v = Some t -> is_null t = is_none v.
Proof.
  destruct n, v; simpl; try (intros [= <-]; reflexivity); try discriminate.
  - destruct (mapM _ kvs); simpl; [intros [= <-]; reflexivity | discriminate].
  - destruct (heap s !! l) as [[xs|cls attrs]|]; try discriminate.
    + destruct (mapM _ xs); simpl; [intros [= <-]; reflexivity | discriminate].
    + destruct (mapM _ attrs); simpl; [intros [= <-]; reflexivity | discriminate].
Qed.

Lemma read_leaf (n : nat) (s : state) (v x : pyval) :
  read n s v = Some (TLeaf x) -> v = x.
Proof.
  destruct n, v; simpl; try (now intros [= <-]); try discriminate.
  - destruct (mapM _ kvs); simpl; discriminate.
  - destruct (heap s !! l) as [[xs|cls attrs]|]; try discriminate.
    + destruct (mapM _ xs); simpl; discriminate.
    + destruct (mapM _ attrs); simpl; discriminate.
Qed.

Lemma read_is_leaf (n : nat) (s : state) (v : pyval) :
  is_leaf v = true -> read n s v = Some (TLeaf v).
Proof. destruct n, v; simpl; try discriminate; reflexivity. Qed.

Lemma read_extends (s s' : state) :
  extends s s' -> forall n v t, read n s v = Some t -> read n s' v = Some t.
Proof.
  intros Hx. induction n as [|n IH]; intros v t;
    destruct v as [| b | z | u | c u r | xs | kvs | l]; simpl; try tauto.
  - destruct (mapM (read_entry (read n s)) kvs) as [kts|] eqn:E; [|discriminate].
    simpl. intros [= <-]. apply mapM_Some_1 in E.
    assert (E' : mapM (read_entry (read n s')) kvs = Some kts).
    { apply mapM_Some_2. eapply Forall2_impl; [exact E|]. intros kv kt. unfold read_entry.
      destruct (read n s (snd kv)) as [t0|] eqn:R; [|discriminate].
      now rewrite (IH _ _ R). }
    now rewrite E'.
  - destruct (heap s !! l) as [[xs|cls attrs]|] eqn:Hl; [| |discriminate].
    + rewrite (extends_lookup _ _ _ _ Hx Hl).
      destruct (mapM (read n s) xs) as [ts|] eqn:E; [|discriminate].
      simpl. intros [= <-]. apply mapM_Some_1 in E.
      assert (E' : mapM (read n s') xs = Some ts).
      { apply mapM_Some_2. eapply Forall2_impl; [exact E|]. intros x t0. apply IH. }
      now rewrite E'.
    + rewrite (extends_lookup _ _ _ _ Hx Hl).
      destruct (mapM (read_entry (read n s)) attrs) as [kts|] eqn:E; [|discriminate].
      simpl. intros [= <-]. apply mapM_Some_1 in E.
      assert (E' : mapM (read_entry (read n s')) attrs = Some kts).
      { apply mapM_Some_2. eapply Forall2_impl; [exact E|]. intros kv kt. unfold read_entry.
        destruct (read n s (snd kv)) as [t0|] eqn:R; [|discriminate].
        now rewrite (IH _ _ R). }
      now rewrite E'.
Qed.

Lemma entries_read_extends (n : nat) (s s' : state) (kvs : list (string * pyval))
  (kts : list (string * tree)) :
  extends s s' -> entries_read n s kvs kts -> entries_read n s' kvs kts.
Proof.
  intros Hx H. eapply Forall2_impl; [exact H|]. intros kv kt. unfold read_entry.
  destruct (read n s (snd kv)) as [t0|] eqn:R; [|discriminate].
  now rewrite (read_extends s s' Hx _ _ _ R).
Qed.

Lemma entries_read_keys (n : nat) (s : state) (kvs : list (string * pyval))
  (kts : list (string * tree)) :
  entries_read n s kvs kts -> map fst kts = dict_keys kvs.
Proof.
  induction 1 as [|kv kt r rt H _ IH]; [reflexivity|]. simpl. rewrite IH. f_equal.
  unfold read_entry in H. destruct (read n s (snd kv)); [|discriminate].
  simpl in H. now injection H as <-.
Qed.

Lemma entries_read_get (n : nat) (s : state) (kvs : list (string * pyval))
  (kts : list (string * tree)) (name : string) :
  entries_read n s kvs kts ->
  match dict_get name kts with
  | Some t => exists v, dict_get name kvs = Some v /\ read n s v = Some t
  | None => dict_get name kvs = None
  end.
Proof.
  induction 1 as [|[k v] kt r rt H _ IH]; [reflexivity|].
  unfold read_entry in H. simpl in H. destruct (read n s v) as [t|] eqn:R; [|discriminate].
  simpl in H. injection H as <-. simpl. destruct (String.eqb name k); [|exact IH].
  now exists v.
Qed.

Lemma entries_read_app (n : nat) (s : state) (kvs : list (string * pyval))
  (kts : list (string * tree)) (k : string) (v : pyval) (t : tree) :
  entries_read n s kvs kts -> read n s v = Some t ->
  entries_read n s (kvs ++ [(k, v)]) (kts ++ [(k, t)]).
Proof.
  intros H R. apply Forall2_app; [exact H|]. constructor; [|constructor].
  unfold read_entry. simpl. now rewrite R.
Qed.

Lemma dict_set_new {A} (k : string) (v : A) (d : list (string * A)) :
  ~ List.In k (dict_keys d) -> dict_set k v d = (d ++ [(k, v)])%list.
Proof.
  induction d as [|[k0 v0] r IH]; simpl; intros H; [reflexivity|].
  destruct (String.eqb k k0) eqn:E.
  - apply String.eqb_eq in E. subst. exfalso. apply H. now left.
  - rewrite IH; [reflexivity|]. tauto.
Qed.

End SnapshotSpec.

Section SnapshotRefines.

Context (S : Schema).

Lemma elements_refine (n : nat) :
  snapshot_refines S n ->
  forall xs ts s,
    Forall2 (fun x t => read n s x = Some t) xs ts ->
    forallb (complete S) ts = true ->
    exists rs s',
      drop_elements (_drop_none S n) xs s = Ok rs s' /\ extends s s' /\
      Forall2 (fun r t => read n s' r = Some t) rs (spec_elements S ts).
Proof.
  intros IHn xs. induction xs as [|x r IH]; intros ts s H Hc; inversion H as [|? t ? tr Hx Hr]; subst.
  - exists [], s. split; [reflexivity|]. split; [apply extends_refl | constructor].
  - simpl in Hc. apply andb_true_iff in Hc as [Hct Hcr].
    simpl. unfold spec_elements. simpl. rewrite <- (read_null n s x t Hx).
    destruct (is_null t) eqn:Hnull; simpl.
    + now apply IH.
    + destruct (IHn x s t Hx Hct) as (c & s1 & Hrun & Hx1 & Hread).
      assert (Hr1 : Forall2 (fun x t => read n s1 x = Some t) r tr).
      { eapply Forall2_impl; [exact Hr|]. intros a b. now apply read_extends. }
      destruct (IH tr s1 Hr1 Hcr) as (rs & s' & Hruns & Hx' & Hreads).
      exists (c :: rs), s'. unfold bind. rewrite Hrun, Hruns.
      split; [reflexivity|]. split; [now apply (extends_trans s s1 s')|].
      constructor; [|exact Hreads]. now apply (read_extends s1 s').
Qed.

Lemma items_refine (n : nat) :
  snapshot_refines S n ->
  forall items its result result_t s,
    entries_read n s items its ->
    forallb (fun kt => complete S (snd kt)) its = true ->
    entries_read n s result result_t ->
    List.NoDup (dict_keys result ++ dict_keys items) ->
    exists kvs s',
      drop_items (_drop_none S n) items result s = Ok kvs s' /\ extends s s' /\
      entries_read n s' kvs (result_t ++ spec_items S its).
Proof.
  intros IHn items. induction items as [|[k v] r IH]; intros its result result_t s H Hc Hres Hnd;
    inversion H as [|? kt ? tr Hx Hr]; subst.
  - exists result, s. split; [reflexivity|]. split; [apply extends_refl|].
    unfold spec_items. simpl. now rewrite app_nil_r.
  - simpl in Hc. apply andb_true_iff in Hc as [Hct Hcr].
    unfold read_entry in Hx. simpl in Hx.
    destruct (read n s v) as [t|] eqn:Hv; [|discriminate]. simpl in Hx. injection Hx as <-.
    simpl in Hct. simpl. unfold spec_items. simpl. rewrite <- (read_null n s v t Hv).
    assert (Hfresh : ~ List.In k (dict_keys result) /\ List.NoDup (dict_keys result ++ dict_keys r)).
    { simpl in Hnd. split.
      - apply NoDup_remove_2 in Hnd. rewrite in_app_iff in Hnd. tauto.
      - now apply NoDup_remove_1 in Hnd. }
    destruct Hfresh as [Hk Hnd'].
    destruct (is_null t) eqn:Hnull; simpl.
    + now apply IH.
    + destruct (IHn v s t Hv Hct) as (c & s1 & Hrun & Hx1 & Hread).
      unfold bind. rewrite Hrun. rewrite (dict_set_new k c result Hk).
      destruct (IH tr (result ++ [(k, c)])%list (result_t ++ [(k, spec_snapshot S t)])%list s1)
        as (kvs & s' & Hruns & Hx' & Hreads).
      * now apply (entries_read_extends n s s1).
      * exact Hcr.
      * apply entries_read_app; [now apply (entries_read_extends n s s1) | exact Hread].
      * unfold dict_keys. rewrite map_app. simpl. rewrite <- app_assoc. simpl.
        simpl in Hnd. exact Hnd.
      * exists kvs, s'. split; [exact Hruns|]. split; [now apply (extends_trans s s1 s')|].
        rewrite <- app_assoc in Hreads. exact Hreads.
Qed.

Lemma fields_refine (n : nat) (l : loc) (cls : string) (attrs : list (string * pyval))
  (attrs_t : list (string * tree)) :
  snapshot_refines S n ->
  forallb (fun kt => complete S (snd kt)) attrs_t = true ->
  forall fields result result_t s,
    heap s !! l = Some (HModel cls attrs) ->
    entries_read n s attrs attrs_t ->
    forallb (fun f => match dict_get (fname f) attrs_t with
                      | Some _ => true
                      | None => false
                      end) fields = true ->
    entries_read n s result result_t ->
    List.NoDup (dict_keys result ++ map fname fields) ->
    exists kvs s',
      drop_fields (_drop_none S n) (VRef l) fields result s = Ok kvs s' /\ extends s s' /\
      entries_read n s' kvs (result_t ++ kept_fields fields (spec_values S attrs_t)).
Proof.
  intros IHn Hc fields. induction fields as [|f r IH]; intros result result_t s Hl Hattrs Hset Hres Hnd.
  - exists result, s. split; [reflexivity|]. split; [apply extends_refl|].
    simpl. now rewrite app_nil_r.
  - simpl in Hset. apply andb_true_iff in Hset as [Hf Hsetr].
    destruct (dict_get (fname f) attrs_t) as [t|] eqn:Ht; [|discriminate].
    pose proof (entries_read_get n s attrs attrs_t (fname f) Hattrs) as Hget.
    rewrite Ht in Hget. destruct Hget as (v & Hv & Hread).
    assert (Hct : complete S t = true).
    { rewrite forallb_forall in Hc. apply (Hc (fname f, t)). now apply dict_get_In. }
    assert (Hfresh : ~ List.In (fname f) (dict_keys result) /\
                     List.NoDup (dict_keys result ++ map fname r)).
    { simpl in Hnd. split.
      - apply NoDup_remove_2 in Hnd. rewrite in_app_iff in Hnd. tauto.
      - now apply NoDup_remove_1 in Hnd. }
    destruct Hfresh as [Hk Hnd'].
    simpl. unfold bind at 1. unfold drop_field. rewrite (getattr_set _ _ _ _ _ _ Hl Hv).
    rewrite dict_get_spec_values, Ht. simpl. rewrite is_null_spec.
    rewrite <- (read_null n s v t Hread).
    destruct (negb (is_null t) || required f) eqn:Hkeep.
    + destruct (IHn v s t Hread Hct) as (c & s1 & Hrun & Hx1 & Hreadc).
      unfold bind. rewrite Hrun. rewrite (dict_set_new (fname f) c result Hk).
      destruct (IH (result ++ [(fname f, c)])%list
                  (result_t ++ [(fname f, spec_snapshot S t)])%list s1)
        as (kvs & s' & Hruns & Hx' & Hreads).
      * now apply (extends_lookup s s1).
      * now apply (entries_read_extends n s s1).
      * exact Hsetr.
      * apply entries_read_app; [now apply (entries_read_extends n s s1) | exact Hreadc].
      * unfold dict_keys. rewrite map_app. simpl. rewrite <- app_assoc. simpl.
        simpl in Hnd. exact Hnd.
      * exists kvs, s'. split; [exact Hruns|]. split; [now apply (extends_trans s s1 s')|].
        rewrite <- app_assoc in Hreads. exact Hreads.
    + destruct (IH result result_t s Hl Hattrs Hsetr Hres Hnd') as (kvs & s' & Hruns & Hx' & Hreads).
      exists kvs, s'. split; [exact Hruns|]. split; [exact Hx' | exact Hreads].
Qed.

Lemma drop_none_refines (n : nat) : snapshot_refines S n.
Proof.
  induction n as [|n IH]; intros v s t Hread Hc.
  - destruct v as [| b | z | u | c u r | xs | kvs | l]; try discriminate;
      injection Hread as <-; eexists _, s;
      (split; [reflexivity|]); (split; [apply extends_refl | reflexivity]).
  - destruct v as [| b | z | u | c u r | xs | kvs | l];
      try (injection Hread as <-; eexists _, s;
           (split; [reflexivity|]); (split; [apply extends_refl | reflexivity])).
    + (* a mapping *)
      simpl in Hread.
      destruct (mapM (read_entry (read n s)) kvs) as [kts|] eqn:E; [|discriminate].
      simpl in Hread. injection Hread as <-. apply mapM_Some_1 in E.
      rewrite complete_dict in Hc. apply andb_true_iff in Hc as [Hd Hc].
      destruct (items_refine n IH kvs kts [] [] s E Hc) as (res & s' & Hrun & Hx & Hres).
      * constructor.
      * simpl. rewrite <- (entries_read_keys n s kvs kts E). now apply distinct_NoDup.
      * exists (VDict res), s'. split; [|split; [exact Hx|]].
        -- simpl. unfold bind. now rewrite Hrun.
        -- rewrite spec_dict. simpl in Hres. apply mapM_Some_2 in Hres.
           cbn [read]. now rewrite Hres.
    + (* a sequence or a node *)
      simpl in Hread. destruct (heap s !! l) as [[xs|cls attrs]|] eqn:Hl; [| |discriminate].
      * destruct (mapM (read n s) xs) as [ts|] eqn:E; [|discriminate].
        simpl in Hread. injection Hread as <-. apply mapM_Some_1 in E.
        rewrite complete_list in Hc.
        destruct (elements_refine n IH xs ts s E Hc) as (rs & s' & Hrun & Hx & Hres).
        exists (VRef (length (heap s'))), (mkState (heap s' ++ [HList rs])%list (events s')).
        assert (Hx2 : extends s' (mkState (heap s' ++ [HList rs])%list (events s'))).
        { exists [HList rs]. split; reflexivity. }
        split; [|split].
        -- simpl. rewrite Hl. unfold bind. now rewrite Hrun.
        -- now apply (extends_trans s s').
        -- rewrite spec_list. cbn [read heap]. rewrite lookup_alloc_new.
           assert (E' : mapM (read n (mkState (heap s' ++ [HList rs])%list (events s'))) rs =
                        Some (spec_elements S ts)).
           { apply mapM_Some_2. eapply Forall2_impl; [exact Hres|].
             intros a b. now apply read_extends. }
           now rewrite E'.
      * destruct (mapM (read_entry (read n s)) attrs) as [kts|] eqn:E; [|discriminate].
        simpl in Hread. injection Hread as <-. apply mapM_Some_1 in E.
        rewrite complete_node in Hc. apply andb_true_iff in Hc as [Hc Hsub].
        apply andb_true_iff in Hc as [Hd Hset].
        destruct (fields_refine n l cls attrs kts IH Hsub (fields_of S cls) [] [] s Hl E Hset)
          as (res & s' & Hrun & Hx & Hres).
        -- constructor.
        -- simpl. now apply distinct_NoDup.
        -- exists (VDict res), s'. rewrite (drop_none_node S n l cls attrs s Hl), Hrun.
           split; [reflexivity|]. split; [exact Hx|].
           rewrite spec_node. simpl in Hres. apply mapM_Some_2 in Hres. cbn [read].
           now rewrite Hres.
Qed.

End SnapshotRefines.

Section SnapshotClaim.

Context (S : Schema).

Lemma kept_fields_keys (fields : list FieldInfo) (values : list (string * tree)) (k : string) :
  List.In k (map fst (kept_fields fields values)) -> List.In k (map fname fields).
Proof.
  induction fields as [|g r IH]; simpl; [tauto|].
  rewrite map_app, in_app_iff. intros [H|H]; [|right; now apply IH].
  destruct (dict_get (fname g) values) as [c|]; [|contradiction].
  destruct (negb (is_null c) || required g); [|contradiction].
  simpl in H. destruct H as [<-|[]]. now left.
Qed.

Lemma dict_get_app_l {A} (k : string) (d1 d2 : list (string * A)) (v : A) :
  dict_get k d1 = Some v -> dict_get k (d1 ++ d2) = Some v.
Proof.
  induction d1 as [|[k0 v0] r IH]; simpl; [discriminate|].
  destruct (String.eqb k k0); [tauto | exact IH].
Qed.

Lemma dict_get_app_r {A} (k : string) (d1 d2 : list (string * A)) :
  dict_get k d1 = None -> dict_get k (d1 ++ d2) = dict_get k d2.
Proof.
  induction d1 as [|[k0 v0] r IH]; simpl; [reflexivity|].
  destruct (String.eqb k k0); [discriminate | exact IH].
Qed.

Lemma dict_get_kept_fields (fields : list FieldInfo) (values : list (string * tree))
  (f : FieldInfo) :
  List.NoDup (map fname fields) -> List.In f fields ->
  dict_get (fname f) (kept_fields fields values) =
  match dict_get (fname f) values with
  | Some c => if negb (is_null c) || required f then Some c else None
  | None => None
  end.
Proof.
  induction fields as [|g r IH]; simpl; [tauto|].
  intros Hnd Hin. inversion Hnd as [|? ? Hg Hr]; subst.
  destruct Hin as [->|Hin].
  - assert (Hrest : dict_get (fname f) (kept_fields r values) = None).
    { apply dict_get_None. intros H. apply Hg. now apply (kept_fields_keys r values). }
    destruct (dict_get (fname f) values) as [c|].
    + destruct (negb (is_null c) || required f); simpl.
      * now rewrite String.eqb_refl.
      * exact Hrest.
    + exact Hrest.
  - assert (Hne : String.eqb (fname f) (fname g) = false).
    { apply String.eqb_neq. intros E. apply Hg. rewrite <- E. now apply in_map. }
    rewrite dict_get_app_r; [now apply IH|].
    destruct (dict_get (fname g) values) as [c|]; [|reflexivity].
    destruct (negb (is_null c) || required g); [|reflexivity].
    simpl. now rewrite Hne.
Qed.

Lemma kept_fields_names (n : nat) (s : state) (attrs : list (string * pyval))
  (attrs_t : list (string * tree)) (fields : list FieldInfo) :
  entries_read n s attrs attrs_t ->
  map fst (kept_fields fields (spec_values S attrs_t)) =
  map fname (List.filter (kept attrs) fields).
Proof.
  intros H. induction fields as [|g r IH]; [reflexivity|]. simpl.
  rewrite map_app, IH. unfold kept. rewrite dict_get_spec_values.
  pose proof (entries_read_get n s attrs attrs_t (fname g) H) as Hg.
  destruct (dict_get (fname g) attrs_t) as [t|].
  - destruct Hg as (v & -> & Hread). simpl. rewrite is_null_spec, (read_null n s v t Hread).
    now destruct (negb (is_none v) || required g).
  - now rewrite Hg.
Qed.

(** C2, as the code has it.
    - For every value whose tree is complete (every declared field of
      every node is set), [_drop_none] returns, changes no object, and
      the value it returns holds exactly the snapshot of the spec: the
      plain nested mapping of the tree without the fields that are null
      and not mandatory, without null elements and null entries,
      recursively.
    - For a node, that snapshot is a mapping whose keys are the declared
      fields that are not null or are mandatory, in the order of
      declaration; a mandatory field that is null is retained as null, a
      field that is null and not mandatory is absent.  [validate] then
      raises the ValidationError if the schema's strict validation
      rejects a mapping in which that mandatory field is null, and
      returns, logging the success, if strict validation accepts the
      snapshot.
    - A node on which a declared field is not set has no snapshot:
      [_drop_none] raises its ValueError and [validate] raises it too,
      before any schema validation. *)
Theorem drop_none_snapshot (n : nat) (s : state) :
  (forall v t,
     read n s v = Some t -> complete S t = true ->
     exists r s',
       _drop_none S n v s = Ok r s' /\ extends s s' /\
       read n s' r = Some (spec_snapshot S t)) /\
  (forall l cls attrs t,
     heap s !! l = Some (HModel cls attrs) ->
     read n s (VRef l) = Some t -> complete S t = true ->
     exists kvs s',
       _drop_none S n (VRef l) s = Ok (VDict kvs) s' /\ extends s s' /\
       read n s' (VDict kvs) = Some (spec_snapshot S t) /\
       dict_keys kvs = map fname (List.filter (kept attrs) (fields_of S cls)) /\
       (forall f, List.In f (fields_of S cls) -> required f = true ->
          dict_get (fname f) attrs = Some VNone -> dict_get (fname f) kvs = Some VNone) /\
       (forall f, List.In f (fields_of S cls) -> required f = false ->
          dict_get (fname f) attrs = Some VNone -> dict_get (fname f) kvs = None) /\
       (forall f, List.In f (fields_of S cls) -> required f = true ->
          dict_get (fname f) attrs = Some VNone ->
          (forall st d, dict_get (fname f) d = Some VNone ->
             model_validate S cls st (VDict d) <> None) ->
          exists msg, validate S n (VRef l) s = Raise (ValidationError msg) s') /\
       (model_validate S cls s' (VDict kvs) = None ->
        validate S n (VRef l) s =
        Ok tt (mkState (heap s') (events s' ++ [LogInfo "Validation successful"])))) /\
  (forall l cls attrs,
     heap s !! l = Some (HModel cls attrs) ->
     distinct (map fname (fields_of S cls)) = true ->
     bounded n s (VRef l) = true ->
     (exists f, List.In f (fields_of S cls) /\ dict_get (fname f) attrs = None) ->
     has_no_snapshot S n s l).
Proof.
  split; [|split].
  - intros v t. apply drop_none_refines.
  - intros l cls attrs t Hl Hread Hc.
    destruct (drop_none_refines S n (VRef l) s t Hread Hc) as (r & s' & Hrun & Hx & Hres).
    destruct n as [|n]; [discriminate|].
    simpl in Hread. rewrite Hl in Hread.
    destruct (mapM (read_entry (read n s)) attrs) as [attrs_t|] eqn:E; [|discriminate].
    simpl in Hread. injection Hread as <-. apply mapM_Some_1 in E.
    rewrite (drop_none_node S n l cls attrs s Hl) in Hrun.
    destruct (drop_fields (_drop_none S n) (VRef l) (fields_of S cls) [] s) as [kvs s1|e s1|]
      eqn:Hfields; try discriminate.
    injection Hrun as <- <-.
    rewrite complete_node in Hc. apply andb_true_iff in Hc as [Hc _].
    apply andb_true_iff in Hc as [Hd _]. apply distinct_NoDup in Hd.
    rewrite spec_node in Hres. cbn [read] in Hres.
    destruct (mapM (read_entry (read n s1)) kvs) as [kts|] eqn:Ek; [|discriminate].
    simpl in Hres. injection Hres as ->. apply mapM_Some_1 in Ek.
    assert (Hnull : forall f, List.In f (fields_of S cls) ->
              dict_get (fname f) attrs = Some VNone ->
              dict_get (fname f) (kept_fields (fields_of S cls) (spec_values S attrs_t)) =
              if required f then Some (TLeaf VNone) else None).
    { intros f Hf Hv. rewrite (dict_get_kept_fields _ _ f Hd Hf), dict_get_spec_values.
      pose proof (entries_read_get n s attrs attrs_t (fname f) E) as Hg.
      destruct (dict_get (fname f) attrs_t) as [t|].
      - destruct Hg as (v & Hv' & Hr). rewrite Hv in Hv'. injection Hv' as <-.
        destruct n; simpl in Hr; injection Hr as <-; simpl; now destruct (required f).
      - rewrite Hv in Hg. discriminate. }
    assert (Hretained : forall f, List.In f (fields_of S cls) -> required f = true ->
              dict_get (fname f) attrs = Some VNone -> dict_get (fname f) kvs = Some VNone).
    { intros f Hf Hreq Hv.
      pose proof (entries_read_get n s1 kvs _ (fname f) Ek) as Hg.
      rewrite (Hnull f Hf Hv), Hreq in Hg. destruct Hg as (v & Hv' & Hr).
      now rewrite (read_leaf n s1 v VNone Hr) in Hv'. }
    assert (Hval :
              validate S (Datatypes.S n) (VRef l) s =
              match _drop_none S (Datatypes.S n) (VRef l) s with
              | Ok c s2 =>
                  match as_model s2 (VRef l) with
                  | Some (cls, _) =>
                      match model_validate S cls s2 c with
                      | Some msg => Raise (ValidationError msg) s2
                      | None => emit (LogInfo "Validation successful") s2
                      end
                  | None => Raise (no_attribute s2 (VRef l) "model_validate") s2
                  end
              | Raise e s2 => Raise e s2
              | OutOfFuel => OutOfFuel
              end) by reflexivity.
    rewrite (drop_none_node S n l cls attrs s Hl), Hfields in Hval.
    rewrite (as_model_lookup _ _ _ _ (extends_lookup _ _ _ _ Hx Hl)) in Hval.
    exists kvs, s1. split; [now rewrite (drop_none_node S n l cls attrs s Hl), Hfields|].
    split; [exact Hx|]. split.
    { rewrite spec_node. cbn [read]. apply mapM_Some_2 in Ek. now rewrite Ek. }
    split; [|split; [exact Hretained|split; [|split]]].
    + rewrite <- (entries_read_keys n s1 kvs _ Ek). now apply (kept_fields_names n s).
    + intros f Hf Hreq Hv.
      pose proof (entries_read_get n s1 kvs _ (fname f) Ek) as Hg.
      now rewrite (Hnull f Hf Hv), Hreq in Hg.
    + intros f Hf Hreq Hv Hstrict. rewrite Hval.
      specialize (Hstrict s1 kvs (Hretained f Hf Hreq Hv)).
      destruct (model_validate S cls s1 (VDict kvs)) as [msg|]; [now exists msg | contradiction].
    + intros Hacc. rewrite Hval, Hacc. reflexivity.
  - intros l cls attrs Hl Hd Hb.
    apply (proj1 (proj1 (drop_none_cases S n s) l cls attrs Hl Hd Hb)).
Qed.

End SnapshotClaim.

Lemma drop_none_snapshot_witness :
  (* a node in a node, with a sequence: the snapshot is made and is the
     one of the spec *)
  (exists r s',
     _drop_none Hri.schema 3 (VRef 0) catalog_with_contact = Ok r s' /\
     read 3 s' r = Some (spec_snapshot Hri.schema catalog_with_contact_tree)) /\
  spec_snapshot Hri.schema catalog_with_contact_tree =
    TDict [("title", TLeaf VNone); ("description", TLeaf VNone);
           ("contact_point",
            TDict [("hasEmail", TLeaf (VStr "test@testing.com"));
                   ("fn", TList [TLeaf (VStr "Test Person")]);
                   ("hasUrl", TLeaf (VStr "https://example.com"))]);
           ("publisher", TLeaf VNone)] /\
  (* a mandatory field that is null is retained and validation fails; a
     field that is null and not mandatory is dropped *)
  (exists kvs s',
     _drop_none Hri.schema 1 (VRef 0) kind_null = Ok (VDict kvs) s' /\
     dict_get "fn" kvs = Some VNone /\ dict_get "hasUrl" kvs = None /\
     exists msg, validate Hri.schema 1 (VRef 0) kind_null = Raise (ValidationError msg) s') /\
  (* null elements are dropped and validation succeeds *)
  (exists kvs s',
     _drop_none Hri.schema 2 (VRef 0) kind_with_urls = Ok (VDict kvs) s' /\
     read 2 s' (VDict kvs) =
       Some (TDict [("hasEmail", TLeaf (VStr "test@testing.com"));
                    ("fn", TLeaf (VStr "Test Person"));
                    ("hasUrl", TList [TLeaf (VStr "https://example.com")])]) /\
     validate Hri.schema 2 (VRef 0) kind_with_urls =
       Ok tt (mkState (heap s') (events s' ++ [LogInfo "Validation successful"]))) /\
  (* a declared field that is not set *)
  has_no_snapshot Hri.schema 1 kind_unset 0.
Proof.
  split; [|split; [|split; [|split]]].
  - destruct (proj1 (drop_none_snapshot Hri.schema 3 catalog_with_contact) (VRef 0)
                catalog_with_contact_tree eq_refl eq_refl) as (r & s' & H1 & _ & H2).
    now exists r, s'.
  - reflexivity.
  - destruct (proj1 (proj2 (drop_none_snapshot Hri.schema 1 kind_null)) 0 "Kind" kind_null_attrs
                (TNode "Kind" [("hasUrl", TLeaf VNone);
                               ("hasEmail", TLeaf (VStr "test@testing.com"));
                               ("fn", TLeaf VNone)])
                eq_refl eq_refl eq_refl)
      as (kvs & s' & H1 & _ & _ & _ & H2 & H3 & H4 & _).
    exists kvs, s'. split; [exact H1|]. split; [|split].
    + apply (H2 (Hri.req "fn" Hri.text)); [simpl; tauto | reflexivity | reflexivity].
    + apply (H3 (Hri.opt "hasUrl" Hri.urls)); [simpl; tauto | reflexivity | reflexivity].
    + apply (H4 (Hri.req "fn" Hri.text)); [simpl; tauto | reflexivity | reflexivity|].
      intros st d Hd. cbn. cbn in Hd. rewrite Hd.
      destruct (dict_get "hasEmail" d) as [[]|]; cbn; discriminate.
  - destruct (proj1 (proj2 (drop_none_snapshot Hri.schema 2 kind_with_urls)) 0 "Kind"
                [("hasEmail", VStr "test@testing.com"); ("fn", VStr "Test Person");
                 ("hasUrl", VRef 1)]
                (TNode "Kind" [("hasEmail", TLeaf (VStr "test@testing.com"));
                               ("fn", TLeaf (VStr "Test Person"));
                               ("hasUrl", TList [TLeaf (VStr "https://example.com");
                                                 TLeaf VNone])])
                eq_refl eq_refl eq_refl)
      as (kvs & s' & H1 & _ & H2 & _ & _ & _ & _ & H5).
    exists kvs, s'. split; [exact H1|]. split; [exact H2|]. apply H5.
    assert (E : _drop_none Hri.schema 2 (VRef 0) kind_with_urls =
                Ok (VDict [("hasEmail", VStr "test@testing.com"); ("fn", VStr "Test Person");
                           ("hasUrl", VRef 2)])
                   (mkState [HModel "Kind" [("hasEmail", VStr "test@testing.com");
                                            ("fn", VStr "Test Person"); ("hasUrl", VRef 1)];
                             HList [VStr "https://example.com"; VNone];
                             HList [VStr "https://example.com"]] []))
      by (vm_compute; reflexivity).
    rewrite E in H1. injection H1 as <- <-. vm_compute. reflexivity.
  - apply (proj2 (proj2 (drop_none_snapshot Hri.schema 1 kind_unset)) 0 "Kind"
             [("hasUrl", VNone); ("hasEmail", VStr "test@testing.com")]
             eq_refl eq_refl eq_refl).
    exists (Hri.req "fn" Hri.text). split; [simpl; tauto | reflexivity].
Defined.

(** ** The vocabulary pass on sequences *)

Section VocabularySequences.

Context (S : Schema).

Lemma with_elements_same (s : state) (k : loc) (xs : list pyval) :
  heap s !! k = Some (HList xs) -> with_elements s k xs = s.
Proof.
  intros Hk. unfold with_elements. destruct s as [h evs]. simpl in *. f_equal.
  now apply list_insert_id.
Qed.

Lemma with_elements_again (s : state) (k : loc) (xs ys : list pyval) :
  with_elements (with_elements s k xs) k ys = with_elements s k ys.
Proof. unfold with_elements. simpl. f_equal. apply list_insert_insert_eq. Qed.

Lemma with_elements_lookup (s : state) (k : loc) (xs cs : list pyval) :
  heap s !! k = Some (HList xs) -> heap (with_elements s k cs) !! k = Some (HList cs).
Proof. intros Hk. simpl. apply list_lookup_insert_eq. now apply lookup_lt_Some in Hk. Qed.

(** a loop over the sequence at [k] whose body puts [step x] in the place
    of each element [x] *)
Lemma enumerate_rewrites (k : loc) (body : nat -> pyval -> M unit)
  (step : pyval -> option pyval) :
  (forall position x c ys s,
     step x = Some c -> heap s !! k = Some (HList ys) -> ys !! position = Some x ->
     body position x s = Ok tt (with_elements s k (<[position := c]> ys))) ->
  forall todo done ctodo s,
    Forall2 (fun x c => step x = Some c) todo ctodo ->
    heap s !! k = Some (HList (done ++ todo)) ->
    enumerate_from (length todo) (length done) k body s =
    Ok tt (with_elements s k (done ++ ctodo)).
Proof.
  intros Hbody todo. induction todo as [|x r IH]; intros done ctodo s H Hk;
    inversion H as [|? c ? cr Hx Hr]; subst.
  - simpl. now rewrite (with_elements_same s k _ Hk).
  - simpl. rewrite Hk. rewrite (list_lookup_middle done r x (length done) eq_refl).
    unfold bind.
    rewrite (Hbody (length done) x c (done ++ x :: r)%list s Hx Hk
               (list_lookup_middle done r x (length done) eq_refl)).
    assert (E : <[length done := c]> (done ++ x :: r)%list = ((done ++ [c]) ++ r)%list).
    { rewrite insert_app_r_alt by lia. rewrite Nat.sub_diag. simpl.
      now rewrite <- app_assoc. }
    rewrite E.
    replace (Datatypes.S (length done)) with (length (done ++ [c])%list)
      by (rewrite length_app; simpl; lia).
    rewrite (IH (done ++ [c])%list cr _ Hr (with_elements_lookup s k _ _ Hk)).
    rewrite with_elements_again. now rewrite <- app_assoc.
Qed.

Lemma for_enumerate_rewrites (k : loc) (body : nat -> pyval -> M unit)
  (step : pyval -> option pyval) (xs cs : list pyval) (s : state) :
  (forall position x c ys s,
     step x = Some c -> heap s !! k = Some (HList ys) -> ys !! position = Some x ->
     body position x s = Ok tt (with_elements s k (<[position := c]> ys))) ->
  heap s !! k = Some (HList xs) ->
  Forall2 (fun x c => step x = Some c) xs cs ->
  for_enumerate k body s = Ok tt (with_elements s k cs).
Proof.
  intros Hbody Hk H. unfold for_enumerate. rewrite Hk.
  apply (enumerate_rewrites k body step Hbody xs [] cs s H Hk).
Qed.

(** the first loop of a field, over the elements that are nodes, finds
    none *)
Lemma for_enumerate_no_node (rec : pyval -> M unit) (k : loc) (xs : list pyval) (s : state) :
  heap s !! k = Some (HList xs) ->
  Forall (fun x => is_model s x = false) xs ->
  for_enumerate k (fun _ v s2 => if is_model s2 v then rec v s2 else Ok tt s2) s = Ok tt s.
Proof.
  intros Hk Hall. unfold for_enumerate. rewrite Hk.
  assert (H : forall todo done, xs = (done ++ todo)%list ->
            enumerate_from (length todo) (length done) k
              (fun _ v s2 => if is_model s2 v then rec v s2 else Ok tt s2) s = Ok tt s).
  { induction todo as [|x r IH]; intros done E; [reflexivity|].
    simpl. rewrite Hk, E. rewrite (list_lookup_middle done r x (length done) eq_refl).
    unfold bind. rewrite Forall_forall in Hall.
    rewrite (Hall x) by (rewrite E; apply list_elem_of_In, in_or_app; right; now left).
    replace (Datatypes.S (length done)) with (length (done ++ [x])%list)
      by (rewrite length_app; simpl; lia).
    apply IH. now rewrite <- app_assoc. }
  now apply (H xs []).
Qed.

Lemma canonical_not_model (step : pyval -> option pyval) (s : state) (xs cs : list pyval) :
  (forall x c, step x = Some c -> match x with VStr _ | VAtom _ _ _ => True | _ => False end) ->
  Forall2 (fun x c => step x = Some c) xs cs ->
  Forall (fun x => is_model s x = false) xs.
Proof.
  intros Hstep H. induction H as [|x c r cr Hx _ IH]; constructor; [|exact IH].
  specialize (Hstep x c Hx). destruct x; try contradiction; reflexivity.
Qed.

Lemma theme_body (fuel : nat) (k : loc) (position : nat) (x c : pyval) (ys : list pyval)
  (s : state) :
  canonical_theme S x = Some c -> heap s !! k = Some (HList ys) -> ys !! position = Some x ->
  (if isinstance s x "DatasetTheme" then Ok tt s
   else (do canonical <~ _to_enum S fuel x (KTable (themes S));
         list_setitem k position canonical) s) =
  Ok tt (with_elements s k (<[position := c]> ys)).
Proof.
  intros Hc Hk Hx. destruct x as [| b | z | t | cl t r | xs | kvs | l]; try discriminate.
  - simpl in Hc. simpl. unfold bind. simpl. rewrite Hc. unfold ret, list_setitem.
    now rewrite Hk.
  - simpl in Hc. simpl. destruct (String.eqb cl "DatasetTheme"); [|discriminate].
    injection Hc as <-. rewrite (list_insert_id ys position _ Hx).
    now rewrite (with_elements_same s k ys Hk).
Qed.

Lemma language_body (fuel : nat) (k : loc) (position : nat) (x c : pyval) (ys : list pyval)
  (s : state) :
  canonical_language S x = Some c -> heap s !! k = Some (HList ys) ->
  ys !! position = Some x ->
  (if isinstance s x "AnyHttpUrl" then Ok tt s
   else (do canonical <~ _to_enum S fuel x KLanguage;
         list_setitem k position canonical) s) =
  Ok tt (with_elements s k (<[position := c]> ys)).
Proof.
  intros Hc Hk Hx. destruct x as [| b | z | t | cl t r | xs | kvs | l]; try discriminate.
  - unfold canonical_language in Hc.
    destruct (3 <=? PyStr.length t)%nat eqn:Hlen; [|discriminate].
    injection Hc as <-. cbn [isinstance]. unfold bind.
    cbv [_to_enum _language_transformation py_len].
    rewrite Hlen. unfold list_setitem. now rewrite Hk.
  - simpl in Hc. simpl. destruct (String.eqb cl "AnyHttpUrl"); [|discriminate].
    injection Hc as <-. rewrite (list_insert_id ys position _ Hx).
    now rewrite (with_elements_same s k ys Hk).
Qed.

Lemma string_to_enum_field_sequence (rec : pyval -> M unit) (fuel : nat) (l k : loc)
  (cls : string) (attrs : list (string * pyval)) (xs cs : list pyval) (s : state) :
  heap s !! l = Some (HModel cls attrs) ->
  heap s !! k = Some (HList xs) -> xs <> [] ->
  (dict_get "theme" attrs = Some (VRef k) ->
   mapM (canonical_theme S) xs = Some cs ->
   string_to_enum_field S rec fuel (VRef l) "theme" s = Ok tt (with_elements s k cs)) /\
  (dict_get "language" attrs = Some (VRef k) ->
   mapM (canonical_language S) xs = Some cs ->
   string_to_enum_field S rec fuel (VRef l) "language" s = Ok tt (with_elements s k cs)).
Proof.
  intros Hl Hk Hne.
  assert (Ht : truthy s (VRef k) = true).
  { unfold truthy. rewrite (as_list_lookup _ _ _ Hk). destruct xs; [contradiction|reflexivity]. }
  assert (Hnm : is_model s (VRef k) = false).
  { unfold is_model, as_model, deref. unfold loc in *. now rewrite Hk. }
  split; intros Hv Hcs; apply mapM_Some_1 in Hcs;
    unfold string_to_enum_field; unfold bind at 1; rewrite (getattr_set _ _ _ _ _ _ Hl Hv);
    rewrite Ht; unfold bind at 1; rewrite Hnm.
  - rewrite (for_enumerate_no_node rec k xs s Hk).
    2:{ apply (canonical_not_model (canonical_theme S) s xs cs); [|exact Hcs].
        intros x c Hx. destruct x; try discriminate; exact I. }
    simpl. rewrite (is_list_lookup _ _ _ Hk).
    apply (for_enumerate_rewrites k _ (canonical_theme S) xs cs s); [|exact Hk|exact Hcs].
    intros position x c ys s0. apply (theme_body fuel).
  - rewrite (for_enumerate_no_node rec k xs s Hk).
    2:{ apply (canonical_not_model (canonical_language S) s xs cs); [|exact Hcs].
        intros x c Hx. destruct x; try discriminate; exact I. }
    simpl. rewrite (is_list_lookup _ _ _ Hk).
    apply (for_enumerate_rewrites k _ (canonical_language S) xs cs s); [|exact Hk|exact Hcs].
    intros position x c ys s0. apply (language_body fuel).
Qed.

Lemma string_to_enum_field_falsy (rec : pyval -> M unit) (fuel : nat) (l : loc)
  (cls name : string) (attrs : list (string * pyval)) (v : pyval) (s : state) :
  heap s !! l = Some (HModel cls attrs) ->
  dict_get name attrs = Some v -> truthy s v = false ->
  string_to_enum_field S rec fuel (VRef l) name s = Ok tt s.
Proof.
  intros Hl Hv Ht. unfold string_to_enum_field. unfold bind.
  rewrite (getattr_set _ _ _ _ _ _ Hl Hv). now rewrite Ht.
Qed.

Lemma string_to_enum_all_falsy (rec : pyval -> M unit) (fuel : nat) (l : loc)
  (cls : string) (attrs : list (string * pyval)) (fs : list FieldInfo) (s : state) :
  heap s !! l = Some (HModel cls attrs) ->
  (forall f, List.In f fs ->
     exists v, dict_get (fname f) attrs = Some v /\ truthy s v = false) ->
  for_each fs (fun f => string_to_enum_field S rec fuel (VRef l) (fname f)) s = Ok tt s.
Proof.
  intros Hl. induction fs as [|f r IH]; intros H; [reflexivity|].
  simpl. unfold bind. destruct (H f (or_introl eq_refl)) as (v & Hv & Ht).
  rewrite (string_to_enum_field_falsy rec fuel l cls (fname f) attrs v s Hl Hv Ht).
  apply IH. intros g Hg. apply H. now right.
Qed.

Lemma string_to_enum_one_field (rec : pyval -> M unit) (fuel : nat) (l : loc)
  (cls target : string) (attrs : list (string * pyval)) (s s' : state) (fs : list FieldInfo) :
  heap s !! l = Some (HModel cls attrs) ->
  heap s' !! l = Some (HModel cls attrs) ->
  List.NoDup (map fname fs) ->
  (forall f, List.In f fs -> fname f <> target ->
     exists v, dict_get (fname f) attrs = Some v /\ forall st, truthy st v = false) ->
  List.In target (map fname fs) ->
  string_to_enum_field S rec fuel (VRef l) target s = Ok tt s' ->
  for_each fs (fun f => string_to_enum_field S rec fuel (VRef l) (fname f)) s = Ok tt s'.
Proof.
  intros Hl Hl' Hnd Hothers Hin Hstep. induction fs as [|f r IH]; [contradiction|].
  inversion Hnd as [|? ? Hf Hr]; subst. simpl. unfold bind.
  destruct (String.eqb_spec (fname f) target) as [E|E].
  - rewrite E, Hstep. apply (string_to_enum_all_falsy rec fuel l cls attrs r s' Hl').
    intros g Hg. destruct (Hothers g (or_intror Hg)) as (v & Hv & Ht).
    + intros E'. apply Hf. rewrite E, <- E'. now apply in_map.
    + exists v. split; [exact Hv | apply Ht].
  - destruct (Hothers f (or_introl eq_refl) E) as (v & Hv & Ht).
    rewrite (string_to_enum_field_falsy rec fuel l cls (fname f) attrs v s Hl Hv (Ht s)).
    apply IH; [exact Hr| |].
    + intros g Hg. apply Hothers. now right.
    + simpl in Hin. destruct Hin as [Hin|Hin]; [contradiction | exact Hin].
Qed.

(** The vocabulary pass on a node whose theme (or language) holds a
    non-empty sequence, the other fields being null or otherwise falsy:
    the elements are converted one by one in the sequence object itself
    - a raw label to the theme that the table holds for its lowercased
    text, a raw language to the authority URI of its first three
    characters - and an element that is a theme (a URL) already is left
    as it is; the field still holds the same sequence object, and nothing
    else changes. *)
Theorem string_to_enum_sequences (n : nat) (l k : loc) (cls : string)
  (attrs : list (string * pyval)) (xs cs : list pyval) (s : state) :
  heap s !! l = Some (HModel cls attrs) ->
  heap s !! k = Some (HList xs) -> xs <> [] ->
  distinct (map fname (fields_of S cls)) = true ->
  (dict_get "theme" attrs = Some (VRef k) ->
   mapM (canonical_theme S) xs = Some cs ->
   declares S cls "theme" = true ->
   (forall f, List.In f (fields_of S cls) -> fname f <> "theme" ->
      exists v, dict_get (fname f) attrs = Some v /\ forall st, truthy st v = false) ->
   _string_to_enum S (Datatypes.S n) (VRef l) s = Ok tt (with_elements s k cs)) /\
  (dict_get "language" attrs = Some (VRef k) ->
   mapM (canonical_language S) xs = Some cs ->
   declares S cls "language" = true ->
   (forall f, List.In f (fields_of S cls) -> fname f <> "language" ->
      exists v, dict_get (fname f) attrs = Some v /\ forall st, truthy st v = false) ->
   _string_to_enum S (Datatypes.S n) (VRef l) s = Ok tt (with_elements s k cs)).
Proof.
  intros Hl Hk Hne Hd.
  assert (Hl' : heap (with_elements s k cs) !! l = Some (HModel cls attrs)).
  { simpl. rewrite list_lookup_insert_ne; [exact Hl|]. intros ->.
    pose proof (eq_trans (eq_sym Hl) Hk) as X. discriminate X. }
  assert (Hin : forall name, declares S cls name = true ->
                  List.In name (map fname (fields_of S cls))).
  { intros name H. unfold declares in H. apply existsb_exists in H as (f & Hf & E).
    apply String.eqb_eq in E. subst name. now apply in_map. }
  destruct (string_to_enum_field_sequence (_string_to_enum S n) n l k cls attrs xs cs s
              Hl Hk Hne) as [Htheme Hlang].
  split; intros Hv Hcs Hdecl Hothers; simpl; rewrite (as_model_lookup _ _ _ _ Hl).
  - apply (string_to_enum_one_field _ n l cls "theme" attrs s _ _ Hl Hl'
             (distinct_NoDup _ Hd) Hothers (Hin _ Hdecl)).
    now apply Htheme.
  - apply (string_to_enum_one_field _ n l cls "language" attrs s _ _ Hl Hl'
             (distinct_NoDup _ Hd) Hothers (Hin _ Hdecl)).
    now apply Hlang.
Qed.

End VocabularySequences.

(** ** Instances of the statements above *)


Lemma fill_fields_skips_witness :
  _fill_fields Hri.schema (VRef 0)
    (VDict [("mapping", VDict [("challenge_title", VStr "title")])])
    (mkState [HModel "Dataset" []] [])
  = Ok tt (mkState [HModel "Dataset" []] []) /\
  _fill_fields Hri.schema (VRef 0) (VDict [("identifier", VStr EmptyString)])
    (mkState [HModel "Dataset" []] [])
  = Ok tt (mkState [HModel "Dataset" []] []).
Proof.
  split.
  - etransitivity;
      [apply (fill_fields_skips Hri.schema (VRef 0) "mapping"
                (VDict [("challenge_title", VStr "title")]) []
                (mkState [HModel "Dataset" []] []) eq_refl);
       left; reflexivity
      | reflexivity].
  - etransitivity;
      [apply (fill_fields_skips Hri.schema (VRef 0) "identifier" (VStr EmptyString) []
                (mkState [HModel "Dataset" []] []) eq_refl);
       right; split; reflexivity
      | reflexivity].
Defined.

Lemma fill_fields_plain_key_witness :
  _fill_fields Hri.schema (VRef 0) (VDict [("identifier", VStr "idee")])
    (mkState [HModel "Dataset" []] [])
  = Ok tt (mkState [HModel "Dataset" [("identifier", VStr "idee")]] []) /\
  _fill_fields Hri.schema (VRef 0) (VDict [("colour", VStr "blue")])
    (mkState [HModel "Dataset" []] [])
  = Raise (no_field "Dataset" "colour") (mkState [HModel "Dataset" []] []).
Proof.
  split.
  - assert (H : is_list (mkState [HModel "Dataset" []] []) (VStr "idee") = true \/
                (structural_class "identifier" = None /\ "identifier" <> "mapping" /\
                 truthy (mkState [HModel "Dataset" []] []) (VStr "idee") = true)).
    { right. split; [reflexivity|]. split; [discriminate | reflexivity]. }
    rewrite (proj1 (fill_fields_plain_key Hri.schema 0 "Dataset" "identifier" []
                      (VStr "idee") [] (mkState [HModel "Dataset" []] []) eq_refl H)
               eq_refl).
    vm_compute. reflexivity.
  - assert (H : is_list (mkState [HModel "Dataset" []] []) (VStr "blue") = true \/
                (structural_class "colour" = None /\ "colour" <> "mapping" /\
                 truthy (mkState [HModel "Dataset" []] []) (VStr "blue") = true)).
    { right. split; [reflexivity|]. split; [discriminate | reflexivity]. }
    exact (proj2 (fill_fields_plain_key Hri.schema 0 "Dataset" "colour" []
                    (VStr "blue") [] (mkState [HModel "Dataset" []] []) eq_refl H)
             eq_refl).
Defined.

Lemma fill_fields_structural_scalar_witness :
  exists s',
    heap s' = [HModel "Dataset" [("creator", VRef 1)];
               HModel "Agent" (construct_attrs (fields_of Hri.schema "Agent") [])] /\
    events s' = [Print fill_hint; Print fill_hint] /\
    exists msg,
      _fill_fields Hri.schema (VRef 0) (VDict [("creator", VStr "datasetmaker")])
        (mkState [HModel "Dataset" []] [])
      = Raise (AttributeError msg) s'.
Proof.
  apply (fill_fields_structural_scalar Hri.schema 0 "Dataset" "creator" "Agent" []
           (VStr "datasetmaker") [] (mkState [HModel "Dataset" []] [])
           eq_refl eq_refl eq_refl eq_refl).
  intros kvs. discriminate.
Defined.

Lemma populate_FDP_fans_out_witness :
  _populate_FDP Hri.schema (VRef 0) [("challenge_title", VStr "Title given by challenge")]
    (VDict [("mapping", VDict [("challenge_title", VRef 1)])])
    (mkState [HModel "Dataset" [("identifier", VStr "idee")];
              HList [VStr "title"; VStr "description"]] [])
  = Ok tt (mkState [HModel "Dataset" [("identifier", VStr "idee");
                                      ("title", VStr "Title given by challenge");
                                      ("description", VStr "Title given by challenge")];
                    HList [VStr "title"; VStr "description"]] []).
Proof.
  apply (proj1 (populate_FDP_fans_out Hri.schema 0 1 "Dataset" "challenge_title"
                  [("identifier", VStr "idee")]
                  [("challenge_title", VStr "Title given by challenge")]
                  (VStr "Title given by challenge") ["title"; "description"]
                  (mkState [HModel "Dataset" [("identifier", VStr "idee")];
                            HList [VStr "title"; VStr "description"]] [])
                  eq_refl eq_refl eq_refl eq_refl eq_refl
                  ltac:(simpl; intros [H|[H|[]]]; discriminate H))).
Defined.

Lemma populate_FDP_keyword_edges_witness :
  _populate_FDP Hri.schema (VRef 0) [("challenge_keywords", VStr "Medical")]
    (VDict [("mapping", VDict [("challenge_keywords", VRef 1)])])
    (mkState [HModel "Dataset" [("keyword", VNone)]; HList [VStr "keyword"]] [])
  = Ok tt (mkState [HModel "Dataset" [("keyword", VStr "Medical")]; HList [VStr "keyword"]] []) /\
  (exists msg,
     _populate_FDP Hri.schema (VRef 0) [("challenge_keywords", VStr "Medical")]
       (VDict [("mapping", VDict [("challenge_keywords", VRef 1)])])
       (mkState [HModel "Dataset" [("keyword", VRef 2)]; HList [VStr "keyword"];
                 HList [VStr "configured"]] [])
     = Raise (TypeError msg)
         (mkState [HModel "Dataset" [("keyword", VRef 2)]; HList [VStr "keyword"];
                   HList [VStr "configured"]] [])) /\
  (exists msg,
     _populate_FDP Hri.schema (VRef 0) [("challenge_keywords", VStr "Medical")]
       (VDict [("mapping", VDict [("challenge_keywords", VRef 1)])])
       (mkState [HModel "Dataset" []; HList [VStr "keyword"]] [])
     = Raise (AttributeError msg) (mkState [HModel "Dataset" []; HList [VStr "keyword"]] [])).
Proof.
  split; [|split].
  - apply (proj1 (populate_FDP_keyword_edges Hri.schema 0 1 "Dataset" "challenge_keywords"
                    [("keyword", VNone)] [("challenge_keywords", VStr "Medical")]
                    (VStr "Medical")
                    (mkState [HModel "Dataset" [("keyword", VNone)]; HList [VStr "keyword"]] [])
                    eq_refl eq_refl eq_refl eq_refl) VNone eq_refl eq_refl eq_refl).
  - apply (proj1 (proj2 (populate_FDP_keyword_edges Hri.schema 0 1 "Dataset"
                    "challenge_keywords" [("keyword", VRef 2)]
                    [("challenge_keywords", VStr "Medical")] (VStr "Medical")
                    (mkState [HModel "Dataset" [("keyword", VRef 2)]; HList [VStr "keyword"];
                              HList [VStr "configured"]] [])
                    eq_refl eq_refl eq_refl eq_refl)) (VRef 2) eq_refl eq_refl eq_refl).
  - apply (proj2 (proj2 (populate_FDP_keyword_edges Hri.schema 0 1 "Dataset"
                    "challenge_keywords" [] [("challenge_keywords", VStr "Medical")]
                    (VStr "Medical")
                    (mkState [HModel "Dataset" []; HList [VStr "keyword"]] [])
                    eq_refl eq_refl eq_refl eq_refl)) eq_refl).
Defined.

Lemma sequence_under_structural_key_witness :
  _fill_fields Hri.schema (VRef 0) (VDict [("dataset", VRef 1)])
    (mkState [HModel "Catalog" []; HList [VStr "first"; VStr "second"]] [])
  = Ok tt (mkState [HModel "Catalog" [("dataset", VRef 1)];
                    HList [VStr "first"; VStr "second"]] []) /\
  _populate_FDP Hri.schema (VRef 0) [] (VDict [("dataset", VRef 1)])
    (mkState [HModel "Catalog" [("dataset", VRef 1)];
              HList [VStr "first"; VStr "second"]] [])
  = Raise (AttributeError "'list' object has no attribute 'items'")
      (mkState [HModel "Catalog" [("dataset", VRef 1)];
                HList [VStr "first"; VStr "second"]] []).
Proof.
  apply (sequence_under_structural_key Hri.schema 0 1 "Catalog" "dataset" []
           [VStr "first"; VStr "second"] []
           (mkState [HModel "Catalog" []; HList [VStr "first"; VStr "second"]] [])
           eq_refl eq_refl eq_refl).
  simpl. tauto.
Defined.

Lemma payload_overrides_configuration_witness :
  (_fill_fields Hri.schema (VRef 0)
     (VDict [("identifier", VStr "configured");
             ("mapping", VDict [("challenge_id", VRef 1)])]) ;;;
   _populate_FDP Hri.schema (VRef 0) [("challenge_id", VStr "from the platform")]
     (VDict [("identifier", VStr "configured");
             ("mapping", VDict [("challenge_id", VRef 1)])]) ;;;
   getattr (VRef 0) "identifier")
    (mkState [HModel "Dataset" []; HList [VStr "identifier"]] [])
  = Ok (VStr "from the platform")
      (mkState [HModel "Dataset" [("identifier", VStr "from the platform")];
                HList [VStr "identifier"]] []).
Proof.
  etransitivity;
    [apply (payload_overrides_configuration Hri.schema 0 1 "Dataset" "identifier"
              "challenge_id" "configured" [] [("challenge_id", VStr "from the platform")]
              (mkState [HModel "Dataset" []; HList [VStr "identifier"]] [])
              eq_refl eq_refl eq_refl eq_refl);
     discriminate
    | reflexivity].
Defined.

Lemma ensure_field_leaves_alone_witness :
  (* null in a sequence field *)
  ensure_field Hri.schema (_ensure_lists Hri.schema 2) (VRef 0) (Hri.opt "hasUrl" Hri.urls)
    (mkState [HModel "Kind" [("hasUrl", VNone)]] [])
  = Ok tt (mkState [HModel "Kind" [("hasUrl", VNone)]] []) /\
  (* a string in a scalar field *)
  ensure_field Hri.schema (_ensure_lists Hri.schema 2) (VRef 0) (Hri.req "fn" Hri.text)
    (mkState [HModel "Kind" [("fn", VStr "Test Person")]] [])
  = Ok tt (mkState [HModel "Kind" [("fn", VStr "Test Person")]] []) /\
  (* an empty sequence in a scalar field *)
  ensure_field Hri.schema (_ensure_lists Hri.schema 2) (VRef 0) (Hri.req "fn" Hri.text)
    (mkState [HModel "Kind" [("fn", VRef 1)]; HList []] [])
  = Raise (TypeError "Found list where it is not supposed to be: fn")
      (mkState [HModel "Kind" [("fn", VRef 1)]; HList []] []).
Proof.
  split; [|split].
  - apply (proj1 (ensure_field_leaves_alone Hri.schema (_ensure_lists Hri.schema 2) 0 "Kind"
                    [("hasUrl", VNone)] (Hri.opt "hasUrl" Hri.urls) VNone
                    (mkState [HModel "Kind" [("hasUrl", VNone)]] []) eq_refl eq_refl)
             eq_refl (or_intror eq_refl)).
  - apply (proj1 (proj2 (ensure_field_leaves_alone Hri.schema (_ensure_lists Hri.schema 2)
                    0 "Kind" [("fn", VStr "Test Person")] (Hri.req "fn" Hri.text)
                    (VStr "Test Person")
                    (mkState [HModel "Kind" [("fn", VStr "Test Person")]] [])
                    eq_refl eq_refl))
             eq_refl eq_refl eq_refl).
  - apply (proj2 (proj2 (ensure_field_leaves_alone Hri.schema (_ensure_lists Hri.schema 2)
                    0 "Kind" [("fn", VRef 1)] (Hri.req "fn" Hri.text) (VRef 1)
                    (mkState [HModel "Kind" [("fn", VRef 1)]; HList []] [])
                    eq_refl eq_refl))
             eq_refl eq_refl).
Defined.

Lemma ensure_lists_settles_witness :
  (exists attrs1,
     heap (mkState [HModel "Kind" [("hasEmail", VStr "test@testing.com"); ("fn", VStr "Test Person");
                                   ("hasUrl", VRef 2)];
                    HList [VStr "Test Person"]; HList [VStr "https://example.com"]]
             [Warn "Please do not put list in field: fn"]) !! 0%nat
       = Some (HModel "Kind" attrs1) /\
     forallb (settled (mkState [HModel "Kind" [("hasEmail", VStr "test@testing.com");
                                               ("fn", VStr "Test Person"); ("hasUrl", VRef 2)];
                                HList [VStr "Test Person"]; HList [VStr "https://example.com"]]
                         [Warn "Please do not put list in field: fn"]) attrs1)
       (fields_of Hri.schema "Kind") = true) /\
  _ensure_lists Hri.schema 1 (VRef 0)
    (mkState [HModel "Kind" [("hasEmail", VStr "test@testing.com"); ("fn", VStr "Test Person");
                             ("hasUrl", VRef 2)];
              HList [VStr "Test Person"]; HList [VStr "https://example.com"]]
       [Warn "Please do not put list in field: fn"])
  = Ok tt (mkState [HModel "Kind" [("hasEmail", VStr "test@testing.com"); ("fn", VStr "Test Person");
                                   ("hasUrl", VRef 2)];
                    HList [VStr "Test Person"]; HList [VStr "https://example.com"]]
             [Warn "Please do not put list in field: fn"]).
Proof.
  apply (ensure_lists_settles Hri.schema 0 0 0 "Kind"
           [("hasEmail", VStr "test@testing.com"); ("fn", VRef 1);
            ("hasUrl", VStr "https://example.com")]
           (mkState [HModel "Kind" [("hasEmail", VStr "test@testing.com"); ("fn", VRef 1);
                                    ("hasUrl", VStr "https://example.com")];
                     HList [VStr "Test Person"]] [])
           _ eq_refl eq_refl eq_refl eq_refl).
Defined.

Lemma string_to_enum_sequences_witness :
  _string_to_enum Hri.schema 1 (VRef 0)
    (mkState [HModel "Dataset" (dataset_attrs (VRef 1) VNone);
              HList [VStr "HEAL"; tech_theme]] [])
  = Ok tt (mkState [HModel "Dataset" (dataset_attrs (VRef 1) VNone);
                    HList [heal_theme; tech_theme]] []) /\
  _string_to_enum Hri.schema 1 (VRef 0)
    (mkState [HModel "Dataset" (dataset_attrs VNone (VRef 1));
              HList [VStr "english"; VStr "nld"]] [])
  = Ok tt (mkState [HModel "Dataset" (dataset_attrs VNone (VRef 1));
                    HList [VStr "http://publications.europa.eu/resource/authority/language/ENG";
                           VStr "http://publications.europa.eu/resource/authority/language/NLD"]]
             []).
Proof.
  split.
  - apply (proj1 (string_to_enum_sequences Hri.schema 0 0 1 "Dataset"
                    (dataset_attrs (VRef 1) VNone) [VStr "HEAL"; tech_theme]
                    [heal_theme; tech_theme]
                    (mkState [HModel "Dataset" (dataset_attrs (VRef 1) VNone);
                              HList [VStr "HEAL"; tech_theme]] [])
                    eq_refl eq_refl ltac:(discriminate) ltac:(vm_compute; reflexivity))
             eq_refl ltac:(vm_compute; reflexivity) ltac:(vm_compute; reflexivity)).
    intros f Hf Hne. vm_compute in Hf.
    repeat (destruct Hf as [<-|Hf];
            [first [exfalso; apply Hne; reflexivity
                   | exists VNone; split; [reflexivity | intros; reflexivity]] |]).
    destruct Hf.
  - apply (proj2 (string_to_enum_sequences Hri.schema 0 0 1 "Dataset"
                    (dataset_attrs VNone (VRef 1)) [VStr "english"; VStr "nld"]
                    [VStr "http://publications.europa.eu/resource/authority/language/ENG";
                     VStr "http://publications.europa.eu/resource/authority/language/NLD"]
                    (mkState [HModel "Dataset" (dataset_attrs VNone (VRef 1));
                              HList [VStr "english"; VStr "nld"]] [])
                    eq_refl eq_refl ltac:(discriminate) ltac:(vm_compute; reflexivity))
             eq_refl ltac:(vm_compute; reflexivity) ltac:(vm_compute; reflexivity)).
    intros f Hf Hne. vm_compute in Hf.
    repeat (destruct Hf as [<-|Hf];
            [first [exfalso; apply Hne; reflexivity
                   | exists VNone; split; [reflexivity | intros; reflexivity]] |]).
    destruct Hf.
Defined.
